(** * Fast TArray delta replication (NetSerialization.h): a shallow embedding

    The development follows the header file: 32-bit counters, the per-observer
    base state ([FNetFastTArrayBaseState]), the item and serializer structs,
    the helper methods of [TFastArraySerializeHelper], the two branches of
    [FastArrayDeltaSerialize], and the bounded array header codec
    [SafeNetSerializeTArray_HeaderOnly].

    Conventions.
    - An [int32] is a [Z]; every [++] and [--] on a counter is written with
      its wrap-around ([incr32], [decr32]).
    - A [TMap<int32,int32>] is a [gmap Z Z]; iterating a map walks
      [map_to_list] (the engine's iteration order is an implementation detail
      of the container, and no statement below depends on it).
    - A [TArray<T>] is a [list T]; an index is an [int32]; a range-checked
      access [Items[i]] is [At Items i], which fails outside the array.
    - Shared base states live in a store and are referred to by address, so
      that sharing is visible.
    - Code that can hit a failed [check] or a range check returns an
      [option]; [None] is the assertion failure.
    - The per-item payload and its encoder/decoder ([NetSerializeStruct]) are
      parameters ([FastArrayItemType]), as are the two console variables
      ([FastArrayLimits]).  The GUID re-resolution bookkeeping
      ([GuidReferencesMap]) does not touch items, keys or the id index and is
      left out, as are the log statements. *)

From Stdlib Require Import ZArith Lia.
From stdpp Require Import base option list sorting gmap fin_maps.

Local Open Scope Z_scope.

(** ** 32-bit integers *)

Definition INT32_MAX : Z := 2147483647.
Definition INT32_MIN : Z := -2147483648.

(** Two's complement reduction of an integer to the [int32] range. *)
Definition wrap32 (x : Z) : Z := (x + 2147483648) mod 4294967296 - 2147483648.

(** [++x] on an [int32]. *)
Definition incr32 (x : Z) : Z := wrap32 (x + 1).

(** [--x] on an [int32]. *)
Definition decr32 (x : Z) : Z := wrap32 (x - 1).

Definition in_int32 (x : Z) : Prop := INT32_MIN <= x <= INT32_MAX.

Definition INDEX_NONE : Z := -1.

(** ** Arrays *)

Section TArray.
Context {A : Type}.

(** [TArray::Num]. *)
Definition Num (l : list A) : Z := Z.of_nat (length l).

(** [TArray::IsValidIndex]. *)
Definition IsValidIndex (l : list A) (i : Z) : bool :=
  (0 <=? i) && (i <? Num l).

(** [TArray::operator[]], with its range check. *)
Definition At (l : list A) (i : Z) : option A :=
  if IsValidIndex l i then l !! Z.to_nat i else None.

(** Assignment through the reference [Items[i]] of a valid index. *)
Definition SetAt (l : list A) (i : Z) (x : A) : list A :=
  <[Z.to_nat i := x]> l.

(** [TArray::RemoveAtSwap(Index, 1, false)] at a valid index: the last
    element is moved into the hole and the array shrinks by one. *)
Definition RemoveAtSwap (l : list A) (i : nat) : list A :=
  match last l with
  | Some x => <[i := x]> (take (Nat.pred (length l)) l)
  | None => l
  end.

(** [TArray::Contains]. *)
Definition Contains `{EqDecision A} (l : list A) (x : A) : bool :=
  bool_decide (x ∈ l).
End TArray.

(** [TArray<int32>::Sort], ascending. *)
Definition Sort (l : list Z) : list Z := merge_sort Z.le l.

(** ** The byte stream *)

(** Modelled from the spec: the bit reader and writer of the transport
    ([FBitReader], [FBitWriter]) are supplied by the caller; section 6 asks
    for integer serialization of a given width and an error flag on malformed
    input.  The writer is the sequence of 32-bit words written so far; the
    reader hands the words out in order, and reading past the end (or after an
    error) sets the error flag and yields zero. *)
Definition FBitWriter : Type := list Z.

Record FBitReader := mkReader {
  Words : list Z;
  ArIsError : bool
}.

(** Modelled from the spec: [Writer << Value] for a 32-bit value. *)
Definition WriteInt32 (W : FBitWriter) (v : Z) : FBitWriter := W ++ [v].

(** Modelled from the spec: [Reader.SetError()]. *)
Definition SetError (R : FBitReader) : FBitReader :=
  {| Words := Words R; ArIsError := true |}.

(** Modelled from the spec: [Reader << Value] for a 32-bit value. *)
Definition ReadInt32 (R : FBitReader) : Z * FBitReader :=
  if ArIsError R then (0, R)
  else match Words R with
       | [] => (0, SetError R)
       | w :: ws => (w, {| Words := ws; ArIsError := false |})
       end.

(** ** The parameters of the templates *)

(** The array element type [Type]: its payload (everything but the three
    bookkeeping fields, which are [NotReplicated]) and what
    [NetSerializeCB->NetSerializeStruct] does with it when saving and when
    loading. *)
Class FastArrayItemType := {
  Payload : Type;
  Payload_default : Payload;
  NetSerializeStruct_Save : Payload -> list Z;
  NetSerializeStruct_Load : FBitReader -> Payload -> Payload * FBitReader
}.

(** The static members [MaxNumberOfAllowedChangesPerUpdate] and
    [MaxNumberOfAllowedDeletionsPerUpdate] (console variables defined outside
    the header). *)
Class FastArrayLimits := {
  MaxNumberOfAllowedChangesPerUpdate : Z;
  MaxNumberOfAllowedDeletionsPerUpdate : Z
}.

(** ** The per-observer base state *)

Module BaseState.

(** [class FNetFastTArrayBaseState]: the id -> key map and the array key the
    map was computed against. *)
Record FNetFastTArrayBaseState := mk {
  IDToCLMap : gmap Z Z;
  ArrayReplicationKey : Z
}.

(** The default constructor. *)
Definition new : FNetFastTArrayBaseState :=
  {| IDToCLMap := ∅; ArrayReplicationKey := INDEX_NONE |}.

Definition set_ArrayReplicationKey (k : Z) (s : FNetFastTArrayBaseState) :=
  {| IDToCLMap := IDToCLMap s; ArrayReplicationKey := k |}.

Definition set_IDToCLMap (m : gmap Z Z) (s : FNetFastTArrayBaseState) :=
  {| IDToCLMap := m; ArrayReplicationKey := ArrayReplicationKey s |}.

(** The loop of [IsStateEqual] over the entries of this state's map, with
    its early [return false]. *)
Fixpoint IsStateEqual_loop (It : list (Z * Z)) (Other : gmap Z Z) : bool :=
  match It with
  | [] => true
  | (Key, Value) :: It' =>
      match Other !! Key with
      | None => false
      | Some V =>
          if negb (V =? Value) then false else IsStateEqual_loop It' Other
      end
  end.

Definition IsStateEqual (This Other : FNetFastTArrayBaseState) : bool :=
  IsStateEqual_loop (map_to_list (IDToCLMap This)) (IDToCLMap Other).

End BaseState.

Abbreviation FNetFastTArrayBaseState := BaseState.FNetFastTArrayBaseState.

(** ** Items and the serializer *)

Section Structs.
Context `{T : FastArrayItemType}.

(** [struct FFastArraySerializerItem], extended by the payload of the
    concrete item type. *)
Record FFastArraySerializerItem := mkItem {
  ReplicationID : Z;
  ReplicationKey : Z;
  MostRecentArrayReplicationKey : Z;
  ItemData : Payload
}.

(** The default constructor of an item. *)
Definition new_Item : FFastArraySerializerItem :=
  {| ReplicationID := INDEX_NONE; ReplicationKey := INDEX_NONE;
     MostRecentArrayReplicationKey := INDEX_NONE;
     ItemData := Payload_default |}.

Definition set_ReplicationID (v : Z) (it : FFastArraySerializerItem) :=
  {| ReplicationID := v; ReplicationKey := ReplicationKey it;
     MostRecentArrayReplicationKey := MostRecentArrayReplicationKey it;
     ItemData := ItemData it |}.

Definition set_ReplicationKey (v : Z) (it : FFastArraySerializerItem) :=
  {| ReplicationID := ReplicationID it; ReplicationKey := v;
     MostRecentArrayReplicationKey := MostRecentArrayReplicationKey it;
     ItemData := ItemData it |}.

Definition set_MostRecentArrayReplicationKey (v : Z)
    (it : FFastArraySerializerItem) :=
  {| ReplicationID := ReplicationID it; ReplicationKey := ReplicationKey it;
     MostRecentArrayReplicationKey := v; ItemData := ItemData it |}.

Definition set_ItemData (d : Payload) (it : FFastArraySerializerItem) :=
  {| ReplicationID := ReplicationID it; ReplicationKey := ReplicationKey it;
     MostRecentArrayReplicationKey := MostRecentArrayReplicationKey it;
     ItemData := d |}.

(** [struct FFastArraySerializer]: the fields the replication code reads
    and writes. *)
Record FFastArraySerializer := mkSerializer {
  ItemMap : gmap Z Z;
  IDCounter : Z;
  ArrayReplicationKey : Z;
  CachedNumItems : Z;
  CachedNumItemsToConsiderForWriting : Z
}.

(** The constructor. *)
Definition new_FFastArraySerializer : FFastArraySerializer :=
  {| ItemMap := ∅; IDCounter := 0; ArrayReplicationKey := 0;
     CachedNumItems := INDEX_NONE;
     CachedNumItemsToConsiderForWriting := INDEX_NONE |}.

Definition set_ItemMap (m : gmap Z Z) (Ser : FFastArraySerializer) :=
  {| ItemMap := m; IDCounter := IDCounter Ser;
     ArrayReplicationKey := ArrayReplicationKey Ser;
     CachedNumItems := CachedNumItems Ser;
     CachedNumItemsToConsiderForWriting :=
       CachedNumItemsToConsiderForWriting Ser |}.

Definition set_IDCounter (c : Z) (Ser : FFastArraySerializer) :=
  {| ItemMap := ItemMap Ser; IDCounter := c;
     ArrayReplicationKey := ArrayReplicationKey Ser;
     CachedNumItems := CachedNumItems Ser;
     CachedNumItemsToConsiderForWriting :=
       CachedNumItemsToConsiderForWriting Ser |}.

Definition set_ArrayReplicationKey (k : Z) (Ser : FFastArraySerializer) :=
  {| ItemMap := ItemMap Ser; IDCounter := IDCounter Ser;
     ArrayReplicationKey := k;
     CachedNumItems := CachedNumItems Ser;
     CachedNumItemsToConsiderForWriting :=
       CachedNumItemsToConsiderForWriting Ser |}.

Definition set_CachedCounts (n c : Z) (Ser : FFastArraySerializer) :=
  {| ItemMap := ItemMap Ser; IDCounter := IDCounter Ser;
     ArrayReplicationKey := ArrayReplicationKey Ser;
     CachedNumItems := n;
     CachedNumItemsToConsiderForWriting := c |}.

(** [FFastArraySerializer::IncrementArrayReplicationKey]. *)
Definition IncrementArrayReplicationKey (Ser : FFastArraySerializer) :
    FFastArraySerializer :=
  let k := incr32 (ArrayReplicationKey Ser) in
  let k := if k =? INDEX_NONE then incr32 k else k in
  set_ArrayReplicationKey k Ser.

(** [FFastArraySerializer::MarkArrayDirty]. *)
Definition MarkArrayDirty (Ser : FFastArraySerializer) : FFastArraySerializer :=
  let Ser := set_ItemMap ∅ Ser in
  let Ser := IncrementArrayReplicationKey Ser in
  set_CachedCounts INDEX_NONE INDEX_NONE Ser.

(** [FFastArraySerializer::MarkItemDirty]: the serializer and the item are
    both updated. *)
Definition MarkItemDirty (Ser : FFastArraySerializer)
    (Item : FFastArraySerializerItem) :
    FFastArraySerializer * FFastArraySerializerItem :=
  let '(Ser, Item) :=
    if ReplicationID Item =? INDEX_NONE then
      (* Item.ReplicationID = ++IDCounter; *)
      let Ser := set_IDCounter (incr32 (IDCounter Ser)) Ser in
      let Item := set_ReplicationID (IDCounter Ser) Item in
      (* if (IDCounter == INDEX_NONE) IDCounter++; *)
      let Ser := if IDCounter Ser =? INDEX_NONE
               then set_IDCounter (incr32 (IDCounter Ser)) Ser else Ser in
      (Ser, Item)
    else (Ser, Item) in
  let Item := set_ReplicationKey (incr32 (ReplicationKey Item)) Item in
  (MarkArrayDirty Ser, Item).

(** [FFastArraySerializer::ShouldWriteFastArrayItem]. *)
Definition ShouldWriteFastArrayItem (Item : FFastArraySerializerItem)
    (bIsWritingOnClient : bool) : bool :=
  negb bIsWritingOnClient || negb (ReplicationID Item =? INDEX_NONE).

End Structs.


(** ** The delta header and the serialization parameters *)

Module Header.

(** [struct FFastArraySerializerHeader].  [DeletedIndices] holds ids when
    writing and indices when reading. *)
Record FFastArraySerializerHeader := mk {
  ArrayReplicationKey : Z;
  BaseReplicationKey : Z;
  NumChanged : Z;
  DeletedIndices : list Z
}.

Definition set_NumChanged (n : Z) (h : FFastArraySerializerHeader) :=
  {| ArrayReplicationKey := ArrayReplicationKey h;
     BaseReplicationKey := BaseReplicationKey h;
     NumChanged := n; DeletedIndices := DeletedIndices h |}.

Definition set_DeletedIndices (d : list Z) (h : FFastArraySerializerHeader) :=
  {| ArrayReplicationKey := ArrayReplicationKey h;
     BaseReplicationKey := BaseReplicationKey h;
     NumChanged := NumChanged h; DeletedIndices := d |}.

(** A default-initialised header, as declared on the reading side. *)
Definition empty : FFastArraySerializerHeader :=
  {| ArrayReplicationKey := 0; BaseReplicationKey := 0; NumChanged := 0;
     DeletedIndices := [] |}.

End Header.

Abbreviation FFastArraySerializerHeader := Header.FFastArraySerializerHeader.

(** [struct FFastArraySerializer_FastArrayDeltaSerialize_FIdxIDPair]. *)
Record FIdxIDPair := mkIdxID { Idx : Z; ID : Z }.

(** The fields of [FNetDeltaSerializeInfo] used by the calls that
    serialize.  A base state pointer is an address in the store of base
    states.  The requests [GatherGuidReferences], [MoveGuidToUnmapped] and
    [bUpdateUnmappedObjects] are not fields of the record: a call that
    carries one of them returns before it serializes.
    [ConditionalRebuildItemMap], which runs before the requests are looked
    at, takes [bUpdateUnmappedObjects] as an argument. *)
Record FNetDeltaSerializeInfo := mkParms {
  Writer : option FBitWriter;
  Reader : option FBitReader;
  OldState : option nat;
  NewState : option nat;
  bInternalAck : bool;
  bIsWritingOnClient : bool
}.

Definition set_Writer (w : option FBitWriter) (P : FNetDeltaSerializeInfo) :=
  {| Writer := w; Reader := Reader P; OldState := OldState P;
     NewState := NewState P; bInternalAck := bInternalAck P;
     bIsWritingOnClient := bIsWritingOnClient P |}.

Definition set_Reader (r : option FBitReader) (P : FNetDeltaSerializeInfo) :=
  {| Writer := Writer P; Reader := r; OldState := OldState P;
     NewState := NewState P; bInternalAck := bInternalAck P;
     bIsWritingOnClient := bIsWritingOnClient P |}.

Definition set_NewState (s : option nat) (P : FNetDeltaSerializeInfo) :=
  {| Writer := Writer P; Reader := Reader P; OldState := OldState P;
     NewState := s; bInternalAck := bInternalAck P;
     bIsWritingOnClient := bIsWritingOnClient P |}.

(** What [PostReceiveCleanup] does that an observer of the collection can
    see, in the order it happens: the item and array callbacks, each physical
    removal, and the reset of the id index. *)
Inductive Event :=
  | Item_PreReplicatedRemove (idx : Z)
  | Array_PreReplicatedRemove (RemovedIndices : list Z) (FinalSize : Z)
  | Item_PostReplicatedAdd (idx : Z)
  | Array_PostReplicatedAdd (AddedIndices : list Z) (FinalSize : Z)
  | Item_PostReplicatedChange (idx : Z)
  | Array_PostReplicatedChange (ChangedIndices : list Z) (FinalSize : Z)
  | Items_RemoveAtSwap (idx : Z)
  | ItemMap_Empty.

(** ** TFastArraySerializeHelper *)

Section Helper.
Context `{T : FastArrayItemType} `{L : FastArrayLimits}.

(** [struct TFastArraySerializeHelper]: the three references it holds,
    together with the store of base states and the record of the calls
    made so far.  The callbacks themselves are the no-ops of the base
    structs: they leave the collection alone. *)
Record TFastArraySerializeHelper := mkHelper {
  Items : list FFastArraySerializerItem;
  ArraySerializer : FFastArraySerializer;
  Parms : FNetDeltaSerializeInfo;
  States : list FNetFastTArrayBaseState;
  Calls : list Event
}.

Definition set_Items (l : list FFastArraySerializerItem)
    (H : TFastArraySerializeHelper) :=
  {| Items := l; ArraySerializer := ArraySerializer H; Parms := Parms H;
     States := States H; Calls := Calls H |}.

Definition set_ArraySerializer (Ser : FFastArraySerializer)
    (H : TFastArraySerializeHelper) :=
  {| Items := Items H; ArraySerializer := Ser; Parms := Parms H;
     States := States H; Calls := Calls H |}.

Definition set_Parms (P : FNetDeltaSerializeInfo)
    (H : TFastArraySerializeHelper) :=
  {| Items := Items H; ArraySerializer := ArraySerializer H; Parms := P;
     States := States H; Calls := Calls H |}.

Definition set_States (St : list FNetFastTArrayBaseState)
    (H : TFastArraySerializeHelper) :=
  {| Items := Items H; ArraySerializer := ArraySerializer H;
     Parms := Parms H; States := St; Calls := Calls H |}.

(** Record one call. *)
Definition Call (e : Event) (H : TFastArraySerializeHelper) :=
  {| Items := Items H; ArraySerializer := ArraySerializer H;
     Parms := Parms H; States := States H; Calls := Calls H ++ [e] |}.

(** Record several calls. *)
Definition with_Calls (es : list Event) (H : TFastArraySerializeHelper) :=
  {| Items := Items H; ArraySerializer := ArraySerializer H;
     Parms := Parms H; States := States H; Calls := Calls H ++ es |}.

(** The loop of [ConditionalRebuildItemMap]; [bWriter] is
    [Parms.Writer != NULL]. *)
Fixpoint RebuildItemMap_loop (bWriter : bool) (i : Z)
    (Rest : list FFastArraySerializerItem) (M : gmap Z Z) : gmap Z Z :=
  match Rest with
  | [] => M
  | Item :: Rest' =>
      if (ReplicationID Item =? INDEX_NONE) && negb bWriter
      then RebuildItemMap_loop bWriter (i + 1) Rest' M
      else RebuildItemMap_loop bWriter (i + 1) Rest'
             (<[ReplicationID Item := i]> M)
  end.

(** [ConditionalRebuildItemMap]; the first argument is
    [Parms.bUpdateUnmappedObjects]. *)
Definition ConditionalRebuildItemMap (bUpdateUnmappedObjects : bool)
    (H : TFastArraySerializeHelper) : TFastArraySerializeHelper :=
  let bWriter := bool_decide (is_Some (Writer (Parms H))) in
  if (bUpdateUnmappedObjects || negb bWriter)
     && negb (Z.of_nat (size (ItemMap (ArraySerializer H))) =? Num (Items H))
  then set_ArraySerializer
         (set_ItemMap (RebuildItemMap_loop bWriter 0 (Items H) ∅)
            (ArraySerializer H)) H
  else H.

(** [CalcNumItemsForConsideration]. *)
Fixpoint CalcNumItemsForConsideration_loop (bIsWritingOnClient : bool)
    (Rest : list FFastArraySerializerItem) (Count : Z) : Z :=
  match Rest with
  | [] => Count
  | Item :: Rest' =>
      CalcNumItemsForConsideration_loop bIsWritingOnClient Rest'
        (if ShouldWriteFastArrayItem Item bIsWritingOnClient
         then incr32 Count else Count)
  end.

Definition CalcNumItemsForConsideration (H : TFastArraySerializeHelper) : Z :=
  CalcNumItemsForConsideration_loop (bIsWritingOnClient (Parms H))
    (Items H) 0.

(** [new FNetFastTArrayBaseState()]: allocation in the store; the address
    of the new state is returned. *)
Definition AllocState (H : TFastArraySerializeHelper) :
    nat * TFastArraySerializeHelper :=
  (length (States H), set_States (States H ++ [BaseState.new]) H).

(** Assignment through a base state pointer. *)
Definition UpdateState (p : nat)
    (f : FNetFastTArrayBaseState -> FNetFastTArrayBaseState)
    (H : TFastArraySerializeHelper) : TFastArraySerializeHelper :=
  set_States (alter f p (States H)) H.

(** [ConditionalCreateNewDeltaState]: the returned flag is false when the
    keys match and serialization can be skipped. *)
Definition ConditionalCreateNewDeltaState (H : TFastArraySerializeHelper)
    (OldIDToKeyMap : gmap Z Z) (BaseReplicationKey : Z) :
    bool * TFastArraySerializeHelper :=
  if ArrayReplicationKey (ArraySerializer H) =? BaseReplicationKey then
    let Ser := ArraySerializer H in
    let H :=
      if (CachedNumItems Ser =? INDEX_NONE)
         || negb (CachedNumItems Ser =? Num (Items H))
         || (CachedNumItemsToConsiderForWriting Ser =? INDEX_NONE)
      then set_ArraySerializer
             (set_CachedCounts (Num (Items H))
                (CalcNumItemsForConsideration H) Ser) H
      else H in
    match OldState (Parms H) with
    | Some p =>
        (* *Parms.NewState = Parms.OldState->AsShared(); *)
        (false, set_Parms (set_NewState (Some p) (Parms H)) H)
    | None =>
        let '(p, H) := AllocState H in
        let H := set_Parms (set_NewState (Some p) (Parms H)) H in
        let H := UpdateState p
                   (BaseState.set_ArrayReplicationKey
                      (ArrayReplicationKey (ArraySerializer H))) H in
        (false, H)
    end
  else (true, H).

(** The state of the first loop of [BuildChangedAndDeletedBuffers]. *)
Record BuildState := mkBuild {
  bSerializer : FFastArraySerializer;
  bNewIDToKeyMap : gmap Z Z;
  bChangedElements : list FIdxIDPair;
  bDeleteCount : Z
}.

(** One iteration of the first loop on [Items[i]]: the item may be marked
    dirty, so it is returned together with the loop state. *)
Definition BuildChanged_step (bIsWritingOnClient : bool)
    (OldIDToKeyMap : option (gmap Z Z)) (i : Z)
    (Item : FFastArraySerializerItem) (B : BuildState) :
    FFastArraySerializerItem * BuildState :=
  if negb (ShouldWriteFastArrayItem Item bIsWritingOnClient) then (Item, B)
  else
    let '(Ser, Item) :=
      if ReplicationID Item =? INDEX_NONE
      then MarkItemDirty (bSerializer B) Item
      else (bSerializer B, Item) in
    let NewMap :=
      <[ReplicationID Item := ReplicationKey Item]> (bNewIDToKeyMap B) in
    let OldValuePtr :=
      match OldIDToKeyMap with
      | Some Old => Old !! ReplicationID Item
      | None => None
      end in
    match OldValuePtr with
    | Some OldValue =>
        if OldValue =? ReplicationKey Item
        then (Item, mkBuild Ser NewMap (bChangedElements B) (bDeleteCount B))
        else (Item, mkBuild Ser NewMap
                      (bChangedElements B ++ [mkIdxID i (ReplicationID Item)])
                      (bDeleteCount B))
    | None =>
        (Item, mkBuild Ser NewMap
                 (bChangedElements B ++ [mkIdxID i (ReplicationID Item)])
                 (incr32 (bDeleteCount B)))
    end.

Fixpoint BuildChanged_loop (bIsWritingOnClient : bool)
    (OldIDToKeyMap : option (gmap Z Z)) (i : Z)
    (Rest : list FFastArraySerializerItem) (B : BuildState) :
    list FFastArraySerializerItem * BuildState :=
  match Rest with
  | [] => ([], B)
  | Item :: Rest' =>
      let '(Item', B') :=
        BuildChanged_step bIsWritingOnClient OldIDToKeyMap i Item B in
      let '(Rest'', B'') :=
        BuildChanged_loop bIsWritingOnClient OldIDToKeyMap (i + 1) Rest' B' in
      (Item' :: Rest'', B'')
  end.

(** The second loop, over the entries of the old map, with its [break]. *)
Fixpoint BuildDeleted_loop (It : list (Z * Z)) (NewIDToKeyMap : gmap Z Z)
    (DeleteCount : Z) (DeletedElements : list Z) : list Z :=
  match It with
  | [] => DeletedElements
  | (Key, _) :: It' =>
      if negb (bool_decide (is_Some (NewIDToKeyMap !! Key))) then
        let DeletedElements := DeletedElements ++ [Key] in
        let DeleteCount := decr32 DeleteCount in
        if DeleteCount <=? 0 then DeletedElements
        else BuildDeleted_loop It' NewIDToKeyMap DeleteCount DeletedElements
      else BuildDeleted_loop It' NewIDToKeyMap DeleteCount DeletedElements
  end.

(** The value of [DeleteCount] before the first loop. *)
Definition InitialDeleteCount (H : TFastArraySerializeHelper)
    (OldIDToKeyMap : option (gmap Z Z)) : Z :=
  wrap32 (match OldIDToKeyMap with
          | Some Old => Z.of_nat (size Old)
          | None => 0
          end - CalcNumItemsForConsideration H).

(** The first half of [BuildChangedAndDeletedBuffers]: the walk over the
    items. *)
Definition BuildChanged (H : TFastArraySerializeHelper)
    (NewIDToKeyMap : gmap Z Z) (OldIDToKeyMap : option (gmap Z Z))
    (ChangedElements : list FIdxIDPair) :
    list FFastArraySerializerItem * BuildState :=
  BuildChanged_loop (bIsWritingOnClient (Parms H)) OldIDToKeyMap 0 (Items H)
    (mkBuild (ArraySerializer H) NewIDToKeyMap ChangedElements
       (InitialDeleteCount H OldIDToKeyMap)).

(** The second half: what was deleted.  The code iterates the old [TMap] in
    the order of its storage; the model walks [map_to_list].  Which ids are
    kept when the count cuts the loop short, and the order of the deleted ids
    on the wire, can therefore differ from the program's: the statements
    about the deleted ids speak of membership, number and repetition only. *)
Definition BuildDeleted (OldIDToKeyMap : option (gmap Z Z))
    (NewIDToKeyMap : gmap Z Z) (DeleteCount : Z)
    (DeletedElements : list Z) : list Z :=
  match OldIDToKeyMap with
  | Some Old =>
      if 0 <? DeleteCount
      then BuildDeleted_loop (map_to_list Old) NewIDToKeyMap DeleteCount
             DeletedElements
      else DeletedElements
  | None => DeletedElements
  end.

(** [BuildChangedAndDeletedBuffers]: the helper after the walk, and the
    three out-parameters. *)
Definition BuildChangedAndDeletedBuffers (H : TFastArraySerializeHelper)
    (NewIDToKeyMap : gmap Z Z) (OldIDToKeyMap : option (gmap Z Z))
    (ChangedElements : list FIdxIDPair) (DeletedElements : list Z) :
    TFastArraySerializeHelper * gmap Z Z * list FIdxIDPair * list Z :=
  let '(Items', B) :=
    BuildChanged H NewIDToKeyMap OldIDToKeyMap ChangedElements in
  let H := set_ArraySerializer (bSerializer B) (set_Items Items' H) in
  (H, bNewIDToKeyMap B, bChangedElements B,
   BuildDeleted OldIDToKeyMap (bNewIDToKeyMap B) (bDeleteCount B)
     DeletedElements).

(** [WriteDeltaHeader]: the two comparisons with the maxima only feed log
    statements. *)
Definition WriteDeltaHeader (Hdr : FFastArraySerializerHeader)
    (W : FBitWriter) : FBitWriter :=
  let W := WriteInt32 W (Header.ArrayReplicationKey Hdr) in
  let W := WriteInt32 W (Header.BaseReplicationKey Hdr) in
  let NumDeletes := Num (Header.DeletedIndices Hdr) in
  let W := WriteInt32 W NumDeletes in
  let W := WriteInt32 W (Header.NumChanged Hdr) in
  fold_left WriteInt32 (Header.DeletedIndices Hdr) W.

(** The loop of [ReadDeltaHeader] over the deleted ids. *)
Fixpoint ReadDeleted_loop (n : nat) (M : gmap Z Z) (R : FBitReader)
    (DeletedIndices : list Z) : list Z * FBitReader :=
  match n with
  | O => (DeletedIndices, R)
  | S n' =>
      let '(ElementID, R) := ReadInt32 R in
      match M !! ElementID with
      | Some DeleteIndex =>
          ReadDeleted_loop n' M R (DeletedIndices ++ [DeleteIndex])
      | None => ReadDeleted_loop n' M R DeletedIndices
      end
  end.

(** [ReadDeltaHeader]: the success flag, the header and the reader. *)
Definition ReadDeltaHeader (H : TFastArraySerializeHelper)
    (Hdr : FFastArraySerializerHeader) (R : FBitReader) :
    bool * FFastArraySerializerHeader * FBitReader :=
  let '(ArrayKey, R) := ReadInt32 R in
  let '(BaseKey, R) := ReadInt32 R in
  let Hdr := Header.mk ArrayKey BaseKey (Header.NumChanged Hdr)
               (Header.DeletedIndices Hdr) in
  let '(NumDeletes, R) := ReadInt32 R in
  if MaxNumberOfAllowedDeletionsPerUpdate <? NumDeletes
  then (false, Hdr, SetError R)
  else
    let '(NumChanged, R) := ReadInt32 R in
    let Hdr := Header.set_NumChanged NumChanged Hdr in
    if MaxNumberOfAllowedChangesPerUpdate <? NumChanged
    then (false, Hdr, SetError R)
    else
      let '(Deleted, R) :=
        ReadDeleted_loop (Z.to_nat NumDeletes)
          (ItemMap (ArraySerializer H)) R (Header.DeletedIndices Hdr) in
      (true, Header.set_DeletedIndices Deleted Hdr, R).

(** The first loop of [PostReceiveCleanup]: the items whose most recent
    array key lies strictly between the base key and the array key of the
    header are added to the deleted indices, unless they are there. *)
Fixpoint FindImplicitDeletes_loop (Hdr : FFastArraySerializerHeader)
    (idx : Z) (Rest : list FFastArraySerializerItem)
    (DeletedIndices : list Z) : list Z :=
  match Rest with
  | [] => DeletedIndices
  | Item :: Rest' =>
      FindImplicitDeletes_loop Hdr (idx + 1) Rest'
        (if (MostRecentArrayReplicationKey Item
               <? Header.ArrayReplicationKey Hdr)
            && (Header.BaseReplicationKey Hdr
                  <? MostRecentArrayReplicationKey Item)
         then if negb (Contains DeletedIndices idx)
              then DeletedIndices ++ [idx] else DeletedIndices
         else DeletedIndices)
  end.

(** The search for implicit deletes, behind its test of
    [Parms.bInternalAck]. *)
Definition FindImplicitDeletes (H : TFastArraySerializeHelper)
    (Hdr : FFastArraySerializerHeader) : FFastArraySerializerHeader :=
  if negb (bInternalAck (Parms H))
  then Header.set_DeletedIndices
         (FindImplicitDeletes_loop Hdr 0 (Items H)
            (Header.DeletedIndices Hdr)) Hdr
  else Hdr.

(** The item callbacks for the deleted indices; an invalid index is
    skipped. *)
Fixpoint NotifyRemoved (DeletedIndices : list Z)
    (H : TFastArraySerializeHelper) : TFastArraySerializeHelper :=
  match DeletedIndices with
  | [] => H
  | idx :: Rest =>
      NotifyRemoved Rest
        (if IsValidIndex (Items H) idx
         then Call (Item_PreReplicatedRemove idx) H else H)
  end.

(** The item callbacks for the added and the changed indices; [Items[idx]]
    is range checked. *)
Fixpoint NotifyEach (cb : Z -> Event) (Indices : list Z)
    (H : TFastArraySerializeHelper) : option TFastArraySerializeHelper :=
  match Indices with
  | [] => Some H
  | idx :: Rest =>
      _ ← At (Items H) idx;
      NotifyEach cb Rest (Call (cb idx) H)
  end.

(** The removal loop, given the deleted indices from the last to the first
    of the sorted array. *)
Fixpoint RemoveDeleted (Descending : list Z)
    (H : TFastArraySerializeHelper) : TFastArraySerializeHelper :=
  match Descending with
  | [] => H
  | DeleteIndex :: Rest =>
      RemoveDeleted Rest
        (if IsValidIndex (Items H) DeleteIndex
         then Call (Items_RemoveAtSwap DeleteIndex)
                (set_Items (RemoveAtSwap (Items H) (Z.to_nat DeleteIndex)) H)
         else H)
  end.

(** [PostReceiveCleanup]. *)
Definition PostReceiveCleanup (H : TFastArraySerializeHelper)
    (Hdr : FFastArraySerializerHeader)
    (ChangedIndices AddedIndices : list Z) :
    option TFastArraySerializeHelper :=
  let Hdr := FindImplicitDeletes H Hdr in
  let Deleted := Header.DeletedIndices Hdr in
  let H :=
    if (0 <? Num Deleted) || (0 <? Header.NumChanged Hdr)
    then set_ArraySerializer
           (IncrementArrayReplicationKey (ArraySerializer H)) H
    else H in
  let PreRemoveSize := Num (Items H) in
  let FinalSize := wrap32 (PreRemoveSize - Num Deleted) in
  let H := NotifyRemoved Deleted H in
  let H := Call (Array_PreReplicatedRemove Deleted FinalSize) H in
  H ← NotifyEach Item_PostReplicatedAdd AddedIndices H;
  let H := Call (Array_PostReplicatedAdd AddedIndices FinalSize) H in
  H ← NotifyEach Item_PostReplicatedChange ChangedIndices H;
  let H := Call (Array_PostReplicatedChange ChangedIndices FinalSize) H in
  if 0 <? Num Deleted then
    let H := RemoveDeleted (reverse (Sort Deleted)) H in
    Some (Call ItemMap_Empty
            (set_ArraySerializer (set_ItemMap ∅ (ArraySerializer H)) H))
  else Some H.

(** The loop of the writing branch over the changed elements. *)
Fixpoint WriteChanged_loop (ChangedElements : list FIdxIDPair)
    (Its : list FFastArraySerializerItem) (W : FBitWriter) :
    option FBitWriter :=
  match ChangedElements with
  | [] => Some W
  | It :: Rest =>
      ThisElement ← At Its (Idx It);
      let W := WriteInt32 W (ID It) in
      let W := W ++ NetSerializeStruct_Save (ItemData ThisElement) in
      WriteChanged_loop Rest Its W
  end.

(** The writing branch of [FastArrayDeltaSerialize]. *)
Definition FastArrayDeltaSerialize_Save (H : TFastArraySerializeHelper)
    (W : FBitWriter) : option (bool * TFastArraySerializeHelper) :=
  '(Continue, OldMap, BaseReplicationKey, H) ←
    match OldState (Parms H) with
    | Some p =>
        Old ← States H !! p;
        let '(b, H) :=
          ConditionalCreateNewDeltaState H (BaseState.IDToCLMap Old)
            (BaseState.ArrayReplicationKey Old) in
        Some (b, Some (BaseState.IDToCLMap Old),
              BaseState.ArrayReplicationKey Old, H)
    | None => Some (true, None, INDEX_NONE, H)
    end;
  if negb Continue then Some (false, H)
  else
    let '(p, H) := AllocState H in
    let H := set_Parms (set_NewState (Some p) (Parms H)) H in
    let H := UpdateState p
               (BaseState.set_ArrayReplicationKey
                  (ArrayReplicationKey (ArraySerializer H))) H in
    let Hdr := Header.mk (ArrayReplicationKey (ArraySerializer H))
                 BaseReplicationKey 0 [] in
    let '(H, NewMap, ChangedElements, Deleted) :=
      BuildChangedAndDeletedBuffers H ∅ OldMap [] [] in
    let H := UpdateState p (BaseState.set_IDToCLMap NewMap) H in
    let Hdr := Header.set_DeletedIndices Deleted Hdr in
    let H := UpdateState p
               (BaseState.set_ArrayReplicationKey
                  (ArrayReplicationKey (ArraySerializer H))) H in
    let Hdr := Header.set_NumChanged (Num ChangedElements) Hdr in
    let W := WriteDeltaHeader Hdr W in
    W ← WriteChanged_loop ChangedElements (Items H) W;
    Some (true, set_Parms (set_Writer (Some W) (Parms H)) H).

(** One element of the reading branch: looked up by id, appended when it is
    unknown, then stamped and decoded.  The flag is false when the reader
    reports an error after the decoding. *)
Definition ReadChanged_step (Hdr : FFastArraySerializerHeader)
    (H : TFastArraySerializeHelper) (R : FBitReader)
    (ChangedIndices AddedIndices : list Z) :
    option (bool * TFastArraySerializeHelper * FBitReader
            * list Z * list Z) :=
  let '(ElementID, R) := ReadInt32 R in
  '(ElementIndex, H, ChangedIndices, AddedIndices) ←
    match ItemMap (ArraySerializer H) !! ElementID with
    | None =>
        let H := set_Items
                   (Items H ++ [set_ReplicationID ElementID new_Item]) H in
        let ElementIndex := Num (Items H) - 1 in
        let H := set_ArraySerializer
                   (set_ItemMap
                      (<[ElementID := ElementIndex]>
                         (ItemMap (ArraySerializer H)))
                      (ArraySerializer H)) H in
        Some (ElementIndex, H, ChangedIndices, AddedIndices ++ [ElementIndex])
    | Some ElementIndex =>
        _ ← At (Items H) ElementIndex;
        Some (ElementIndex, H, ChangedIndices ++ [ElementIndex], AddedIndices)
    end;
  ThisElement ← At (Items H) ElementIndex;
  let ThisElement :=
    set_MostRecentArrayReplicationKey (Header.ArrayReplicationKey Hdr)
      ThisElement in
  let ThisElement :=
    set_ReplicationKey (incr32 (ReplicationKey ThisElement)) ThisElement in
  let '(Data, R) := NetSerializeStruct_Load R (ItemData ThisElement) in
  let ThisElement := set_ItemData Data ThisElement in
  let H := set_Items (SetAt (Items H) ElementIndex ThisElement) H in
  Some (negb (ArIsError R), H, R, ChangedIndices, AddedIndices).

(** The loop of the reading branch, with its early [return false]. *)
Fixpoint ReadChanged_loop (n : nat) (Hdr : FFastArraySerializerHeader)
    (H : TFastArraySerializeHelper) (R : FBitReader)
    (ChangedIndices AddedIndices : list Z) :
    option (bool * TFastArraySerializeHelper * FBitReader
            * list Z * list Z) :=
  match n with
  | O => Some (true, H, R, ChangedIndices, AddedIndices)
  | S n' =>
      match ReadChanged_step Hdr H R ChangedIndices AddedIndices with
      | Some (true, H, R, ChangedIndices, AddedIndices) =>
          ReadChanged_loop n' Hdr H R ChangedIndices AddedIndices
      | Some (false, H, R, ChangedIndices, AddedIndices) =>
          Some (false, H, R, ChangedIndices, AddedIndices)
      | None => None
      end
  end.

(** The reading branch of [FastArrayDeltaSerialize]. *)
Definition FastArrayDeltaSerialize_Load (H : TFastArraySerializeHelper)
    (R : FBitReader) : option (bool * TFastArraySerializeHelper) :=
  let with_Reader R H := set_Parms (set_Reader (Some R) (Parms H)) H in
  let '(ok, Hdr, R) := ReadDeltaHeader H Header.empty R in
  if negb ok then Some (false, with_Reader R H)
  else
    '(ok, H, R, ChangedIndices, AddedIndices) ←
      ReadChanged_loop (Z.to_nat (Header.NumChanged Hdr)) Hdr H R [] [];
    if negb ok then Some (false, with_Reader R H)
    else
      H ← PostReceiveCleanup H Hdr ChangedIndices AddedIndices;
      Some (true, with_Reader R H).

(** [FastArrayDeltaSerialize] for the calls that serialize
    ([GatherGuidReferences] and [MoveGuidToUnmapped] null,
    [bUpdateUnmappedObjects] false: with one of them the function returns
    before it serializes) on a serializer that does not use struct delta
    serialization: the id index is rebuilt if necessary, then the helper
    writes when there is a writer and reads otherwise. *)
Definition FastArrayDeltaSerialize (H : TFastArraySerializeHelper) :
    option (bool * TFastArraySerializeHelper) :=
  let H := ConditionalRebuildItemMap false H in
  match Writer (Parms H) with
  | Some W => FastArrayDeltaSerialize_Save H W
  | None =>
      R ← Reader (Parms H);
      FastArrayDeltaSerialize_Load H R
  end.

End Helper.

(** ** Safe TArray serialization *)

(** Modelled from the spec: [FMath::CeilLogTwo] is defined outside the header;
    the count field is [ceil(log2(max_count)) + 1] bits wide. *)
Definition CeilLogTwo (Arg : Z) : Z := Z.log2_up Arg.

(** The [LengthBits] low bits of a value, least significant first. *)
Fixpoint ZToBits (LengthBits : nat) (Value : Z) : list bool :=
  match LengthBits with
  | O => []
  | S n => Z.odd Value :: ZToBits n (Z.div2 Value)
  end.

(** The unsigned value of a run of bits, least significant first. *)
Fixpoint BitsToZ (bs : list bool) : Z :=
  match bs with
  | [] => 0
  | b :: bs' => Z.b2z b + 2 * BitsToZ bs'
  end.

(** Modelled from the spec: the archive ([FArchive]) is the caller's bit
    stream, with bit-level integer serialization of a given width and an error
    flag.  A saving archive holds the bits written so far, a loading archive
    the bits still to be read. *)
Record FArchive := mkArchive {
  ArIsSaving : bool;
  ArIsLoading : bool;
  Bits : list bool;
  ArError : bool
}.

(** Modelled from the spec: [FArchive::SerializeBits] on an [int32] that is
    zero when loading starts.  Saving appends the low bits of the value;
    loading fills the low bits from the stream, and reading past the end sets
    the error flag and yields zero. *)
Definition SerializeBits (Ar : FArchive) (Value : Z) (LengthBits : Z) :
    Z * FArchive :=
  let n := Z.to_nat LengthBits in
  if ArIsLoading Ar then
    if ArError Ar || (length (Bits Ar) <? n)%nat
    then (0, mkArchive (ArIsSaving Ar) (ArIsLoading Ar) (Bits Ar) true)
    else (wrap32 (BitsToZ (take n (Bits Ar))),
          mkArchive (ArIsSaving Ar) (ArIsLoading Ar) (drop n (Bits Ar))
            (ArError Ar))
  else if ArIsSaving Ar then
    (Value, mkArchive (ArIsSaving Ar) (ArIsLoading Ar)
              (Bits Ar ++ ZToBits n Value) (ArError Ar))
  else (Value, Ar).

Section SafeNetSerializeTArray.
Context {A : Type} (DefaultElement : A).

(** [Array.Reset(); Array.AddDefaulted(ArrayNum)] ([TArray] is declared
    outside the header): a count below zero fails the check of
    [AddDefaulted]. *)
Definition ResetAddDefaulted (ArrayNum : Z) : option (list A) :=
  if ArrayNum <? 0 then None
  else Some (replicate (Z.to_nat ArrayNum) DefaultElement).

(** [SafeNetSerializeTArray_HeaderOnly<MaxNum>]: the returned count, the
    archive, the array and [bOutSuccess]. *)
Definition SafeNetSerializeTArray_HeaderOnly (MaxNum : Z) (Ar : FArchive)
    (Array : list A) (bOutSuccess : bool) :
    option (Z * FArchive * list A * bool) :=
  let NumBits := CeilLogTwo MaxNum + 1 in
  let ArrayNum := 0 in
  let '(ArrayNum, bOutSuccess) :=
    if ArIsSaving Ar then
      let ArrayNum := Num Array in
      if MaxNum <? ArrayNum then (MaxNum, false)
      else (ArrayNum, bOutSuccess)
    else (ArrayNum, bOutSuccess) in
  let '(ArrayNum, Ar) := SerializeBits Ar ArrayNum NumBits in
  if ArIsLoading Ar then
    let '(ArrayNum, bOutSuccess) :=
      if MaxNum <? ArrayNum then (MaxNum, false)
      else (ArrayNum, bOutSuccess) in
    Array ← ResetAddDefaulted ArrayNum;
    Some (ArrayNum, Ar, Array, bOutSuccess)
  else Some (ArrayNum, Ar, Array, bOutSuccess).

End SafeNetSerializeTArray.

(** A saving archive with nothing written, and a loading archive over given
    bits. *)
Definition SavingArchive : FArchive := mkArchive true false [] false.
Definition LoadingArchive (bs : list bool) : FArchive :=
  mkArchive false true bs false.

(** ** Notions used in the statements *)

(** The removal loop on the array alone. *)
Fixpoint RemoveAll {A : Type} (Descending : list Z) (l : list A) : list A :=
  match Descending with
  | [] => l
  | DeleteIndex :: Rest =>
      RemoveAll Rest
        (if IsValidIndex l DeleteIndex
         then RemoveAtSwap l (Z.to_nat DeleteIndex) else l)
  end.

(** The indices the removal loop removes from an array of [n] elements. *)
Fixpoint RemovedIndices (Descending : list Z) (n : Z) : list Z :=
  match Descending with
  | [] => []
  | DeleteIndex :: Rest =>
      if (0 <=? DeleteIndex) && (DeleteIndex <? n)
      then DeleteIndex :: RemovedIndices Rest (n - 1)
      else RemovedIndices Rest n
  end.

(** [After] is made of the elements that [Before] holds at the positions
    [Kept], which are distinct. *)
Definition Survivors {A : Type} (Before After : list A) (Kept : list nat) :
    Prop :=
  NoDup Kept /\ Forall2 (fun x p => Before !! p = Some x) After Kept.

(** The positions left of an array of [n] elements once the deleted indices
    above [b] have been dealt with: they are distinct, no position has moved
    to the right, and below [b] nothing has moved. *)
Definition PositionsInv (n : nat) (b : Z) (K : list nat) : Prop :=
  NoDup K
  /\ (forall j p, K !! j = Some p -> (j <= p < n)%nat)
  /\ (forall j, Z.of_nat j < b -> (j < length K)%nat -> K !! j = Some j).

(** An item whose most recent array key lies strictly between the base key
    and the array key of a header. *)
Definition ImplicitlyDeleted `{T : FastArrayItemType}
    (Hdr : FFastArraySerializerHeader) (Item : FFastArraySerializerItem) :
    Prop :=
  Header.BaseReplicationKey Hdr < MostRecentArrayReplicationKey Item
  /\ MostRecentArrayReplicationKey Item < Header.ArrayReplicationKey Hdr.

(** The number of items of an array that are considered for writing. *)
Definition ConsideredCount `{T : FastArrayItemType}
    (bIsWritingOnClient : bool) (Its : list FFastArraySerializerItem) : nat :=
  length (filter (fun Item =>
                    ShouldWriteFastArrayItem Item bIsWritingOnClient = true)
            Its).

(** The number of considered items that are new to the old map; each item
    is given before and after the walk. *)
Definition NewCount `{T : FastArrayItemType} (bIsWritingOnClient : bool)
    (Old : gmap Z Z)
    (Its : list (FFastArraySerializerItem * FFastArraySerializerItem)) : nat :=
  length (filter (fun p =>
                    ShouldWriteFastArrayItem p.1 bIsWritingOnClient = true
                    /\ Old !! ReplicationID p.2 = None)
            Its).

(** *** Deltas on the wire *)

(** A delta as the writing branch lays it out: the two keys, the deleted ids,
    and for each changed element its id and the words of its payload. *)
Record Delta := mkDelta {
  dArrayReplicationKey : Z;
  dBaseReplicationKey : Z;
  dDeleted : list Z;
  dChanged : list (Z * list Z)
}.

(** The ids of the changed elements of a delta. *)
Definition ChangedIDs (D : Delta) : list Z := (dChanged D).*1.

(** The words of a delta: header, deleted ids, changed elements. *)
Definition DeltaWords (D : Delta) : list Z :=
  [dArrayReplicationKey D; dBaseReplicationKey D; Num (dDeleted D);
   Num (dChanged D)]
  ++ dDeleted D
  ++ flat_map (fun e => e.1 :: e.2) (dChanged D).

(** The header of a delta as [ReadDeltaHeader] fills it before it reads the
    deleted ids. *)
Definition DeltaHeader (D : Delta) (DeletedIndices : list Z) :
    FFastArraySerializerHeader :=
  Header.mk (dArrayReplicationKey D) (dBaseReplicationKey D)
    (Num (dChanged D)) DeletedIndices.

(** The decoder reads exactly the given words as one payload, whatever the
    data it overwrites, and reports no error. *)
Definition Decodes `{T : FastArrayItemType} (ws : list Z) : Prop :=
  forall (Rest : list Z) (Data : Payload),
    (NetSerializeStruct_Load (mkReader (ws ++ Rest) false) Data).2
    = mkReader Rest false.

(** How often an id is listed. *)
Definition Listings (id : Z) (ids : list Z) : nat :=
  length (filter (fun x => x = id) ids).

Section Receiving.
Context `{T : FastArrayItemType} `{L : FastArrayLimits}.

(** A delta the writing branch can have produced, within the limits of the
    reader: no deleted id is listed twice, no id is both deleted and changed,
    no changed id is the sentinel, and every payload decodes. *)
Definition WellFormedDelta (D : Delta) : Prop :=
  Num (dDeleted D) <= MaxNumberOfAllowedDeletionsPerUpdate
  /\ Num (dChanged D) <= MaxNumberOfAllowedChangesPerUpdate
  /\ NoDup (dDeleted D)
  /\ (forall id, id ∈ dDeleted D -> id ∉ ChangedIDs D)
  /\ (INDEX_NONE ∉ ChangedIDs D)
  /\ Forall (fun e => Decodes e.2) (dChanged D).

(** The ids of an array of items. *)
Definition IDs (Its : list FFastArraySerializerItem) : list Z :=
  ReplicationID <$> Its.

(** Every item has an id of its own. *)
Definition DistinctIDs (Its : list FFastArraySerializerItem) : Prop :=
  NoDup (IDs Its) /\ INDEX_NONE ∉ IDs Its.

(** The id index maps exactly the ids of the items to their positions. *)
Definition ItemMapConsistent (Its : list FFastArraySerializerItem)
    (M : gmap Z Z) : Prop :=
  forall id idx,
    M !! id = Some idx
    <-> exists (k : nat) Item,
          idx = Z.of_nat k /\ Its !! k = Some Item
          /\ ReplicationID Item = id.

(** The id index is right, or of a size that makes
    [ConditionalRebuildItemMap] rebuild it. *)
Definition ItemMapUsable (Its : list FFastArraySerializerItem)
    (M : gmap Z Z) : Prop :=
  Z.of_nat (size M) <> Num Its \/ ItemMapConsistent Its M.

(** A receiving collection in order: distinct ids, a usable id index, and no
    writer. *)
Definition ReceiverOK (H : TFastArraySerializeHelper) : Prop :=
  Writer (Parms H) = None
  /\ DistinctIDs (Items H)
  /\ ItemMapUsable (Items H) (ItemMap (ArraySerializer H)).

(** What the reading branch does to an element it has looked up or
    appended: the most recent array key is set, the key goes up by one, the
    payload is replaced. *)
Definition Stamp (ArrayKey : Z) (Data : Payload)
    (Item : FFastArraySerializerItem) : FFastArraySerializerItem :=
  set_ItemData Data
    (set_ReplicationKey (incr32 (ReplicationKey Item))
       (set_MostRecentArrayReplicationKey ArrayKey Item)).

(** The helper [H'] after the changed elements with the given ids have been
    read into the helper [H] under a header with the given array key. *)
Definition ChangedRead (ArrayKey : Z) (ids : list Z)
    (H H' : TFastArraySerializeHelper) : Prop :=
  (Parms H' = Parms H /\ States H' = States H /\ Calls H' = Calls H
   /\ ArraySerializer H'
      = set_ItemMap (ItemMap (ArraySerializer H')) (ArraySerializer H))
  /\ DistinctIDs (Items H')
  /\ ItemMapConsistent (Items H') (ItemMap (ArraySerializer H'))
  /\ (forall (k : nat) Item,
        Items H !! k = Some Item ->
        exists Item',
          Items H' !! k = Some Item'
          /\ ReplicationID Item' = ReplicationID Item
          /\ ReplicationKey Item'
             = Nat.iter (Listings (ReplicationID Item) ids) incr32
                 (ReplicationKey Item)
          /\ (ReplicationID Item ∉ ids -> Item' = Item))
  /\ (forall (k : nat) Item',
        Items H' !! k = Some Item' -> ReplicationID Item' ∈ ids ->
        MostRecentArrayReplicationKey Item' = ArrayKey)
  /\ (forall (k : nat) Item',
        Items H' !! k = Some Item' -> (length (Items H) <= k)%nat ->
        ReplicationID Item' ∈ ids)
  /\ (forall id, id ∈ ids -> id ∈ IDs (Items H'))
  /\ ((forall id, id ∈ ids -> id ∈ IDs (Items H)) ->
      length (Items H') = length (Items H)).

(** The collection shows a delta as applied: its changed ids are there, its
    deleted ids are not, and, unless delivery is reliable, no item is left
    in the range of the implicit deletes. *)
Definition Applied (D : Delta) (H : TFastArraySerializeHelper) : Prop :=
  (forall id, id ∈ ChangedIDs D -> id ∈ IDs (Items H))
  /\ (forall id, id ∈ dDeleted D -> id ∉ IDs (Items H))
  /\ (bInternalAck (Parms H) = false ->
      forall Item, Item ∈ Items H ->
                   ~ ImplicitlyDeleted (DeltaHeader D []) Item).

(** [FastArrayDeltaSerialize] reading the given words. *)
Definition ReceiveWords (H : TFastArraySerializeHelper) (ws : list Z) :
    option (bool * TFastArraySerializeHelper) :=
  FastArrayDeltaSerialize
    (set_Parms (set_Reader (Some (mkReader ws false)) (Parms H)) H).

End Receiving.

(** ** Concrete parameters for the examples *)

(** An item type whose payload is one 32-bit word. *)
Definition ExampleItemType : FastArrayItemType :=
  {| Payload := Z;
     Payload_default := 0;
     NetSerializeStruct_Save := fun d => [d];
     NetSerializeStruct_Load := fun R _ => ReadInt32 R |}.

(** Limits of two deletions and two changes per update. *)
Definition ExampleLimits : FastArrayLimits :=
  {| MaxNumberOfAllowedChangesPerUpdate := 2;
     MaxNumberOfAllowedDeletionsPerUpdate := 2 |}.

(** An item of the example type. *)
Definition ExampleItem (id key recent data : Z) :
    @FFastArraySerializerItem ExampleItemType :=
  @mkItem ExampleItemType id key recent data.

(** A helper over given items, id index and array key, with the other
    fields as the constructors leave them. *)
Definition ExampleHelper (Its : list (@FFastArraySerializerItem ExampleItemType))
    (Map : gmap Z Z) (ArrayKey : Z) (P : FNetDeltaSerializeInfo)
    (St : list FNetFastTArrayBaseState) :
    @TFastArraySerializeHelper ExampleItemType :=
  @mkHelper ExampleItemType Its
    (mkSerializer Map 0 ArrayKey INDEX_NONE INDEX_NONE) P St [].

(** Parameters for reading a delta from given words. *)
Definition ReadingParms (ws : list Z) (InternalAck : bool) :
    FNetDeltaSerializeInfo :=
  mkParms None (Some (mkReader ws false)) None None InternalAck false.

(** Parameters for writing against an old base state. *)
Definition WritingParms (Old : option nat) : FNetDeltaSerializeInfo :=
  mkParms (Some []) None Old None false false.

(** * Further definitions *)

(** ** The serialization mode flags *)

(** [enum class EFastArraySerializerDeltaFlags : uint8]. *)
Definition DeltaFlags_None : Z := 0.
Definition HasBeenSerialized : Z := Z.shiftl 1 0.
Definition HasDeltaBeenRequested : Z := Z.shiftl 1 1.
Definition IsUsingDeltaSerialization : Z := Z.shiftl 1 2.

(** [EnumHasAnyFlags]: some bit of [Contains] is set in [Flags]. *)
Definition EnumHasAnyFlags (Flags Contains : Z) : bool :=
  negb (Z.land Flags Contains =? 0).

(** [EnumHasAllFlags]: every bit of [Contains] is set in [Flags]. *)
Definition EnumHasAllFlags (Flags Contains : Z) : bool :=
  Z.land Flags Contains =? Contains.

(** [FFastArraySerializer::SetDeltaSerializationEnabled], on the member
    [DeltaFlags]; the complement is taken in the enum's [uint8]. *)
Definition SetDeltaSerializationEnabled (DeltaFlags : Z) (bEnabled : bool) :
    Z :=
  if negb (EnumHasAnyFlags DeltaFlags HasBeenSerialized) then
    if bEnabled then Z.lor DeltaFlags HasDeltaBeenRequested
    else Z.land DeltaFlags (Z.land (Z.lnot HasDeltaBeenRequested) 255)
  else DeltaFlags.

(** The member [DeltaFlags] as the constructor of [FFastArraySerializer]
    leaves it: initialised to [None], then
    [SetDeltaSerializationEnabled(true)]. *)
Definition new_DeltaFlags : Z :=
  SetDeltaSerializationEnabled DeltaFlags_None true.

(** The two bodies a call of [FastArrayDeltaSerialize] can run. *)
Inductive SerializationPath :=
  | StandardPath
  | DeltaSerializeStructsPath.

(** The choice [FastArrayDeltaSerialize] makes, on a call that serializes,
    between its own body and [FastArrayDeltaSerialize_DeltaSerializeStructs],
    and the flags it leaves; the argument is
    [Parms.bSupportsFastArrayDeltaStructSerialization]. *)
Definition FastArrayDeltaSerialize_Path (DeltaFlags : Z)
    (bSupportsFastArrayDeltaStructSerialization : bool) :
    SerializationPath * Z :=
  if EnumHasAllFlags DeltaFlags IsUsingDeltaSerialization
  then (DeltaSerializeStructsPath, DeltaFlags)
  else if negb (EnumHasAnyFlags DeltaFlags HasBeenSerialized) then
    let DeltaFlags := Z.lor DeltaFlags HasBeenSerialized in
    if bSupportsFastArrayDeltaStructSerialization
       && EnumHasAnyFlags DeltaFlags HasDeltaBeenRequested
    then (DeltaSerializeStructsPath,
          Z.lor DeltaFlags IsUsingDeltaSerialization)
    else (StandardPath, DeltaFlags)
  else (StandardPath, DeltaFlags).

(** What a user or the replication driver does to the flags of one
    serializer. *)
Inductive FlagsOp :=
  | Op_SetDeltaSerializationEnabled (bEnabled : bool)
  | Op_Serialize (bSupportsFastArrayDeltaStructSerialization : bool).

(** The paths taken by the serializing calls of a run of operations, and
    the flags the run leaves. *)
Fixpoint RunFlagsOps (DeltaFlags : Z) (ops : list FlagsOp) :
    list SerializationPath * Z :=
  match ops with
  | [] => ([], DeltaFlags)
  | Op_SetDeltaSerializationEnabled b :: ops' =>
      RunFlagsOps (SetDeltaSerializationEnabled DeltaFlags b) ops'
  | Op_Serialize s :: ops' =>
      let '(p, DeltaFlags) := FastArrayDeltaSerialize_Path DeltaFlags s in
      let '(ps, DeltaFlags) := RunFlagsOps DeltaFlags ops' in
      (p :: ps, DeltaFlags)
  end.

(** [MarkItemDirty] on each item of an array in turn. *)
Fixpoint MarkItemsDirty `{T : FastArrayItemType} (Ser : FFastArraySerializer)
    (Its : list FFastArraySerializerItem) :
    FFastArraySerializer * list FFastArraySerializerItem :=
  match Its with
  | [] => (Ser, [])
  | Item :: Rest =>
      let '(Ser, Item) := MarkItemDirty Ser Item in
      let '(Ser, Rest) := MarkItemsDirty Ser Rest in
      (Ser, Item :: Rest)
  end.

(** ** Optional values and bounded arrays on an archive *)

Section OptionalValue.
Context {ValueType : Type} `{EqDecision ValueType}.



End OptionalValue.

Section SafeNetSerializeTArray_Elements.
Context {A : Type} (DefaultElement : A).

(** The loop of [SafeNetSerializeTArray_Default]: [Ar << Array[idx]] while
    [idx < ArrayNum] and the archive reports no error. *)
Fixpoint SafeNetSerializeTArray_Default_loop
    (Serialize : FArchive -> A -> A * FArchive) (n : nat) (idx : Z)
    (Ar : FArchive) (Array : list A) : option (FArchive * list A) :=
  match n with
  | O => Some (Ar, Array)
  | S n' =>
      if ArError Ar then Some (Ar, Array)
      else
        x ← At Array idx;
        let '(x, Ar) := Serialize Ar x in
        SafeNetSerializeTArray_Default_loop Serialize n' (idx + 1) Ar
          (SetAt Array idx x)
  end.

(** [SafeNetSerializeTArray_Default<MaxNum>]: the returned flag, the archive
    and the array. *)
Definition SafeNetSerializeTArray_Default
    (Serialize : FArchive -> A -> A * FArchive) (MaxNum : Z) (Ar : FArchive)
    (Array : list A) : option (bool * FArchive * list A) :=
  let bOutSuccess := true in
  '(ArrayNum, Ar, Array, bOutSuccess) ←
    SafeNetSerializeTArray_HeaderOnly DefaultElement MaxNum Ar Array
      bOutSuccess;
  '(Ar, Array) ←
    SafeNetSerializeTArray_Default_loop Serialize (Z.to_nat ArrayNum) 0 Ar
      Array;
  let bOutSuccess := bOutSuccess && negb (ArError Ar) in
  Some (bOutSuccess, Ar, Array).

(** The loop of [SafeNetSerializeTArray_WithNetSerialize]:
    [Array[idx].NetSerialize(Ar, PackageMap, bOutSuccess)], which is handed
    the flag by reference. *)
Fixpoint SafeNetSerializeTArray_WithNetSerialize_loop
    (NetSerialize : FArchive -> A -> bool -> A * FArchive * bool) (n : nat)
    (idx : Z) (Ar : FArchive) (Array : list A) (bOutSuccess : bool) :
    option (FArchive * list A * bool) :=
  match n with
  | O => Some (Ar, Array, bOutSuccess)
  | S n' =>
      if ArError Ar then Some (Ar, Array, bOutSuccess)
      else
        x ← At Array idx;
        let '(x, Ar, bOutSuccess) := NetSerialize Ar x bOutSuccess in
        SafeNetSerializeTArray_WithNetSerialize_loop NetSerialize n'
          (idx + 1) Ar (SetAt Array idx x) bOutSuccess
  end.

(** [SafeNetSerializeTArray_WithNetSerialize<MaxNum>]. *)
Definition SafeNetSerializeTArray_WithNetSerialize
    (NetSerialize : FArchive -> A -> bool -> A * FArchive * bool)
    (MaxNum : Z) (Ar : FArchive) (Array : list A) :
    option (bool * FArchive * list A) :=
  let bOutSuccess := true in
  '(ArrayNum, Ar, Array, bOutSuccess) ←
    SafeNetSerializeTArray_HeaderOnly DefaultElement MaxNum Ar Array
      bOutSuccess;
  '(Ar, Array, bOutSuccess) ←
    SafeNetSerializeTArray_WithNetSerialize_loop NetSerialize
      (Z.to_nat ArrayNum) 0 Ar Array bOutSuccess;
  let bOutSuccess := bOutSuccess && negb (ArError Ar) in
  Some (bOutSuccess, Ar, Array).

End SafeNetSerializeTArray_Elements.

(** A serializer of values puts the value [v] on the wire as the bits
    [enc]: saving appends them and leaves the value alone, loading takes
    them off the front of the stream and yields [v], whatever the value it
    overwrites. *)
Definition Encodes {V : Type} (Serialize : FArchive -> V -> V * FArchive)
    (v : V) (enc : list bool) : Prop :=
  (forall W, Serialize (mkArchive true false W false) v
             = (v, mkArchive true false (W ++ enc) false))
  /\ (forall v0 rest, Serialize (LoadingArchive (enc ++ rest)) v0
                      = (v, LoadingArchive rest)).

(** The same for a [NetSerialize] function, whatever the flag it is
    handed. *)
Definition NetEncodes {V : Type}
    (NetSerialize : FArchive -> V -> bool -> V * FArchive * bool)
    (v : V) (enc : list bool) : Prop :=
  forall ok, Encodes (fun Ar x => (NetSerialize Ar x ok).1) v enc.

(** The count field of an array whose length is cut at the maximum. *)
Definition CountField {A : Type} (MaxNum : Z) (Array : list A) : list bool :=
  ZToBits (Z.to_nat (CeilLogTwo MaxNum + 1)) (Z.min (Num Array) MaxNum).

(** An element serializer for the examples: eight bits on the archive. *)
Definition SerializeByte (Ar : FArchive) (v : Z) : Z * FArchive :=
  SerializeBits Ar v 8.

(** A [NetSerialize] for the examples that assigns its result, which is
    always true, to [bOutSuccess]. *)
Definition NetSerializeByte (Ar : FArchive) (v : Z) (bOutSuccess : bool) :
    Z * FArchive * bool :=
  (SerializeBits Ar v 8, true).

(** The item at position [k] is the last one of the array that holds the id
    [id]. *)
Definition LastWithID `{T : FastArrayItemType}
    (Its : list FFastArraySerializerItem) (id : Z) (k : nat) : Prop :=
  (exists Item, Its !! k = Some Item /\ ReplicationID Item = id)
  /\ forall (k' : nat) Item',
       (k < k')%nat -> Its !! k' = Some Item' -> ReplicationID Item' <> id.

(** *** What the walk of the writer produces *)

Section WalkNotions.
Context `{T : FastArrayItemType}.

(** The items of an array that are considered for writing. *)
Definition ConsideredItems (bIsWritingOnClient : bool)
    (Its : list FFastArraySerializerItem) : list FFastArraySerializerItem :=
  filter (fun Item => ShouldWriteFastArrayItem Item bIsWritingOnClient = true)
    Its.

(** The pairs of a position (counted from [i]) and an id of the considered
    items whose key the old map does not hold, in the order of the array. *)
Fixpoint ChangedPairs (bIsWritingOnClient : bool) (Old : gmap Z Z) (i : Z)
    (Its : list FFastArraySerializerItem) : list FIdxIDPair :=
  match Its with
  | [] => []
  | Item :: Rest =>
      (if ShouldWriteFastArrayItem Item bIsWritingOnClient then
         if decide (Old !! ReplicationID Item = Some (ReplicationKey Item))
         then [] else [mkIdxID i (ReplicationID Item)]
       else [])
      ++ ChangedPairs bIsWritingOnClient Old (i + 1) Rest
  end.

(** The id -> key entries of an array of items added to a map in the order
    of the array. *)
Definition AddKeys (M : gmap Z Z) (Its : list FFastArraySerializerItem) :
    gmap Z Z :=
  foldl (fun m Item => <[ReplicationID Item := ReplicationKey Item]> m) M Its.

(** What the writing branch puts on the wire for the changed elements:
    the id of each pair and the words of the item at its position. *)
Definition ChangedPayloads (ChangedElements : list FIdxIDPair)
    (Its : list FFastArraySerializerItem) : list (Z * list Z) :=
  omap (fun p => Item ← At Its (Idx p);
                 Some (ID p, NetSerializeStruct_Save (ItemData Item)))
    ChangedElements.

End WalkNotions.

(** *** The replication driver *)

(** The next call of the driver for the same observer: the state that the
    last call published is handed in as the old state, with a writer of its
    own. *)
Definition NextWrite `{T : FastArrayItemType} (H : TFastArraySerializeHelper)
    (W : FBitWriter) : TFastArraySerializeHelper :=
  set_Parms
    (mkParms (Some W) None (NewState (Parms H)) None
       (bInternalAck (Parms H)) (bIsWritingOnClient (Parms H))) H.

(** The delta that the writing branch sends against an old map and a base
    key. *)
Definition SentDelta `{T : FastArrayItemType} (ArrayKey BaseKey : Z)
    (Deleted : list Z) (ChangedElements : list FIdxIDPair)
    (Its : list FFastArraySerializerItem) : Delta :=
  mkDelta ArrayKey BaseKey Deleted (ChangedPayloads ChangedElements Its).

(** *** The payload on the wire *)

Section PayloadNotions.
Context `{T : FastArrayItemType}.

(** The decoder reads exactly the given words as the payload [d], whatever
    the data it overwrites, and reports no error. *)
Definition DecodesTo (ws : list Z) (d : Payload) : Prop :=
  forall (Rest : list Z) (Data : Payload),
    NetSerializeStruct_Load (mkReader (ws ++ Rest) false) Data
    = (d, mkReader Rest false).

(** The decoder of the item type reads back what its encoder writes. *)
Definition CodecRoundTrips : Prop :=
  forall d : Payload, DecodesTo (NetSerializeStruct_Save d) d.

(** The considered items whose key the old map does not hold. *)
Definition ChangedItems (bIsWritingOnClient : bool) (Old : gmap Z Z)
    (Its : list FFastArraySerializerItem) : list FFastArraySerializerItem :=
  filter (fun Item =>
            ShouldWriteFastArrayItem Item bIsWritingOnClient = true
            /\ Old !! ReplicationID Item <> Some (ReplicationKey Item))
    Its.

(** The ids of the old map that no item of the array holds. *)
Definition MissingIDs (Old : gmap Z Z) (Its : list FFastArraySerializerItem) :
    list Z :=
  filter (fun id => id ∉ IDs Its) (map_to_list Old).*1.

(** An item as the writing branch sends it: its id and the words of its
    payload. *)
Definition WireEntry (Item : FFastArraySerializerItem) : Z * list Z :=
  (ReplicationID Item, NetSerializeStruct_Save (ItemData Item)).

End PayloadNotions.

(** ** Facts about 32-bit integers *)

Lemma wrap32_range x : in_int32 (wrap32 x).
Proof.
  unfold in_int32, wrap32, INT32_MIN, INT32_MAX.
  pose proof (Z.mod_pos_bound (x + 2147483648) 4294967296 ltac:(lia)). lia.
Qed.

Lemma wrap32_id x : in_int32 x -> wrap32 x = x.
Proof.
  unfold in_int32, wrap32, INT32_MIN, INT32_MAX. intros H.
  rewrite Z.mod_small by lia. lia.
Qed.

Lemma wrap32_add_l x y : wrap32 (wrap32 x + y) = wrap32 (x + y).
Proof.
  unfold wrap32.
  replace ((x + 2147483648) mod 4294967296 - 2147483648 + y + 2147483648)
    with ((x + 2147483648) mod 4294967296 + y) by lia.
  rewrite Zplus_mod_idemp_l. do 2 f_equal. lia.
Qed.

Lemma incr32_small x : INT32_MIN <= x < INT32_MAX -> incr32 x = x + 1.
Proof.
  intros H. unfold incr32. apply wrap32_id.
  unfold in_int32, INT32_MIN, INT32_MAX in *. lia.
Qed.

(** ** MarkItemDirty *)

Section MarkItemDirtyFacts.
Context `{T : FastArrayItemType}.

Lemma IncrementArrayReplicationKey_spec Ser :
  ArrayReplicationKey (IncrementArrayReplicationKey Ser)
  = (if incr32 (ArrayReplicationKey Ser) =? INDEX_NONE
     then incr32 (incr32 (ArrayReplicationKey Ser))
     else incr32 (ArrayReplicationKey Ser)).
Proof. unfold IncrementArrayReplicationKey. by destruct (_ =? _). Qed.

(** The array key never lands on the sentinel. *)
Lemma IncrementArrayReplicationKey_not_sentinel Ser :
  ArrayReplicationKey (IncrementArrayReplicationKey Ser) <> INDEX_NONE.
Proof.
  rewrite IncrementArrayReplicationKey_spec.
  destruct (incr32 (ArrayReplicationKey Ser) =? INDEX_NONE) eqn:E.
  - apply Z.eqb_eq in E. rewrite E. by vm_compute.
  - by apply Z.eqb_neq in E.
Qed.

(** The record's key goes up by one, whatever the id. *)
Lemma MarkItemDirty_key Ser Item :
  ReplicationKey (MarkItemDirty Ser Item).2 = incr32 (ReplicationKey Item).
Proof. unfold MarkItemDirty. by destruct (ReplicationID Item =? _). Qed.

(** The array key is incremented, skipping the sentinel. *)
Lemma MarkItemDirty_array_key Ser Item :
  ArrayReplicationKey (MarkItemDirty Ser Item).1
  = ArrayReplicationKey (IncrementArrayReplicationKey Ser).
Proof.
  unfold MarkItemDirty.
  destruct (ReplicationID Item =? _); [|done].
  cbn. by destruct (incr32 (IDCounter Ser) =? INDEX_NONE).
Qed.

(** An assigned id is kept. *)
Lemma MarkItemDirty_id_assigned Ser Item :
  ReplicationID Item <> INDEX_NONE ->
  ReplicationID (MarkItemDirty Ser Item).2 = ReplicationID Item.
Proof.
  intros Hne. unfold MarkItemDirty.
  apply Z.eqb_neq in Hne. by rewrite Hne.
Qed.

(** An unassigned id is taken from the counter after its increment. *)
Lemma MarkItemDirty_id_fresh Ser Item :
  ReplicationID Item = INDEX_NONE ->
  ReplicationID (MarkItemDirty Ser Item).2 = incr32 (IDCounter Ser).
Proof. intros He. unfold MarkItemDirty. by rewrite He. Qed.

(** C8 (the code at the failing input): with the counter one step before
    the sentinel, [MarkItemDirty] hands the sentinel [INDEX_NONE] itself to a
    record without id, and only then moves the counter past it; the key and
    the array key are incremented as described. *)
Theorem MarkItemDirty_assigns_sentinel_on_wrap :
  let Ser := set_IDCounter (-2) new_FFastArraySerializer in
  let '(Ser', Item') := MarkItemDirty Ser new_Item in
  ReplicationID new_Item = INDEX_NONE
  /\ ReplicationID Item' = INDEX_NONE
  /\ IDCounter Ser' = 0
  /\ ReplicationKey Item' = 0
  /\ ArrayReplicationKey Ser' = 1.
Proof. cbn. repeat split. Qed.

End MarkItemDirtyFacts.

(** ** IsStateEqual *)

Lemma IsStateEqual_loop_true (It : list (Z * Z)) (Other : gmap Z Z) :
  BaseState.IsStateEqual_loop It Other = true
  <-> (forall Key Value, (Key, Value) ∈ It -> Other !! Key = Some Value).
Proof.
  induction It as [|[k v] It IH]; cbn.
  - split; [|done]. intros _ ? ? Hin. by apply elem_of_nil in Hin.
  - destruct (Other !! k) as [v'|] eqn:Hk.
    + destruct (Z.eqb_spec v' v) as [->|Hne]; cbn.
      * rewrite IH. split.
        -- intros Hall Key Value Hin. apply elem_of_cons in Hin as [Heq|Hin].
           ++ by inversion Heq; subst.
           ++ by apply Hall.
        -- intros Hall Key Value Hin. apply Hall. by right.
      * split; [done|]. intros Hall.
        specialize (Hall k v (list_elem_of_here _ _)). congruence.
    + split; [done|]. intros Hall.
      specialize (Hall k v (list_elem_of_here _ _)). congruence.
Qed.

(** C10: [IsStateEqual] answers true exactly when every (id, key) entry of
    this state's map is in the other state's map with the same key; entries
    that only the other state has are ignored, and there are states [A], [B]
    with [A.IsStateEqual(B)] true and [B.IsStateEqual(A)] false. *)
Theorem IsStateEqual_is_containment :
  (forall This Other : FNetFastTArrayBaseState,
     BaseState.IsStateEqual This Other = true
     <-> (forall id key,
            BaseState.IDToCLMap This !! id = Some key ->
            BaseState.IDToCLMap Other !! id = Some key))
  /\ (exists A B : FNetFastTArrayBaseState,
        BaseState.IsStateEqual A B = true
        /\ BaseState.IsStateEqual B A = false).
Proof.
  assert (Hchar : forall This Other : FNetFastTArrayBaseState,
     BaseState.IsStateEqual This Other = true
     <-> (forall id key,
            BaseState.IDToCLMap This !! id = Some key ->
            BaseState.IDToCLMap Other !! id = Some key)).
  { intros This Other. unfold BaseState.IsStateEqual.
    rewrite IsStateEqual_loop_true. split.
    - intros Hall id key Hl. apply Hall. by apply elem_of_map_to_list.
    - intros Hall id key Hin. apply Hall. by apply elem_of_map_to_list. }
  split; [exact Hchar|].
  - exists (BaseState.mk ∅ 0), (BaseState.mk {[ 1 := 1 ]} 0).
    split; by vm_compute.
Qed.

(** ** The bounded array header *)

Lemma ZToBits_length n v : length (ZToBits n v) = n.
Proof. revert v. induction n as [|n IH]; intros v; cbn; [done|]. by rewrite IH. Qed.

Lemma BitsToZ_ZToBits n v :
  0 <= v < 2 ^ Z.of_nat n -> BitsToZ (ZToBits n v) = v.
Proof.
  revert v. induction n as [|n IH]; intros v Hv.
  - cbn in *. lia.
  - cbn [ZToBits BitsToZ].
    rewrite Nat2Z.inj_succ, Z.pow_succ_r in Hv by lia.
    pose proof (Z.div2_odd v) as Hd.
    rewrite IH; [lia|].
    destruct (Z.odd v); cbn [Z.b2z] in Hd; lia.
Qed.

Lemma BitsToZ_bounds bs : 0 <= BitsToZ bs < 2 ^ Z.of_nat (length bs).
Proof.
  induction bs as [|b bs IH]; [cbn; lia|].
  cbn [BitsToZ length]. rewrite Nat2Z.inj_succ, Z.pow_succ_r by lia.
  destruct b; cbn [Z.b2z]; lia.
Qed.

(** The count field is wide enough for every count up to the maximum. *)
Lemma MaxNum_fits MaxNum :
  0 <= MaxNum -> MaxNum < 2 ^ (CeilLogTwo MaxNum + 1).
Proof.
  intros H0. unfold CeilLogTwo.
  pose proof (Z.log2_up_nonneg MaxNum) as Hnn.
  rewrite Z.pow_add_r by lia. change (2 ^ 1) with 2.
  destruct (Z_le_gt_dec MaxNum 1) as [Hle|Hgt].
  - pose proof (Z.pow_pos_nonneg 2 (Z.log2_up MaxNum) ltac:(lia) Hnn). lia.
  - pose proof (Z.log2_up_spec MaxNum ltac:(lia)) as [_ Hup].
    pose proof (Z.pow_pos_nonneg 2 (Z.log2_up MaxNum) ltac:(lia) Hnn). lia.
Qed.

(** A maximum of at most 2^30 has a count field of at most 31 bits. *)
Lemma CeilLogTwo_small MaxNum :
  0 <= MaxNum <= 2 ^ 30 -> 0 <= CeilLogTwo MaxNum <= 30.
Proof.
  intros [H0 Hmax]. unfold CeilLogTwo.
  split; [apply Z.log2_up_nonneg|].
  destruct (Z.eq_dec MaxNum 0) as [->|Hne]; [by vm_compute|].
  apply Z.log2_up_le_pow2; lia.
Qed.

(** A field of at most 31 bits is read as a count that is not negative. *)
Lemma SerializeBits_loading_nonneg bs v0 n :
  0 <= n <= 31 -> 0 <= (SerializeBits (LoadingArchive bs) v0 n).1.
Proof.
  intros Hn. unfold SerializeBits, LoadingArchive.
  cbn [ArIsSaving ArIsLoading ArError Bits orb].
  destruct (Nat.ltb_spec (length bs) (Z.to_nat n)) as [Hlt|Hge];
    cbn [fst]; [done|].
  pose proof (BitsToZ_bounds (take (Z.to_nat n) bs)) as Hb.
  rewrite length_take, Nat.min_l, Z2Nat.id in Hb by lia.
  assert (2 ^ n <= 2 ^ 31) by (apply Z.pow_le_mono_r; lia).
  rewrite wrap32_id; [lia|].
  unfold in_int32, INT32_MIN, INT32_MAX. lia.
Qed.

Section SafeNetSerializeTArrayFacts.
Context {A : Type} (DefaultElement : A).

Lemma ResetAddDefaulted_nonneg ArrayNum :
  0 <= ArrayNum ->
  ResetAddDefaulted DefaultElement ArrayNum
  = Some (replicate (Z.to_nat ArrayNum) DefaultElement).
Proof.
  intros H0. unfold ResetAddDefaulted.
  by destruct (Z.ltb_spec ArrayNum 0); [lia|].
Qed.

(** Saving: the field written, the count returned and the success flag. *)
Lemma SafeNetSerializeTArray_HeaderOnly_saving MaxNum W (Array : list A) ok :
  SafeNetSerializeTArray_HeaderOnly DefaultElement MaxNum
    (mkArchive true false W false) Array ok
  = Some (Z.min (Num Array) MaxNum,
          mkArchive true false
            (W ++ ZToBits (Z.to_nat (CeilLogTwo MaxNum + 1))
                    (Z.min (Num Array) MaxNum)) false,
          Array,
          if MaxNum <? Num Array then false else ok).
Proof.
  unfold SafeNetSerializeTArray_HeaderOnly, SerializeBits. cbn.
  destruct (Z.ltb_spec MaxNum (Num Array)); cbn.
  - by rewrite Z.min_r by lia.
  - by rewrite Z.min_l by lia.
Qed.

(** Loading: the count read is clamped from above before the array is
    allocated. *)
Lemma SafeNetSerializeTArray_HeaderOnly_loading MaxNum bs (Array : list A) ok :
  SafeNetSerializeTArray_HeaderOnly DefaultElement MaxNum
    (LoadingArchive bs) Array ok
  = let Read := SerializeBits (LoadingArchive bs) 0 (CeilLogTwo MaxNum + 1) in
    Array' ← ResetAddDefaulted DefaultElement (Z.min Read.1 MaxNum);
    Some (Z.min Read.1 MaxNum, Read.2, Array',
          if MaxNum <? Read.1 then false else ok).
Proof.
  unfold SafeNetSerializeTArray_HeaderOnly.
  change (ArIsSaving (LoadingArchive bs)) with false. cbv iota zeta.
  destruct (SerializeBits (LoadingArchive bs) 0 (CeilLogTwo MaxNum + 1))
    as [Raw Ar'] eqn:HS.
  assert (ArIsLoading Ar' = true) as ->.
  { unfold SerializeBits, LoadingArchive in HS.
    cbn [ArIsSaving ArIsLoading ArError Bits orb] in HS.
    destruct (Nat.ltb _ _); by inversion HS. }
  cbn [fst snd].
  destruct (Z.ltb_spec MaxNum Raw).
  - by rewrite Z.min_r by lia.
  - by rewrite Z.min_l by lia.
Qed.

(** Loading with a maximum of at most 2^30: the array allocated. *)
Lemma SafeNetSerializeTArray_HeaderOnly_loading_small MaxNum bs
    (Array : list A) ok :
  0 <= MaxNum <= 2 ^ 30 ->
  SafeNetSerializeTArray_HeaderOnly DefaultElement MaxNum
    (LoadingArchive bs) Array ok
  = let Read := SerializeBits (LoadingArchive bs) 0 (CeilLogTwo MaxNum + 1) in
    Some (Z.min Read.1 MaxNum, Read.2,
          replicate (Z.to_nat (Z.min Read.1 MaxNum)) DefaultElement,
          if MaxNum <? Read.1 then false else ok).
Proof.
  intros Hmax. rewrite SafeNetSerializeTArray_HeaderOnly_loading. cbv zeta.
  pose proof (CeilLogTwo_small MaxNum Hmax) as Hlog.
  pose proof (SerializeBits_loading_nonneg bs 0 (CeilLogTwo MaxNum + 1)
                ltac:(lia)) as Hnn.
  by rewrite ResetAddDefaulted_nonneg by lia.
Qed.

(** For a maximum of at most 2^30 (a count field of at most 31 bits), the
    count field takes exactly [CeilLogTwo(MaxNum) + 1] bits; saving an array
    longer than the maximum clears the success flag and writes the maximum;
    loading returns, clamps a count above the maximum to the maximum and
    clears the flag, so that whatever the bits the array allocated has at
    most [MaxNum] elements; and an array of at most [MaxNum] elements gets
    its length back from a round trip. *)
Lemma SafeNetSerializeTArray_HeaderOnly_bounded (MaxNum : Z) :
  0 <= MaxNum <= 2 ^ 30 ->
  (forall W (Array : list A) ok,
     exists ArrayNum Ar' ok' Field,
       SafeNetSerializeTArray_HeaderOnly DefaultElement MaxNum
         (mkArchive true false W false) Array ok
       = Some (ArrayNum, Ar', Array, ok')
       /\ Bits Ar' = W ++ Field
       /\ Z.of_nat (length Field) = Z.log2_up MaxNum + 1
       /\ BitsToZ Field = ArrayNum
       /\ (if MaxNum <? Num Array
           then ok' = false /\ ArrayNum = MaxNum
           else ok' = ok /\ ArrayNum = Num Array))
  /\ (forall bs (Array : list A) ok,
        let Raw :=
          (SerializeBits (LoadingArchive bs) 0 (CeilLogTwo MaxNum + 1)).1 in
        exists ArrayNum Ar' Array' ok',
          SafeNetSerializeTArray_HeaderOnly DefaultElement MaxNum
            (LoadingArchive bs) Array ok
          = Some (ArrayNum, Ar', Array', ok')
          /\ 0 <= ArrayNum <= MaxNum
          /\ Num Array' = ArrayNum
          /\ (if MaxNum <? Raw
              then ok' = false /\ ArrayNum = MaxNum
              else ok' = ok /\ ArrayNum = Raw))
  /\ (forall (Array Array0 : list A) ok,
        Num Array <= MaxNum ->
        exists ArS Array',
          SafeNetSerializeTArray_HeaderOnly DefaultElement MaxNum
            SavingArchive Array ok
          = Some (Num Array, ArS, Array, ok)
          /\ SafeNetSerializeTArray_HeaderOnly DefaultElement MaxNum
               (LoadingArchive (Bits ArS)) Array0 true
             = Some (Num Array, LoadingArchive [], Array', true)
          /\ length Array' = length Array).
Proof.
  intros [H0 Hmax].
  pose proof (MaxNum_fits MaxNum H0) as Hfit.
  pose proof (CeilLogTwo_small MaxNum (conj H0 Hmax)) as Hlog.
  split; [|split].
  - intros W Array ok. rewrite SafeNetSerializeTArray_HeaderOnly_saving.
    eexists _, _, _, _. split; [reflexivity|]. cbn [Bits].
    split; [reflexivity|].
    rewrite ZToBits_length. unfold CeilLogTwo in *.
    split; [lia|]. split.
    + apply BitsToZ_ZToBits. rewrite Z2Nat.id by lia. unfold Num. lia.
    + destruct (Z.ltb_spec MaxNum (Num Array)); split; try done; lia.
  - intros bs Array ok. cbv zeta.
    rewrite SafeNetSerializeTArray_HeaderOnly_loading_small by done.
    cbv zeta.
    pose proof (SerializeBits_loading_nonneg bs 0 (CeilLogTwo MaxNum + 1)
                  ltac:(lia)) as Hnn.
    eexists _, _, _, _. split; [reflexivity|].
    split; [lia|]. split.
    { unfold Num. rewrite length_replicate. lia. }
    destruct (Z.ltb_spec MaxNum
      (SerializeBits (LoadingArchive bs) 0 (CeilLogTwo MaxNum + 1)).1);
      split; try done; lia.
  - intros Array Array0 ok Hle. unfold SavingArchive.
    rewrite SafeNetSerializeTArray_HeaderOnly_saving. cbn [Bits app].
    rewrite Z.min_l by lia.
    assert (Hraw : SerializeBits
              (LoadingArchive
                 (ZToBits (Z.to_nat (CeilLogTwo MaxNum + 1)) (Num Array)))
              0 (CeilLogTwo MaxNum + 1)
            = (Num Array, LoadingArchive [])).
    { unfold SerializeBits, LoadingArchive.
      cbn [ArIsSaving ArIsLoading ArError Bits orb].
      rewrite ZToBits_length, Nat.ltb_irrefl.
      rewrite firstn_all2 by (by rewrite ZToBits_length).
      rewrite skipn_all2 by (by rewrite ZToBits_length).
      rewrite BitsToZ_ZToBits
        by (unfold CeilLogTwo in *; rewrite Z2Nat.id by lia;
            unfold Num in *; lia).
      rewrite wrap32_id; [done|].
      unfold in_int32, INT32_MIN, INT32_MAX, Num in *. lia. }
    destruct (Z.ltb_spec MaxNum (Num Array)); [lia|].
    eexists _, _. split; [reflexivity|]. cbn [Bits].
    rewrite SafeNetSerializeTArray_HeaderOnly_loading_small by done.
    cbv zeta. rewrite Hraw. cbn [fst snd].
    rewrite Z.min_l by lia.
    destruct (Z.ltb_spec MaxNum (Num Array)); [lia|].
    split; [reflexivity|].
    unfold Num. rewrite length_replicate. lia.
Qed.

(** C7: with the maximum [INT32_MAX] the count field has 32 bits, and a
    field of 32 one-bits is read into the [int32] count as -1.  The count
    is not above the maximum, so it is not clamped, and [AddDefaulted] is
    called with it: whatever follows on the wire and whatever the array
    handed in, loading fails the check of [AddDefaulted] instead of
    returning an array of at most [MaxNum] elements. *)
Theorem SafeNetSerializeTArray_HeaderOnly_negative_count
    (rest : list bool) (Array : list A) (ok : bool) :
  CeilLogTwo INT32_MAX + 1 = 32
  /\ (SerializeBits (LoadingArchive (replicate 32 true ++ rest)) 0 32).1 = -1
  /\ SafeNetSerializeTArray_HeaderOnly DefaultElement INT32_MAX
       (LoadingArchive (replicate 32 true ++ rest)) Array ok
     = None.
Proof.
  assert (Hraw : SerializeBits (LoadingArchive (replicate 32 true ++ rest))
                   0 32
                 = (-1, LoadingArchive rest)).
  { unfold SerializeBits, LoadingArchive.
    cbn [ArIsSaving ArIsLoading ArError Bits orb].
    change (Z.to_nat 32) with 32%nat.
    rewrite take_app_length' by done. rewrite drop_app_length' by done.
    assert ((length (replicate 32 true ++ rest) <? 32)%nat = false) as ->.
    { apply Nat.ltb_ge. rewrite length_app, length_replicate. lia. }
    by vm_compute. }
  split; [by vm_compute|]. split; [by rewrite Hraw|].
  rewrite SafeNetSerializeTArray_HeaderOnly_loading. cbv zeta.
  change (CeilLogTwo INT32_MAX + 1) with 32. by rewrite Hraw.
Qed.

End SafeNetSerializeTArrayFacts.

(** The codec of the header's usage example ([MaxNum] 31, a field of six
    bits) reading the count 63 from the wire: it is clamped to 31 and the
    success flag is cleared. *)
Lemma SafeNetSerializeTArray_HeaderOnly_bounded_example :
  exists Ar' Array',
    SafeNetSerializeTArray_HeaderOnly 0 31
      (LoadingArchive [true; true; true; true; true; true]) [5] true
    = Some (31, Ar', Array', false)
    /\ Num Array' = 31.
Proof. eexists _, _. split; [reflexivity|]. by vm_compute. Qed.

(** ** The delta header *)

Section HeaderFacts.
Context `{T : FastArrayItemType} `{L : FastArrayLimits}.

Lemma fold_left_WriteInt32 (l : list Z) (W : FBitWriter) :
  fold_left WriteInt32 l W = W ++ l.
Proof.
  revert W. induction l as [|x l IH]; intros W; cbn.
  - by rewrite app_nil_r.
  - rewrite IH. unfold WriteInt32. by rewrite <- app_assoc.
Qed.

(** What [WriteDeltaHeader] emits: the maxima play no part. *)
Lemma WriteDeltaHeader_emits (Hdr : FFastArraySerializerHeader) W :
  WriteDeltaHeader Hdr W
  = W ++ [Header.ArrayReplicationKey Hdr; Header.BaseReplicationKey Hdr;
          Num (Header.DeletedIndices Hdr); Header.NumChanged Hdr]
      ++ Header.DeletedIndices Hdr.
Proof.
  unfold WriteDeltaHeader. rewrite fold_left_WriteInt32. unfold WriteInt32.
  by rewrite <- !app_assoc.
Qed.

(** C5 (amended): the maxima are enforced by the reading side only.  A
    header whose count of deletions or of changes is above its maximum makes
    [ReadDeltaHeader] answer false with the reader in error, and the reading
    branch then returns false with the items, the serializer and the calls
    untouched; a header within both maxima is accepted.  [WriteDeltaHeader]
    writes the keys, both counts and every deleted id whatever the maxima. *)
Theorem delta_header_limits (H : TFastArraySerializeHelper)
    (ArrayKey BaseKey NumDeletes NumChanged : Z) (Rest : list Z) :
  let R := mkReader (ArrayKey :: BaseKey :: NumDeletes :: NumChanged :: Rest)
             false in
  let '(ok, Hdr, R') := ReadDeltaHeader H Header.empty R in
  ok = negb ((MaxNumberOfAllowedDeletionsPerUpdate <? NumDeletes)
             || (MaxNumberOfAllowedChangesPerUpdate <? NumChanged))
  /\ (if ok then True
      else ArIsError R' = true
           /\ exists H',
                FastArrayDeltaSerialize_Load H R = Some (false, H')
                /\ Items H' = Items H
                /\ ArraySerializer H' = ArraySerializer H
                /\ Calls H' = Calls H
                /\ Reader (Parms H') = Some R')
  /\ (forall (Hdr : FFastArraySerializerHeader) (W : FBitWriter),
        WriteDeltaHeader Hdr W
        = W ++ [Header.ArrayReplicationKey Hdr; Header.BaseReplicationKey Hdr;
                Num (Header.DeletedIndices Hdr); Header.NumChanged Hdr]
            ++ Header.DeletedIndices Hdr).
Proof.
  cbv zeta.
  assert (Hload : forall ok Hdr R',
    ReadDeltaHeader H Header.empty
      (mkReader (ArrayKey :: BaseKey :: NumDeletes :: NumChanged :: Rest) false)
    = (ok, Hdr, R') -> ok = false ->
    exists H',
      FastArrayDeltaSerialize_Load H
        (mkReader (ArrayKey :: BaseKey :: NumDeletes :: NumChanged :: Rest) false)
      = Some (false, H')
      /\ Items H' = Items H /\ ArraySerializer H' = ArraySerializer H
      /\ Calls H' = Calls H /\ Reader (Parms H') = Some R').
  { intros ok Hdr R' Hrd ->. unfold FastArrayDeltaSerialize_Load.
    rewrite Hrd. cbn. eexists. split; [reflexivity|]. by cbn. }
  unfold ReadDeltaHeader in *. cbn [ReadInt32 ArIsError Words] in *.
  destruct (MaxNumberOfAllowedDeletionsPerUpdate <? NumDeletes) eqn:Hd.
  - cbn [negb orb]. split; [done|]. split; [|apply WriteDeltaHeader_emits].
    split; [done|]. by eapply Hload.
  - destruct (MaxNumberOfAllowedChangesPerUpdate <? NumChanged) eqn:Hc.
    + cbn [negb orb]. split; [done|]. split; [|apply WriteDeltaHeader_emits].
      split; [done|]. by eapply Hload.
    + destruct (ReadDeleted_loop _ _ _ _) as [Deleted R'].
      cbn [negb orb]. split; [done|]. split; [done|].
      apply WriteDeltaHeader_emits.
Qed.

End HeaderFacts.

(** C5 (as stated, at an input): with maxima of two, a header with three
    deletions is written out in full, count and ids, and reading back what
    was written is rejected with the reader in error. *)
Lemma WriteDeltaHeader_exceeds_limit :
  let Hdr := Header.mk 9 5 0 [10; 11; 12] in
  let H := ExampleHelper [] ∅ 0 (ReadingParms [] false) [] in
  @MaxNumberOfAllowedDeletionsPerUpdate ExampleLimits = 2
  /\ @WriteDeltaHeader Hdr [] = [9; 5; 3; 0; 10; 11; 12]
  /\ (let '(ok, _, R') :=
        @ReadDeltaHeader ExampleItemType ExampleLimits H Header.empty
          (mkReader (WriteDeltaHeader Hdr []) false) in
      ok = false /\ ArIsError R' = true).
Proof. by vm_compute. Qed.

(** ** Skipping an unchanged array *)

Section UnchangedFacts.
Context `{T : FastArrayItemType} `{L : FastArrayLimits}.

(** With equal keys [ConditionalCreateNewDeltaState] answers false, leaves the
    items, the writer and the stored states alone, and publishes either the
    old state itself or a fresh state that carries the array key. *)
Lemma ConditionalCreateNewDeltaState_same_key (H : TFastArraySerializeHelper)
    (OldIDToKeyMap : gmap Z Z) :
  let '(b, H') :=
    ConditionalCreateNewDeltaState H OldIDToKeyMap
      (ArrayReplicationKey (ArraySerializer H)) in
  b = false
  /\ Items H' = Items H
  /\ Calls H' = Calls H
  /\ Writer (Parms H') = Writer (Parms H)
  /\ ArrayReplicationKey (ArraySerializer H')
     = ArrayReplicationKey (ArraySerializer H)
  /\ match OldState (Parms H) with
     | Some p => NewState (Parms H') = Some p /\ States H' = States H
     | None =>
         NewState (Parms H') = Some (length (States H))
         /\ States H'
            = States H
                ++ [BaseState.mk ∅ (ArrayReplicationKey (ArraySerializer H))]
     end.
Proof.
  unfold ConditionalCreateNewDeltaState. rewrite Z.eqb_refl.
  set (H1 := if _ : bool then _ else H).
  assert (HI : Items H1 = Items H /\ Calls H1 = Calls H
               /\ Parms H1 = Parms H /\ States H1 = States H
               /\ ArrayReplicationKey (ArraySerializer H1)
                  = ArrayReplicationKey (ArraySerializer H)).
  { subst H1. by destruct (_ || _). }
  destruct HI as (HI & HC & HP & HS & HK). rewrite HP.
  destruct (OldState (Parms H)) as [p|] eqn:Hold.
  - cbn. by rewrite HI, HC, HS, HK.
  - cbn. rewrite HI, HC, HS, HK. repeat split; try done.
    + by rewrite HP.
    + by rewrite (alter_app_r_alt _ (States H) _ (length (States H))),
        Nat.sub_diag by lia.
Qed.

End UnchangedFacts.

(** ** Swap removal *)

Section RemoveAtSwapFacts.
Context {A : Type}.
Implicit Types l : list A.

Lemma IsValidIndex_spec l (i : Z) :
  IsValidIndex l i = true <-> 0 <= i /\ (Z.to_nat i < length l)%nat.
Proof.
  unfold IsValidIndex, Num.
  rewrite andb_true_iff, Z.leb_le, Z.ltb_lt. lia.
Qed.

Lemma At_Some l (i : Z) x :
  At l i = Some x <-> 0 <= i /\ l !! Z.to_nat i = Some x.
Proof.
  unfold At. destruct (IsValidIndex l i) eqn:Hv.
  - apply IsValidIndex_spec in Hv as [H0 _]. split; [done|by intros [_ ?]].
  - split; [done|]. intros [H0 Hl]. apply lookup_lt_Some in Hl.
    assert (IsValidIndex l i = true) by (apply IsValidIndex_spec; lia).
    congruence.
Qed.

Lemma At_is_Some l (i : Z) : IsValidIndex l i = true -> is_Some (At l i).
Proof.
  intros Hv. unfold At. rewrite Hv. apply lookup_lt_is_Some.
  by apply IsValidIndex_spec in Hv as [_ ?].
Qed.

Lemma RemoveAtSwap_length l i :
  (i < length l)%nat -> length (RemoveAtSwap l i) = Nat.pred (length l).
Proof.
  intros Hi. unfold RemoveAtSwap. rewrite last_lookup.
  destruct (lookup_lt_is_Some_2 l (Nat.pred (length l)) ltac:(lia)) as [x ->].
  rewrite length_insert, length_take. lia.
Qed.

Lemma RemoveAtSwap_lookup l i j :
  (i < length l)%nat -> (j < Nat.pred (length l))%nat ->
  RemoveAtSwap l i !! j
  = if decide (j = i) then l !! Nat.pred (length l) else l !! j.
Proof.
  intros Hi Hj. unfold RemoveAtSwap. rewrite last_lookup.
  destruct (lookup_lt_is_Some_2 l (Nat.pred (length l)) ltac:(lia)) as [x Hx].
  rewrite Hx. destruct (decide (j = i)) as [->|Hne].
  - rewrite list_lookup_insert_eq; [done|]. rewrite length_take. lia.
  - rewrite list_lookup_insert_ne by done. by rewrite lookup_take_lt.
Qed.

Lemma RemoveAtSwap_lookup_Some l i j x :
  (i < length l)%nat ->
  RemoveAtSwap l i !! j = Some x ->
  (j < Nat.pred (length l))%nat
  /\ (if decide (j = i) then l !! Nat.pred (length l) else l !! j) = Some x.
Proof.
  intros Hi Hl. pose proof (lookup_lt_Some _ _ _ Hl) as Hlt.
  rewrite RemoveAtSwap_length in Hlt by done.
  split; [done|]. by rewrite <- RemoveAtSwap_lookup.
Qed.

Lemma RemoveAtSwap_fmap {B} (f : A -> B) l i :
  RemoveAtSwap (f <$> l) i = f <$> RemoveAtSwap l i.
Proof.
  unfold RemoveAtSwap. rewrite !last_lookup, length_fmap, list_lookup_fmap.
  destruct (l !! Nat.pred (length l)); cbn; [|done].
  by rewrite list_fmap_insert, fmap_take.
Qed.

Lemma IsValidIndex_fmap {B} (f : A -> B) l i :
  IsValidIndex (f <$> l) i = IsValidIndex l i.
Proof. unfold IsValidIndex, Num. by rewrite length_fmap. Qed.

Lemma RemoveAll_fmap {B} (f : A -> B) D l :
  RemoveAll D (f <$> l) = f <$> RemoveAll D l.
Proof.
  revert l. induction D as [|d D IH]; intros l; cbn; [done|].
  rewrite IsValidIndex_fmap. destruct (IsValidIndex l d).
  - by rewrite RemoveAtSwap_fmap, IH.
  - by rewrite IH.
Qed.

End RemoveAtSwapFacts.

Lemma fmap_Some_positions {A} (l : list A) :
  Some <$> l = (fun p : nat => l !! p) <$> seq 0 (length l).
Proof.
  apply list_eq. intros i. rewrite !list_lookup_fmap.
  destruct (decide (i < length l)%nat) as [Hlt|Hge].
  - rewrite lookup_seq_lt by done. cbn.
    by destruct (lookup_lt_is_Some_2 l i Hlt) as [x ->].
  - rewrite lookup_seq_ge by lia. by rewrite lookup_ge_None_2 by lia.
Qed.

(** The array after the removal loop, read off the positions left. *)
Lemma RemoveAll_positions {A} D (l : list A) :
  Forall2 (fun x p => l !! p = Some x) (RemoveAll D l)
    (RemoveAll D (seq 0 (length l))).
Proof.
  assert (Heq : Some <$> RemoveAll D l
                = (fun p : nat => l !! p) <$> RemoveAll D (seq 0 (length l))).
  { rewrite <- (RemoveAll_fmap Some),
      <- (RemoveAll_fmap (fun p : nat => l !! p)).
    f_equal. apply fmap_Some_positions. }
  apply Forall2_same_length_lookup. split.
  - apply (f_equal length) in Heq. by rewrite !length_fmap in Heq.
  - intros i x p Hx Hp.
    apply (f_equal (fun k => k !! i)) in Heq.
    rewrite !list_lookup_fmap, Hx, Hp in Heq. cbn in Heq. congruence.
Qed.

Lemma PositionsInv_seq n b : PositionsInv n b (seq 0 n).
Proof.
  split; [apply NoDup_seq|]. split.
  - intros j p Hl. apply lookup_seq in Hl. lia.
  - intros j _ Hj. rewrite length_seq in Hj. by rewrite lookup_seq_lt.
Qed.

(** One turn of the removal loop on the positions. *)
Lemma remove_step n b K d :
  PositionsInv n b K -> d <= b ->
  let K' := if IsValidIndex K d then RemoveAtSwap K (Z.to_nat d) else K in
  PositionsInv n d K'
  /\ (forall p, p ∈ K' -> p ∈ K)
  /\ (forall p, p ∈ K' -> Z.of_nat p <> d)
  /\ (d < b -> forall p, p ∈ K -> Z.of_nat p <> d -> p ∈ K').
Proof.
  intros (Hnd & Hbound & Hpre) Hdb. cbv zeta.
  destruct (IsValidIndex K d) eqn:Hv.
  - apply IsValidIndex_spec in Hv as [H0 Hi].
    set (i := Z.to_nat d) in *. set (m := Nat.pred (length K)).
    assert (Hlk : forall j x, RemoveAtSwap K i !! j = Some x ->
              (j < m)%nat
              /\ (if decide (j = i) then K !! m else K !! j) = Some x).
    { intros j x. by apply RemoveAtSwap_lookup_Some. }
    pose proof (proj1 (NoDup_alt K) Hnd) as Hinj.
    split; [split; [|split]|split; [|split]].
    + apply NoDup_alt. intros j1 j2 x H1 H2.
      apply Hlk in H1 as [Hj1 H1]. apply Hlk in H2 as [Hj2 H2].
      destruct (decide (j1 = i)), (decide (j2 = i)); subst; try done.
      * pose proof (Hinj _ _ _ H1 H2). lia.
      * pose proof (Hinj _ _ _ H1 H2). lia.
      * by eapply Hinj.
    + intros j p Hl. apply Hlk in Hl as [Hj Hl].
      destruct (decide (j = i)); subst.
      * apply Hbound in Hl. lia.
      * by apply Hbound.
    + intros j Hjd Hj. rewrite RemoveAtSwap_length in Hj by done.
      rewrite RemoveAtSwap_lookup by done.
      destruct (decide (j = i)); [lia|]. apply Hpre; lia.
    + intros p Hin. apply list_elem_of_lookup in Hin as [j Hl].
      apply Hlk in Hl as [_ Hl].
      destruct (decide (j = i)); by eapply list_elem_of_lookup_2.
    + intros p Hin Hpd. apply list_elem_of_lookup in Hin as [j Hl].
      apply Hlk in Hl as [Hj Hl].
      assert (p = i) as -> by lia.
      destruct (decide (j = i)) as [->|Hne].
      * apply Hbound in Hl. lia.
      * pose proof (Hbound _ _ Hl) as Hb.
        assert (Hji : (j < i)%nat) by lia.
        rewrite Hpre in Hl by lia. congruence.
    + intros Hlt p Hin Hpd. apply list_elem_of_lookup in Hin as [j Hl].
      pose proof (lookup_lt_Some _ _ _ Hl) as Hjl.
      assert (Hii : K !! i = Some i) by (apply Hpre; lia).
      assert (Hji : j <> i) by (intros ->; rewrite Hii in Hl; inversion Hl; lia).
      destruct (decide (j = m)) as [->|Hjm].
      * apply (list_elem_of_lookup_2 _ i).
        rewrite RemoveAtSwap_lookup by (subst m; lia).
        by rewrite decide_True.
      * apply (list_elem_of_lookup_2 _ j).
        rewrite RemoveAtSwap_lookup by (subst m; lia).
        by rewrite decide_False.
  - assert (Hinv : d < 0 \/ Z.of_nat (length K) <= d).
    { destruct (Z_lt_le_dec d 0) as [|H0]; [by left|right].
      destruct (Z_lt_le_dec d (Z.of_nat (length K))) as [Hlt|]; [|done].
      assert (IsValidIndex K d = true) by (apply IsValidIndex_spec; lia).
      congruence. }
    split; [split; [done|split; [done|]]|split; [done|split; [|done]]].
    + intros j Hjd Hj. apply Hpre; lia.
    + intros p Hin Hpd. apply list_elem_of_lookup in Hin as [j Hl].
      pose proof (lookup_lt_Some _ _ _ Hl) as Hjl.
      destruct Hinv as [|Hge]; [lia|].
      rewrite Hpre in Hl by lia. inversion Hl; subst. lia.
Qed.

(** The removal loop over indices given in descending order: a position
    named by one of the indices is not left. *)
Lemma RemoveAll_removes n D :
  forall b K,
    StronglySorted (flip Z.le) D -> Forall (fun d => d <= b) D ->
    PositionsInv n b K ->
    NoDup (RemoveAll D K)
    /\ (forall p, p ∈ RemoveAll D K -> p ∈ K)
    /\ (forall p d, p ∈ RemoveAll D K -> d ∈ D -> Z.of_nat p <> d).
Proof.
  induction D as [|d D IH]; intros b K Hs Hb Hinv; cbn [RemoveAll].
  - split; [apply Hinv|]. split; [done|]. intros p d _ Hd.
    by apply elem_of_nil in Hd.
  - apply StronglySorted_cons in Hs as [Hle Hs].
    apply Forall_cons in Hb as [Hdb Hb].
    destruct (remove_step n b K d Hinv Hdb) as (Hinv' & Hsub & Hnot & _).
    destruct (IH d _ Hs Hle Hinv') as (Hnd & Hsub' & Hnot').
    split; [done|]. split; [by auto|].
    intros p d' Hin Hd'. apply elem_of_cons in Hd' as [->|Hd'].
    + by apply Hnot, Hsub'.
    + by eapply Hnot'.
Qed.

(** Over distinct indices, every other position is left. *)
Lemma RemoveAll_keeps n D :
  forall b K,
    StronglySorted (flip Z.lt) D -> Forall (fun d => d < b) D ->
    PositionsInv n b K ->
    forall p, p ∈ K -> (forall d, d ∈ D -> Z.of_nat p <> d) ->
              p ∈ RemoveAll D K.
Proof.
  induction D as [|d D IH]; intros b K Hs Hb Hinv p Hp Hnot; cbn [RemoveAll].
  - done.
  - apply StronglySorted_cons in Hs as [Hlt Hs].
    apply Forall_cons in Hb as [Hdb Hb].
    destruct (remove_step n b K d Hinv ltac:(lia)) as (Hinv' & _ & _ & Hkeep).
    apply (IH d _ Hs Hlt Hinv').
    + apply Hkeep; [done..|]. apply Hnot. by left.
    + intros d' Hd'. apply Hnot. by right.
Qed.

(** ** Sorting the deleted indices *)

Lemma Sort_elem_of D d : d ∈ reverse (Sort D) <-> d ∈ D.
Proof.
  rewrite elem_of_reverse. unfold Sort.
  by rewrite (merge_sort_Permutation Z.le D).
Qed.

Lemma Sort_descending D : StronglySorted (flip Z.le) (reverse (Sort D)).
Proof.
  apply Sorted_StronglySorted.
  - intros x y z. unfold flip. lia.
  - apply Sorted_reverse, (Sorted_merge_sort Z.le).
Qed.

Lemma StronglySorted_strict D :
  StronglySorted (flip Z.le) D -> NoDup D -> StronglySorted (flip Z.lt) D.
Proof.
  induction 1 as [|d D Hs IH Hle]; intros Hnd; [constructor|].
  apply NoDup_cons in Hnd as [Hni Hnd].
  constructor; [by apply IH|].
  apply Forall_forall. intros x Hx.
  pose proof (proj1 (Forall_forall _ _) Hle x Hx) as Hxd. unfold flip in *.
  assert (x <> d) by (by intros ->). lia.
Qed.

Lemma Sort_strictly_descending D :
  NoDup D -> StronglySorted (flip Z.lt) (reverse (Sort D)).
Proof.
  intros Hnd. apply StronglySorted_strict; [apply Sort_descending|].
  unfold Sort.
  by rewrite reverse_Permutation, (merge_sort_Permutation Z.le D).
Qed.

Lemma bounded_above (D : list Z) : exists b, Forall (fun d => d < b) D.
Proof.
  induction D as [|d D [b Hb]]; [by exists 0|].
  exists (Z.max b (d + 1)). constructor; [lia|].
  eapply Forall_impl; [exact Hb|]. cbn. lia.
Qed.

(** What is left of an array once the removal loop has gone over the sorted
    deleted indices: elements at distinct positions, none of them a deleted
    index; and when no index is listed twice, every other position. *)
Lemma RemoveAll_Sort_survivors {A} (l : list A) (D : list Z) :
  exists Kept,
    Survivors l (RemoveAll (reverse (Sort D)) l) Kept
    /\ (forall p, p ∈ Kept -> (p < length l)%nat /\ Z.of_nat p ∉ D)
    /\ (NoDup D ->
        forall p, (p < length l)%nat -> Z.of_nat p ∉ D -> p ∈ Kept).
Proof.
  exists (RemoveAll (reverse (Sort D)) (seq 0 (length l))).
  destruct (bounded_above (reverse (Sort D))) as [b Hb].
  pose proof (PositionsInv_seq (length l) b) as Hinv.
  destruct (RemoveAll_removes (length l) (reverse (Sort D)) b _
              (Sort_descending D)
              (Forall_impl _ _ _ Hb (fun d (Hd : d < b) => Z.lt_le_incl _ _ Hd))
              Hinv) as (Hnd & Hsub & Hnot).
  split; [split; [done|apply RemoveAll_positions]|]. split.
  - intros p Hp. split.
    + apply Hsub, elem_of_seq in Hp. lia.
    + intros Hin. apply (Hnot p (Z.of_nat p) Hp); [|done].
      by apply Sort_elem_of.
  - intros HD p Hp Hpn.
    apply (RemoveAll_keeps (length l) _ b _
             (Sort_strictly_descending D HD) Hb Hinv).
    + apply elem_of_seq. lia.
    + intros d Hd Heq. subst d. by apply Hpn, Sort_elem_of.
Qed.

(** ** PostReceiveCleanup *)

Section CleanupFacts.
Context `{T : FastArrayItemType} `{L : FastArrayLimits}.
Implicit Types H : TFastArraySerializeHelper.

Lemma with_Calls_nil H : with_Calls [] H = H.
Proof. unfold with_Calls. rewrite app_nil_r. by destruct H. Qed.

Lemma NotifyRemoved_spec D H :
  NotifyRemoved D H
  = with_Calls
      (Item_PreReplicatedRemove
         <$> filter (fun idx => IsValidIndex (Items H) idx = true) D) H.
Proof.
  revert H. induction D as [|d D IH]; intros H; cbn [NotifyRemoved].
  - by rewrite filter_nil, with_Calls_nil.
  - rewrite IH. destruct (IsValidIndex (Items H) d) eqn:Hv.
    + rewrite filter_cons_True by done. unfold with_Calls, Call. cbn.
      by rewrite <- app_assoc.
    + by rewrite filter_cons_False by congruence.
Qed.

Lemma NotifyEach_spec cb Indices H :
  Forall (fun idx => IsValidIndex (Items H) idx = true) Indices ->
  NotifyEach cb Indices H = Some (with_Calls (cb <$> Indices) H).
Proof.
  revert H. induction Indices as [|i Is IH]; intros H Hall; cbn [NotifyEach].
  - by rewrite with_Calls_nil.
  - apply Forall_cons in Hall as [Hi Hall].
    destruct (At_is_Some _ _ Hi) as [x ->]. cbn.
    rewrite IH by done. unfold with_Calls, Call. cbn.
    by rewrite <- app_assoc.
Qed.

Lemma RemoveDeleted_spec D H :
  RemoveDeleted D H
  = mkHelper (RemoveAll D (Items H)) (ArraySerializer H) (Parms H) (States H)
      (Calls H ++ (Items_RemoveAtSwap <$> RemovedIndices D (Num (Items H)))).
Proof.
  revert H. induction D as [|d D IH]; intros H;
    cbn [RemoveDeleted RemoveAll RemovedIndices].
  - cbn. rewrite app_nil_r. by destruct H.
  - rewrite IH.
    assert (Hc : (0 <=? d) && (d <? Num (Items H))
                 = IsValidIndex (Items H) d) by done.
    rewrite Hc. destruct (IsValidIndex (Items H) d) eqn:Hv; [|done].
    apply IsValidIndex_spec in Hv as [H0 Hlt].
    cbn. unfold Num. rewrite RemoveAtSwap_length by done.
    replace (Z.of_nat (Nat.pred (length (Items H))))
      with (Z.of_nat (length (Items H)) - 1) by lia.
    by rewrite <- app_assoc.
Qed.



Lemma FindImplicitDeletes_loop_elem_of Hdr Rest :
  forall idx0 Del d,
    d ∈ FindImplicitDeletes_loop Hdr idx0 Rest Del
    <-> d ∈ Del
        \/ exists (j : nat) Item,
             Rest !! j = Some Item /\ d = idx0 + Z.of_nat j
             /\ ImplicitlyDeleted Hdr Item.
Proof.
  induction Rest as [|Item Rest IH]; intros idx0 Del d;
    cbn [FindImplicitDeletes_loop].
  - split; [by left|]. intros [?|(j & ? & Hl & _)]; [done|].
    by rewrite lookup_nil in Hl.
  - rewrite IH. clear IH.
    assert (Hrange :
      (MostRecentArrayReplicationKey Item <? Header.ArrayReplicationKey Hdr)
      && (Header.BaseReplicationKey Hdr <? MostRecentArrayReplicationKey Item)
      = true <-> ImplicitlyDeleted Hdr Item).
    { unfold ImplicitlyDeleted.
      rewrite andb_true_iff, !Z.ltb_lt. tauto. }
    split.
    + intros [Hd|(j & It & Hl & -> & Hr)].
      * destruct (_ && _) eqn:Hc; [|by left].
        unfold Contains in Hd. case_bool_decide; cbn in Hd; [by left|].
        apply elem_of_app in Hd as [?|Hd]; [by left|].
        apply list_elem_of_singleton in Hd as ->.
        right. exists 0%nat, Item. split; [done|]. split; [lia|].
        by apply Hrange.
      * right. exists (S j), It. split; [done|]. split; [lia|done].
    + intros [Hd|(j & It & Hl & -> & Hr)].
      * left. destruct (_ && _); [|done].
        destruct (negb _); [|done]. apply elem_of_app. by left.
      * destruct j as [|j]; cbn in Hl.
        -- inversion Hl; subst It. left.
           apply Hrange in Hr. rewrite Hr.
           unfold Contains. replace (idx0 + Z.of_nat 0) with idx0 by lia.
           case_bool_decide; cbn; [done|].
           apply elem_of_app. right. by apply list_elem_of_singleton.
        -- right. exists j, It. split; [done|]. split; [lia|done].
Qed.

Lemma FindImplicitDeletes_loop_NoDup Hdr Rest :
  forall idx0 Del,
    NoDup Del -> NoDup (FindImplicitDeletes_loop Hdr idx0 Rest Del).
Proof.
  induction Rest as [|Item Rest IH]; intros idx0 Del Hnd;
    cbn [FindImplicitDeletes_loop]; [done|].
  apply IH. destruct (_ && _); [|done].
  unfold Contains. case_bool_decide; cbn; [done|].
  apply NoDup_app. split; [done|]. split.
  - intros x Hx Hx'. by apply list_elem_of_singleton in Hx' as ->.
  - apply NoDup_singleton.
Qed.

Lemma FindImplicitDeletes_NumChanged H Hdr :
  Header.NumChanged (FindImplicitDeletes H Hdr) = Header.NumChanged Hdr.
Proof. unfold FindImplicitDeletes. by destruct (negb _). Qed.

(** [PostReceiveCleanup] in closed form, for added and changed indices that
    are in the array. *)
Lemma PostReceiveCleanup_spec H Hdr ChangedIndices AddedIndices :
  Forall (fun idx => IsValidIndex (Items H) idx = true) AddedIndices ->
  Forall (fun idx => IsValidIndex (Items H) idx = true) ChangedIndices ->
  let Deleted := Header.DeletedIndices (FindImplicitDeletes H Hdr) in
  let FinalSize := wrap32 (Num (Items H) - Num Deleted) in
  let Ser1 :=
    if (0 <? Num Deleted) || (0 <? Header.NumChanged Hdr)
    then IncrementArrayReplicationKey (ArraySerializer H)
    else ArraySerializer H in
  PostReceiveCleanup H Hdr ChangedIndices AddedIndices
  = Some
      (mkHelper (RemoveAll (reverse (Sort Deleted)) (Items H))
         (if 0 <? Num Deleted then set_ItemMap ∅ Ser1 else Ser1)
         (Parms H) (States H)
         (Calls H
          ++ (Item_PreReplicatedRemove
                <$> filter (fun idx => IsValidIndex (Items H) idx = true)
                      Deleted)
          ++ [Array_PreReplicatedRemove Deleted FinalSize]
          ++ (Item_PostReplicatedAdd <$> AddedIndices)
          ++ [Array_PostReplicatedAdd AddedIndices FinalSize]
          ++ (Item_PostReplicatedChange <$> ChangedIndices)
          ++ [Array_PostReplicatedChange ChangedIndices FinalSize]
          ++ (if 0 <? Num Deleted
              then (Items_RemoveAtSwap
                      <$> RemovedIndices (reverse (Sort Deleted))
                            (Num (Items H)))
                   ++ [ItemMap_Empty]
              else []))).
Proof.
  intros HA HC. cbv zeta. unfold PostReceiveCleanup.
  rewrite FindImplicitDeletes_NumChanged.
  set (Deleted := Header.DeletedIndices (FindImplicitDeletes H Hdr)).
  set (Ser1 := if (0 <? Num Deleted) || (0 <? Header.NumChanged Hdr)
               then IncrementArrayReplicationKey (ArraySerializer H)
               else ArraySerializer H).
  set (H1 := if (0 <? Num Deleted) || (0 <? Header.NumChanged Hdr)
             then _ else H).
  assert (HH1 : H1 = mkHelper (Items H) Ser1 (Parms H) (States H) (Calls H)).
  { subst H1 Ser1. destruct (_ || _); [done|by destruct H]. }
  rewrite HH1. clearbody Deleted. cbn [Items].
  rewrite NotifyRemoved_spec. cbn [Items].
  rewrite NotifyEach_spec by done. cbn [mbind option_bind].
  rewrite NotifyEach_spec by done. cbn [mbind option_bind].
  destruct (0 <? Num Deleted) eqn:HD.
  - rewrite RemoveDeleted_spec. unfold Call, set_ArraySerializer, with_Calls.
    cbn. do 2 f_equal. repeat (rewrite <- !app_assoc; cbn). done.
  - assert (HDnil : Deleted = []).
    { apply Z.ltb_ge in HD. unfold Num in HD.
      destruct Deleted; [done|]. cbn [length] in HD. lia. }
    rewrite HDnil. unfold with_Calls, Call. cbn.
    do 2 f_equal. repeat (rewrite <- !app_assoc; cbn). done.
Qed.

End CleanupFacts.

Lemma filter_Forall_iff {A} (P Q : A -> Prop)
    `{!forall x, Decision (P x), !forall x, Decision (Q x)} (l : list A) :
  Forall (fun x => P x <-> Q x) l -> filter P l = filter Q l.
Proof.
  induction 1 as [|x l Hx Hl IH]; [done|].
  rewrite !filter_cons, IH.
  destruct (decide (P x)), (decide (Q x)); tauto.
Qed.

(** Over distinct indices the removal loop removes every index that is in
    the array. *)
Lemma RemovedIndices_strict {A} (l : list A) D :
  StronglySorted (flip Z.lt) D ->
  RemovedIndices D (Num l)
  = filter (fun d => IsValidIndex l d = true) D.
Proof.
  assert (HA : forall D n,
    StronglySorted (flip Z.lt) D -> Forall (fun d => d < n) D ->
    RemovedIndices D n = filter (fun d => 0 <= d) D).
  { clear D. induction D as [|x D IH]; intros n Hs Hb; [done|].
    apply StronglySorted_cons in Hs as [Hlt Hs].
    apply Forall_cons in Hb as [Hx Hb]. cbn [RemovedIndices].
    rewrite filter_cons. destruct (decide (0 <= x)) as [H0|H0].
    - replace ((0 <=? x) && (x <? n)) with true
        by (symmetry; apply andb_true_iff; split; lia).
      f_equal. apply IH; [done|].
      eapply Forall_impl; [exact Hlt|]. unfold flip. cbn. lia.
    - replace ((0 <=? x) && (x <? n)) with false
        by (symmetry; apply andb_false_iff; left; lia).
      by apply IH. }
  induction D as [|x D IH]; intros Hs; [done|].
  apply StronglySorted_cons in Hs as [Hlt Hs]. cbn [RemovedIndices].
  rewrite filter_cons.
  change ((0 <=? x) && (x <? Num l)) with (IsValidIndex l x).
  destruct (decide (IsValidIndex l x = true)) as [Hv|Hv].
  - rewrite Hv. f_equal. rewrite HA; [|done|].
    + apply filter_Forall_iff. eapply Forall_impl; [exact Hlt|].
      unfold flip. cbn. intros d Hd.
      apply IsValidIndex_spec in Hv as [? ?].
      rewrite IsValidIndex_spec. lia.
    + eapply Forall_impl; [exact Hlt|]. unfold flip. cbn. intros d Hd.
      apply IsValidIndex_spec in Hv. unfold Num. lia.
  - apply not_true_is_false in Hv. rewrite Hv. by apply IH.
Qed.

Section ReconciliationFacts.
Context `{T : FastArrayItemType} `{L : FastArrayLimits}.
Implicit Types H : TFastArraySerializeHelper.


(** C9 (amended): when [Parms.bInternalAck] is set, the search for implicit
    deletes leaves the header alone, so the deleted set is the list decoded
    from the wire whatever the most recent keys of the items; the removal
    callbacks and the removals are those of that list, no item left comes
    from a position the list names, and when the list names no index twice
    the items left are exactly those at the positions it does not name. *)
Theorem internal_ack_skips_implicit_deletes H Hdr ChangedIndices AddedIndices :
  bInternalAck (Parms H) = true ->
  Forall (fun idx => IsValidIndex (Items H) idx = true) AddedIndices ->
  Forall (fun idx => IsValidIndex (Items H) idx = true) ChangedIndices ->
  FindImplicitDeletes H Hdr = Hdr
  /\ exists H' Kept,
       PostReceiveCleanup H Hdr ChangedIndices AddedIndices = Some H'
       /\ Array_PreReplicatedRemove (Header.DeletedIndices Hdr)
            (wrap32 (Num (Items H) - Num (Header.DeletedIndices Hdr)))
          ∈ Calls H'
       /\ Items H'
          = RemoveAll (reverse (Sort (Header.DeletedIndices Hdr))) (Items H)
       /\ Survivors (Items H) (Items H') Kept
       /\ (forall p, p ∈ Kept -> Z.of_nat p ∉ Header.DeletedIndices Hdr)
       /\ (NoDup (Header.DeletedIndices Hdr) ->
           forall p, (p < length (Items H))%nat ->
                     Z.of_nat p ∉ Header.DeletedIndices Hdr -> p ∈ Kept).
Proof.
  intros Hack HA HC.
  assert (Hfind : FindImplicitDeletes H Hdr = Hdr).
  { unfold FindImplicitDeletes. by rewrite Hack. }
  split; [done|].
  pose proof (PostReceiveCleanup_spec H Hdr _ _ HA HC) as Hspec.
  cbv zeta in Hspec. rewrite Hfind in Hspec.
  destruct (RemoveAll_Sort_survivors (Items H) (Header.DeletedIndices Hdr))
    as (Kept & Hsurv & Hnot & Hkeep).
  eexists _, Kept. split; [exact Hspec|]. cbn [Calls Items].
  split.
  { apply elem_of_app. right. apply elem_of_app. right. by left. }
  split; [done|]. split; [done|]. split; [|done].
  intros p Hp. by apply Hnot.
Qed.

(** C2 (amended): when [Parms.bInternalAck] is not set, every item whose
    most recent array key lies strictly between the base key and the array
    key of the header has its index in the deleted set after the search for
    implicit deletes, explicitly deleted or not, and is removed: the items
    left are items of distinct other positions. *)
Theorem implicit_delete_removed H Hdr ChangedIndices AddedIndices
    (idx : nat) (Item : FFastArraySerializerItem) :
  bInternalAck (Parms H) = false ->
  Forall (fun i => IsValidIndex (Items H) i = true) AddedIndices ->
  Forall (fun i => IsValidIndex (Items H) i = true) ChangedIndices ->
  Items H !! idx = Some Item ->
  Header.BaseReplicationKey Hdr < MostRecentArrayReplicationKey Item ->
  MostRecentArrayReplicationKey Item < Header.ArrayReplicationKey Hdr ->
  Z.of_nat idx ∈ Header.DeletedIndices (FindImplicitDeletes H Hdr)
  /\ exists H' Kept,
       PostReceiveCleanup H Hdr ChangedIndices AddedIndices = Some H'
       /\ Survivors (Items H) (Items H') Kept
       /\ (idx ∉ Kept)
       /\ length (Items H') = length Kept
       /\ (length Kept < length (Items H))%nat.
Proof.
  intros Hack HA HC Hidx Hlo Hhi.
  assert (Hin : Z.of_nat idx
                ∈ Header.DeletedIndices (FindImplicitDeletes H Hdr)).
  { unfold FindImplicitDeletes. rewrite Hack. cbn.
    apply FindImplicitDeletes_loop_elem_of. right.
    exists idx, Item. split; [done|]. split; [lia|]. by split. }
  split; [done|].
  pose proof (PostReceiveCleanup_spec H Hdr _ _ HA HC) as Hspec.
  cbv zeta in Hspec.
  destruct (RemoveAll_Sort_survivors (Items H)
              (Header.DeletedIndices (FindImplicitDeletes H Hdr)))
    as (Kept & Hsurv & Hnot & _).
  eexists _, Kept. split; [exact Hspec|]. cbn [Items].
  split; [done|].
  assert (Hni : idx ∉ Kept) by (intros Hk; by apply Hnot in Hk as [_ ?]).
  split; [done|]. split.
  { destruct Hsurv as [_ HF]. by apply Forall2_length in HF. }
  destruct Hsurv as [Hnd _].
  assert (Hsub : Kept ⊆ seq 0 (length (Items H))).
  { intros p Hp. apply elem_of_seq. apply Hnot in Hp. lia. }
  assert (Hidx' : idx ∈ seq 0 (length (Items H))).
  { apply elem_of_seq. apply lookup_lt_Some in Hidx. lia. }
  assert (Hcons : (idx :: Kept) ⊆ seq 0 (length (Items H))).
  { intros p Hp. apply elem_of_cons in Hp as [->|Hp]; [done|by apply Hsub]. }
  assert (Hnd' : NoDup (idx :: Kept)) by (by constructor).
  pose proof (submseteq_length _ _ (NoDup_submseteq _ _ Hnd' Hcons)) as Hlen.
  rewrite length_seq in Hlen. cbn in Hlen. lia.
Qed.

End ReconciliationFacts.

(** C2 (as stated, at the input of the specification): base key 5, array key
    9, one record with most recent key 6 that is not explicitly deleted.  With
    [bInternalAck] set the search adds nothing and the record stays. *)
Lemma implicit_delete_needs_unreliable_delivery :
  let H := ExampleHelper [ExampleItem 7 0 6 42] {[ 7 := 0 ]} 3
             (ReadingParms [] true) [] in
  let Hdr := Header.mk 9 5 0 [] in
  Header.DeletedIndices (FindImplicitDeletes H Hdr) = []
  /\ (@Items ExampleItemType <$> PostReceiveCleanup H Hdr [] [])
     = Some [ExampleItem 7 0 6 42].
Proof. by vm_compute. Qed.

(** The same input without [bInternalAck]: the record is removed. *)
Lemma implicit_delete_removed_witness :
  let H := ExampleHelper [ExampleItem 7 0 6 42] {[ 7 := 0 ]} 3
             (ReadingParms [] false) [] in
  let Hdr := Header.mk 9 5 0 [] in
  Z.of_nat 0 ∈ Header.DeletedIndices (FindImplicitDeletes H Hdr)
  /\ exists H' Kept,
       PostReceiveCleanup H Hdr [] [] = Some H'
       /\ Survivors (Items H) (Items H') Kept
       /\ (0%nat ∉ Kept)
       /\ length (Items H') = length Kept
       /\ (length Kept < length (Items H))%nat.
Proof.
  exact (@implicit_delete_removed ExampleItemType
           (ExampleHelper [ExampleItem 7 0 6 42] {[ 7 := 0 ]} 3
              (ReadingParms [] false) [])
           (Header.mk 9 5 0 []) [] [] 0%nat (ExampleItem 7 0 6 42)
           eq_refl (Forall_nil_2 _) (Forall_nil_2 _) eq_refl eq_refl eq_refl).
Defined.


(** With [bInternalAck] set, a record whose most recent key 6 lies between
    the base key 5 and the array key 9 stays when the wire deletes only
    index 1. *)
Lemma internal_ack_skips_implicit_deletes_witness :
  let H := ExampleHelper [ExampleItem 7 0 6 40; ExampleItem 8 1 4 41]
             {[ 7 := 0; 8 := 1 ]} 3 (ReadingParms [] true) [] in
  let Hdr := Header.mk 9 5 0 [1] in
  FindImplicitDeletes H Hdr = Hdr
  /\ (@Items ExampleItemType <$> PostReceiveCleanup H Hdr [] [])
     = Some [ExampleItem 7 0 6 40].
Proof.
  cbv zeta.
  destruct (@internal_ack_skips_implicit_deletes ExampleItemType
              (ExampleHelper [ExampleItem 7 0 6 40; ExampleItem 8 1 4 41]
                 {[ 7 := 0; 8 := 1 ]} 3 (ReadingParms [] true) [])
              (Header.mk 9 5 0 [1]) [] [] eq_refl
              (Forall_nil_2 _) (Forall_nil_2 _))
    as (Hfind & H' & Kept & Heq & _ & HItems & _).
  split; [exact Hfind|]. rewrite Heq. cbn [fmap option_fmap option_map].
  by rewrite HItems.
Defined.

(** C9 as stated fails when the decoded list names an index twice.  With
    [bInternalAck] set, a delta within the limits deletes id 7 twice: the
    decoded list is [0; 0] and the search for implicit deletes adds nothing
    to it, so the record with id 8, at index 1, is in no list; the two swap
    removals at index 0 remove both records. *)
Lemma internal_ack_unlisted_record_removed :
  let H := ExampleHelper [ExampleItem 7 0 4 40; ExampleItem 8 0 4 41]
             {[ 7 := 0; 8 := 1 ]} 3 (ReadingParms [] true) [] in
  let Hdr := Header.mk 9 5 0 [0; 0] in
  (@ReadDeltaHeader ExampleItemType ExampleLimits H Header.empty
     (mkReader [9; 5; 2; 0; 7; 7] false)).1 = (true, Hdr)
  /\ FindImplicitDeletes H Hdr = Hdr
  /\ (1 ∉ Header.DeletedIndices Hdr)
  /\ (@Items ExampleItemType <$> PostReceiveCleanup H Hdr [] []) = Some []
  /\ exists H',
       @ReceiveWords ExampleItemType ExampleLimits H [9; 5; 2; 0; 7; 7]
       = Some (true, H')
       /\ Items H' = [].
Proof.
  cbv zeta. split; [by vm_compute|]. split; [by vm_compute|].
  split; [compute_done|]. split; [by vm_compute|].
  eexists. split; by vm_compute.
Qed.

(** ** Changed and deleted buffers *)

Lemma wrap32_add_r x y : wrap32 (x + wrap32 y) = wrap32 (x + y).
Proof. rewrite (Z.add_comm x), wrap32_add_l. f_equal. lia. Qed.

Lemma wrap32_sub_r x y : wrap32 (x - wrap32 y) = wrap32 (x - y).
Proof.
  unfold wrap32.
  replace (x - ((y + 2147483648) mod 4294967296 - 2147483648) + 2147483648)
    with ((x + 4294967296) - (y + 2147483648) mod 4294967296) by lia.
  rewrite Zminus_mod_idemp_r. do 2 f_equal. lia.
Qed.

Lemma decr32_pos x : 0 < x <= INT32_MAX -> decr32 x = x - 1.
Proof.
  intros Hx. unfold decr32. apply wrap32_id.
  unfold in_int32, INT32_MIN, INT32_MAX in *. lia.
Qed.

Section BuildFacts.
Context `{T : FastArrayItemType} `{L : FastArrayLimits}.
Implicit Types H : TFastArraySerializeHelper.
Implicit Types B : BuildState.

Lemma CalcNumItemsForConsideration_loop_spec client Rest :
  forall c,
    CalcNumItemsForConsideration_loop client Rest (wrap32 c)
    = wrap32 (c + Z.of_nat (ConsideredCount client Rest)).
Proof.
  unfold ConsideredCount.
  induction Rest as [|Item Rest IH]; intros c;
    cbn [CalcNumItemsForConsideration_loop].
  - cbn. f_equal. lia.
  - rewrite filter_cons.
    destruct (ShouldWriteFastArrayItem Item client) eqn:Hs.
    + rewrite decide_True by done. unfold incr32.
      rewrite wrap32_add_l, IH. f_equal. cbn [length]. lia.
    + rewrite decide_False by done. apply IH.
Qed.

Lemma CalcNumItemsForConsideration_spec H :
  CalcNumItemsForConsideration H
  = wrap32 (Z.of_nat (ConsideredCount (bIsWritingOnClient (Parms H))
                        (Items H))).
Proof.
  unfold CalcNumItemsForConsideration.
  change 0 with (wrap32 0) at 1.
  by rewrite CalcNumItemsForConsideration_loop_spec.
Qed.

(** One item of the walk. *)
Lemma BuildChanged_step_spec client (Old : gmap Z Z) i Item B Item' B' :
  BuildChanged_step client (Some Old) i Item B = (Item', B') ->
  if ShouldWriteFastArrayItem Item client then
    (ReplicationID Item <> INDEX_NONE -> Item' = Item)
    /\ bNewIDToKeyMap B'
       = <[ReplicationID Item' := ReplicationKey Item']> (bNewIDToKeyMap B)
    /\ (if decide (Old !! ReplicationID Item' = Some (ReplicationKey Item'))
        then bChangedElements B' = bChangedElements B
        else bChangedElements B'
             = bChangedElements B ++ [mkIdxID i (ReplicationID Item')])
    /\ (if decide (Old !! ReplicationID Item' = None)
        then bDeleteCount B' = incr32 (bDeleteCount B)
        else bDeleteCount B' = bDeleteCount B)
  else Item' = Item /\ B' = B.
Proof.
  unfold BuildChanged_step.
  destruct (ShouldWriteFastArrayItem Item client); cbn [negb];
    [|intros Heq; by inversion Heq].
  destruct (if ReplicationID Item =? INDEX_NONE
            then MarkItemDirty (bSerializer B) Item
            else (bSerializer B, Item)) as [Ser It] eqn:Hmark.
  assert (Hkeep : ReplicationID Item <> INDEX_NONE -> It = Item).
  { intros Hne. apply Z.eqb_neq in Hne. rewrite Hne in Hmark.
    by inversion Hmark. }
  destruct (Old !! ReplicationID It) as [v|] eqn:Hold.
  - destruct (Z.eqb_spec v (ReplicationKey It)) as [->|Hne];
      intros Heq; inversion Heq; subst; cbn;
      rewrite Hold; (split; [done|]); (split; [done|]).
    + by rewrite decide_True, decide_False by done.
    + rewrite decide_False by congruence. by rewrite decide_False by done.
  - intros Heq; inversion Heq; subst; cbn.
    rewrite Hold. split; [done|]. split; [done|].
    by rewrite decide_False, decide_True by done.
Qed.

(** The walk over the items. *)
Lemma BuildChanged_loop_spec client (Old : gmap Z Z) Rest :
  forall i B Rest' B',
    BuildChanged_loop client (Some Old) i Rest B = (Rest', B') ->
    length Rest' = length Rest
    /\ (forall (k : nat) Item Item',
          Rest !! k = Some Item -> Rest' !! k = Some Item' ->
          ShouldWriteFastArrayItem Item client = false
          \/ ReplicationID Item <> INDEX_NONE ->
          Item' = Item)
    /\ (forall j id,
          mkIdxID j id ∈ bChangedElements B'
          <-> mkIdxID j id ∈ bChangedElements B
              \/ exists (k : nat) Item Item',
                   j = i + Z.of_nat k
                   /\ Rest !! k = Some Item /\ Rest' !! k = Some Item'
                   /\ ShouldWriteFastArrayItem Item client = true
                   /\ id = ReplicationID Item'
                   /\ Old !! id <> Some (ReplicationKey Item'))
    /\ wrap32 (bDeleteCount B')
       = wrap32 (bDeleteCount B
                 + Z.of_nat (NewCount client Old (zip Rest Rest')))
    /\ (in_int32 (bDeleteCount B) -> in_int32 (bDeleteCount B')).
Proof.
  induction Rest as [|Item Rest IH]; intros i B Rest' B' Heq;
    cbn [BuildChanged_loop] in Heq.
  - inversion Heq; subst. split; [done|]. split.
    { intros k ? ? Hk. by rewrite lookup_nil in Hk. }
    split; [|split; [cbn; f_equal; lia|done]].
    intros j id. split; [by left|].
    intros [?|(k & ? & ? & _ & Hk & _)]; [done|].
    by rewrite lookup_nil in Hk.
  - destruct (BuildChanged_step client (Some Old) i Item B)
      as [Item1 B1] eqn:Hstep.
    destruct (BuildChanged_loop client (Some Old) (i + 1) Rest B1)
      as [Rest1 B2] eqn:Hloop.
    inversion Heq; subst Rest' B'. clear Heq.
    apply BuildChanged_step_spec in Hstep.
    destruct (IH _ _ _ _ Hloop) as (Hlen & Hsame & Hchg & Hdc & Hrng).
    clear IH.
    split; [cbn; by rewrite Hlen|]. split; [|split; [|split]].
    + intros [|k] It It' Hk Hk' Hcond; cbn in Hk, Hk'.
      * inversion Hk; inversion Hk'; subst.
        destruct (ShouldWriteFastArrayItem It client) eqn:Hs.
        -- destruct Hstep as (Hkeep & _). destruct Hcond; [done|auto].
        -- by destruct Hstep.
      * by eapply Hsame.
    + intros j id. rewrite Hchg. clear Hchg. split.
      * intros [Hin|(k & It & It' & -> & Hk & Hk' & Hs & -> & Hne)].
        -- destruct (ShouldWriteFastArrayItem Item client) eqn:Hs.
           ++ destruct Hstep as (_ & _ & Hc & _).
              destruct (decide (Old !! ReplicationID Item1
                                = Some (ReplicationKey Item1))) as [He|He].
              ** left. by rewrite <- Hc.
              ** rewrite Hc in Hin.
                 apply elem_of_app in Hin as [?|Hin]; [by left|].
                 apply list_elem_of_singleton in Hin. inversion Hin; subst.
                 right. exists 0%nat, Item, Item1.
                 repeat split; try done. lia.
           ++ destruct Hstep as [_ ->]. by left.
        -- right. exists (S k), It, It'. repeat split; try done. lia.
      * intros [Hin|(k & It & It' & -> & Hk & Hk' & Hs & -> & Hne)].
        -- left. destruct (ShouldWriteFastArrayItem Item client).
           ++ destruct Hstep as (_ & _ & Hc & _).
              destruct (decide _); rewrite Hc; [done|].
              apply elem_of_app. by left.
           ++ by destruct Hstep as [_ ->].
        -- destruct k as [|k]; cbn in Hk, Hk'.
           ++ inversion Hk; inversion Hk'; subst. left.
              rewrite Hs in Hstep. destruct Hstep as (_ & _ & Hc & _).
              rewrite decide_False in Hc by done. rewrite Hc.
              apply elem_of_app. right. apply list_elem_of_singleton.
              f_equal. lia.
           ++ right. exists k, It, It'. repeat split; try done. lia.
    + rewrite Hdc. unfold NewCount. cbn [zip zip_with].
      rewrite filter_cons. cbn [fst snd].
      destruct (ShouldWriteFastArrayItem Item client) eqn:Hs.
      * destruct Hstep as (_ & _ & _ & Hd).
        destruct (decide (Old !! ReplicationID Item1 = None)) as [Hn|Hn].
        -- rewrite decide_True by done. rewrite Hd. unfold incr32.
           rewrite wrap32_add_l. f_equal. cbn [length]. lia.
        -- rewrite decide_False by tauto. by rewrite Hd.
      * destruct Hstep as [_ ->]. rewrite decide_False; [done|].
        intros [? _]. congruence.
    + intros Hin. apply Hrng.
      destruct (ShouldWriteFastArrayItem Item client).
      * destruct Hstep as (_ & _ & _ & Hd).
        destruct (decide _); rewrite Hd; [apply wrap32_range|done].
      * by destruct Hstep as [_ ->].
Qed.

(** The search of the old map for deleted ids. *)
Lemma BuildDeleted_loop_elem_of It (New : gmap Z Z) :
  forall dc Del d,
    d ∈ BuildDeleted_loop It New dc Del ->
    d ∈ Del \/ ((exists v, (d, v) ∈ It) /\ New !! d = None).
Proof.
  induction It as [|[k v] It IH]; intros dc Del d; cbn [BuildDeleted_loop];
    [by left|].
  case_bool_decide as Hk; cbn [negb].
  - intros Hd. apply IH in Hd as [?|[[v' ?] ?]]; [by left|right].
    split; [|done]. exists v'. by right.
  - assert (Hnone : New !! k = None).
    { destruct (New !! k) eqn:E; [|done]. exfalso. apply Hk. eauto. }
    assert (Hnew : forall d, d ∈ Del ++ [k] ->
              d ∈ Del \/ ((exists v0, (d, v0) ∈ (k, v) :: It)
                          /\ New !! d = None)).
    { intros d' Hd. apply elem_of_app in Hd as [?|Hd]; [by left|].
      apply list_elem_of_singleton in Hd as ->. right.
      split; [|done]. exists v. by left. }
    destruct (decr32 dc <=? 0); [apply Hnew|].
    intros Hd. apply IH in Hd as [Hd|[[v' ?] ?]]; [by apply Hnew|].
    right. split; [|done]. exists v'. by right.
Qed.

Lemma BuildDeleted_loop_length It (New : gmap Z Z) :
  forall dc Del,
    0 < dc <= INT32_MAX ->
    Z.of_nat (length (BuildDeleted_loop It New dc Del))
    <= Z.of_nat (length Del) + dc.
Proof.
  induction It as [|[k v] It IH]; intros dc Del Hdc;
    cbn [BuildDeleted_loop]; [lia|].
  destruct (negb _); [|by apply IH].
  rewrite decr32_pos by done.
  destruct (Z.leb_spec (dc - 1) 0).
  - rewrite length_app. cbn. lia.
  - etrans; [apply IH; lia|]. rewrite length_app. cbn. lia.
Qed.

(** The ids of the new map are those of the items considered. *)
Lemma BuildChanged_loop_NewMap client (Old : gmap Z Z) Rest :
  forall i B Rest' B',
    BuildChanged_loop client (Some Old) i Rest B = (Rest', B') ->
    forall id,
      is_Some (bNewIDToKeyMap B' !! id)
      <-> is_Some (bNewIDToKeyMap B !! id)
          \/ exists (k : nat) Item Item',
               Rest !! k = Some Item /\ Rest' !! k = Some Item'
               /\ ShouldWriteFastArrayItem Item client = true
               /\ id = ReplicationID Item'.
Proof.
  induction Rest as [|Item Rest IH]; intros i B Rest' B' Heq id;
    cbn [BuildChanged_loop] in Heq.
  - inversion Heq; subst. split; [by left|].
    intros [?|(k & ? & ? & Hk & _)]; [done|]. by rewrite lookup_nil in Hk.
  - destruct (BuildChanged_step client (Some Old) i Item B)
      as [Item1 B1] eqn:Hstep.
    destruct (BuildChanged_loop client (Some Old) (i + 1) Rest B1)
      as [Rest1 B2] eqn:Hloop.
    inversion Heq; subst Rest' B'. clear Heq.
    apply BuildChanged_step_spec in Hstep.
    rewrite (IH _ _ _ _ Hloop). clear IH. split.
    + intros [Hin|(k & It & It' & Hk & Hk' & Hs & ->)].
      * destruct (ShouldWriteFastArrayItem Item client) eqn:Hs.
        -- destruct Hstep as (_ & Hm & _). rewrite Hm in Hin.
           destruct (decide (ReplicationID Item1 = id)) as [<-|Hne].
           ++ right. by exists 0%nat, Item, Item1.
           ++ left. by rewrite lookup_insert_ne in Hin.
        -- destruct Hstep as [_ ->]. by left.
      * right. by exists (S k), It, It'.
    + intros [Hin|(k & It & It' & Hk & Hk' & Hs & ->)].
      * left. destruct (ShouldWriteFastArrayItem Item client).
        -- destruct Hstep as (_ & Hm & _). rewrite Hm.
           destruct (decide (ReplicationID Item1 = id)) as [<-|Hne].
           ++ rewrite lookup_insert_eq. eauto.
           ++ by rewrite lookup_insert_ne.
        -- by destruct Hstep as [_ ->].
      * destruct k as [|k]; cbn in Hk, Hk'.
        -- inversion Hk; inversion Hk'; subst. left.
           rewrite Hs in Hstep. destruct Hstep as (_ & Hm & _).
           rewrite Hm, lookup_insert_eq. eauto.
        -- right. by exists k, It, It'.
Qed.

(** C1: a walk of [BuildChangedAndDeletedBuffers] against an old map.  An
    item that is not considered, or that has an id already, is left as it is
    by the walk.  The pair of an index and an id is among the changed elements
    exactly when the item at that index is considered and its id, after the
    walk, is absent from the old map or is there with a key other than the
    item's.  The new map holds exactly the ids of the considered items.  Every
    deleted id is in the old map and not in the new map, and there are at
    most [DeleteCount] of them (none when it is not positive), where
    [DeleteCount] is, in 32-bit arithmetic, the size of the old map minus the
    number of considered items plus the number of considered items absent
    from the old map. *)
Theorem BuildChangedAndDeletedBuffers_classifies H (Old : gmap Z Z) :
  let client := bIsWritingOnClient (Parms H) in
  let DeleteCount := bDeleteCount (BuildChanged H ∅ (Some Old) []).2 in
  let '(H', NewMap, Changed, Deleted) :=
    BuildChangedAndDeletedBuffers H ∅ (Some Old) [] [] in
  length (Items H') = length (Items H)
  /\ (forall (k : nat) Item Item',
        Items H !! k = Some Item -> Items H' !! k = Some Item' ->
        ShouldWriteFastArrayItem Item client = false
        \/ ReplicationID Item <> INDEX_NONE ->
        Item' = Item)
  /\ (forall i id,
        mkIdxID i id ∈ Changed
        <-> exists (k : nat) Item Item',
              i = Z.of_nat k
              /\ Items H !! k = Some Item /\ Items H' !! k = Some Item'
              /\ ShouldWriteFastArrayItem Item client = true
              /\ id = ReplicationID Item'
              /\ (Old !! id = None
                  \/ exists v, Old !! id = Some v
                               /\ v <> ReplicationKey Item'))
  /\ (forall id,
        is_Some (NewMap !! id)
        <-> exists (k : nat) Item Item',
              Items H !! k = Some Item /\ Items H' !! k = Some Item'
              /\ ShouldWriteFastArrayItem Item client = true
              /\ id = ReplicationID Item')
  /\ (forall d, d ∈ Deleted -> is_Some (Old !! d) /\ NewMap !! d = None)
  /\ DeleteCount
     = wrap32 (Z.of_nat (size Old)
               - Z.of_nat (ConsideredCount client (Items H))
               + Z.of_nat (NewCount client Old (zip (Items H) (Items H'))))
  /\ Z.of_nat (length Deleted) <= Z.max 0 DeleteCount.
Proof.
  cbv zeta. unfold BuildChangedAndDeletedBuffers, BuildChanged.
  destruct (BuildChanged_loop _ _ _ _ _) as [Items' B] eqn:Hloop.
  cbn [snd Items set_ArraySerializer set_Items].
  destruct (BuildChanged_loop_spec _ _ _ _ _ _ _ Hloop)
    as (Hlen & Hsame & Hchg & Hdc & Hrng).
  pose proof (BuildChanged_loop_NewMap _ _ _ _ _ _ _ Hloop) as Hmap.
  cbn [bChangedElements bNewIDToKeyMap bDeleteCount] in *.
  assert (Hin32 : in_int32 (bDeleteCount B)).
  { apply Hrng. unfold InitialDeleteCount. apply wrap32_range. }
  split; [done|]. split; [done|]. split; [|split; [|split; [|split]]].
  - intros i id. rewrite Hchg. split.
    + intros [Hin|(k & It & It' & -> & Hk & Hk' & Hs & -> & Hne)].
      { by apply elem_of_nil in Hin. }
      exists k, It, It'. split; [lia|]. do 4 (split; [done|]).
      destruct (Old !! ReplicationID It') as [v|] eqn:Hv; [right|by left].
      exists v. split; [done|]. congruence.
    + intros (k & It & It' & -> & Hk & Hk' & Hs & -> & Hcond). right.
      exists k, It, It'. split; [lia|]. do 4 (split; [done|]).
      destruct Hcond as [Hn|(v & Hv & Hne)]; congruence.
  - intros id. rewrite Hmap. split.
    + intros [[? Hin]|?]; [by rewrite lookup_empty in Hin|done].
    + by right.
  - intros d Hd. unfold BuildDeleted in Hd.
    destruct (0 <? bDeleteCount B); [|by apply elem_of_nil in Hd].
    apply BuildDeleted_loop_elem_of in Hd as [Hd|[[v Hv] Hn]].
    { by apply elem_of_nil in Hd. }
    apply elem_of_map_to_list in Hv. eauto.
  - rewrite <- (wrap32_id (bDeleteCount B)) by done. rewrite Hdc.
    unfold InitialDeleteCount. rewrite CalcNumItemsForConsideration_spec.
    by rewrite wrap32_sub_r, wrap32_add_l.
  - unfold BuildDeleted.
    destruct (Z.ltb_spec 0 (bDeleteCount B)) as [Hpos|Hneg]; [|cbn; lia].
    etrans; [apply BuildDeleted_loop_length|cbn; lia].
    unfold in_int32 in Hin32. lia.
Qed.

End BuildFacts.

(** ** Receiving a delta *)

Section ReceiveFacts.
Context `{T : FastArrayItemType} `{L : FastArrayLimits}.
Implicit Types H : TFastArraySerializeHelper.
Implicit Types Its : list FFastArraySerializerItem.
Implicit Types M : gmap Z Z.

Lemma DistinctIDs_inj Its (a b : nat) x y :
  DistinctIDs Its -> Its !! a = Some x -> Its !! b = Some y ->
  ReplicationID x = ReplicationID y -> a = b.
Proof.
  intros [Hnd _] Ha Hb Heq.
  apply (proj1 (NoDup_alt (IDs Its)) Hnd a b (ReplicationID x)).
  - unfold IDs. by rewrite list_lookup_fmap, Ha.
  - unfold IDs. by rewrite list_lookup_fmap, Hb, Heq.
Qed.

Lemma DistinctIDs_not_sentinel Its (k : nat) x :
  DistinctIDs Its -> Its !! k = Some x -> ReplicationID x <> INDEX_NONE.
Proof.
  intros [_ Hns] Hk Heq. apply Hns. unfold IDs.
  apply list_elem_of_fmap. exists x. split; [done|].
  by eapply list_elem_of_lookup_2.
Qed.

Lemma elem_of_IDs Its id :
  id ∈ IDs Its <-> exists (k : nat) x, Its !! k = Some x /\ ReplicationID x = id.
Proof.
  unfold IDs. rewrite list_elem_of_fmap. split.
  - intros (x & -> & Hx). apply list_elem_of_lookup in Hx as [k Hk]. eauto.
  - intros (k & x & Hk & <-). exists x. split; [done|].
    by eapply list_elem_of_lookup_2.
Qed.

Lemma ItemMapConsistent_lookup_None Its M id :
  ItemMapConsistent Its M -> id ∉ IDs Its -> M !! id = None.
Proof.
  intros Hc Hni. destruct (M !! id) as [idx|] eqn:E; [|done].
  apply Hc in E as (k & x & _ & Hk & Hid). exfalso. apply Hni.
  apply elem_of_IDs. eauto.
Qed.

Lemma ItemMapConsistent_lookup_Some Its M (k : nat) x :
  ItemMapConsistent Its M -> Its !! k = Some x ->
  M !! ReplicationID x = Some (Z.of_nat k).
Proof. intros Hc Hk. apply Hc. eauto. Qed.

(** The loop that rebuilds the id index. *)
Lemma RebuildItemMap_loop_consistent Rest :
  forall Pre M,
    DistinctIDs (Pre ++ Rest) -> ItemMapConsistent Pre M ->
    ItemMapConsistent (Pre ++ Rest)
      (RebuildItemMap_loop false (Z.of_nat (length Pre)) Rest M).
Proof.
  induction Rest as [|Item Rest IH]; intros Pre M Hd Hc;
    cbn [RebuildItemMap_loop].
  - by rewrite app_nil_r.
  - assert (HItem : (Pre ++ Item :: Rest) !! length Pre = Some Item).
    { by rewrite lookup_app_r, Nat.sub_diag by lia. }
    pose proof (DistinctIDs_not_sentinel _ _ _ Hd HItem) as Hns.
    apply Z.eqb_neq in Hns. rewrite Hns. cbn [andb].
    replace (Z.of_nat (length Pre) + 1)
      with (Z.of_nat (length (Pre ++ [Item])))
      by (rewrite length_app; cbn; lia).
    replace (Pre ++ Item :: Rest) with ((Pre ++ [Item]) ++ Rest)
      by (by rewrite <- app_assoc).
    apply IH; [by rewrite <- app_assoc|].
    intros id idx. destruct (decide (ReplicationID Item = id)) as [<-|Hne].
    + rewrite lookup_insert_eq. split.
      * intros [= <-]. exists (length Pre), Item. split; [done|].
        split; [|done]. by rewrite lookup_app_r, Nat.sub_diag by lia.
      * intros (k & x & -> & Hk & Hid). f_equal. f_equal.
        assert (Hk' : (Pre ++ Item :: Rest) !! k = Some x).
        { apply lookup_app_Some in Hk as [Hk|[Hge Hk]].
          - by apply lookup_app_l_Some.
          - apply list_lookup_singleton_Some in Hk as [Hk ->].
            replace k with (length Pre) by lia. done. }
        symmetry. by eapply DistinctIDs_inj.
    + rewrite lookup_insert_ne by done. rewrite (Hc id idx). split.
      * intros (k & x & -> & Hk & Hid). exists k, x.
        split; [done|]. split; [|done]. by apply lookup_app_l_Some.
      * intros (k & x & -> & Hk & Hid). exists k, x.
        split; [done|]. split; [|done].
        apply lookup_app_Some in Hk as [Hk|[Hge Hk]]; [done|].
        apply list_lookup_singleton_Some in Hk as [Hk ->]. done.
Qed.

Lemma ItemMapConsistent_empty : ItemMapConsistent [] ∅.
Proof.
  intros id idx. rewrite lookup_empty. split; [done|].
  intros (k & x & _ & Hk & _). by rewrite lookup_nil in Hk.
Qed.

(** On a receiver in order the id index is right once
    [ConditionalRebuildItemMap] has run. *)
Lemma ConditionalRebuildItemMap_consistent H :
  ReceiverOK H ->
  exists M,
    ConditionalRebuildItemMap false H
    = set_ArraySerializer (set_ItemMap M (ArraySerializer H)) H
    /\ ItemMapConsistent (Items H) M.
Proof.
  intros (HW & Hd & Hu). unfold ConditionalRebuildItemMap.
  rewrite HW. rewrite bool_decide_eq_false_2 by (by intros [? ?]).
  cbn [negb andb orb].
  destruct (Z.eqb_spec (Z.of_nat (size (ItemMap (ArraySerializer H))))
              (Num (Items H))) as [Heq|Hne]; cbn [negb].
  - destruct Hu as [Hu|Hu]; [done|].
    exists (ItemMap (ArraySerializer H)). split; [|done].
    by destruct H as [? [] ? ? ?].
  - eexists. split; [reflexivity|].
    apply (RebuildItemMap_loop_consistent (Items H) [] ∅ Hd).
    apply ItemMapConsistent_empty.
Qed.

(** The deleted ids of a delta, turned into indices. *)
Lemma ReadDeleted_loop_spec M (Dels Rest : list Z) :
  forall Acc,
    ReadDeleted_loop (length Dels) M (mkReader (Dels ++ Rest) false) Acc
    = (Acc ++ omap (fun id => M !! id) Dels, mkReader Rest false).
Proof.
  induction Dels as [|d Dels IH]; intros Acc; cbn [ReadDeleted_loop length].
  - cbn. by rewrite app_nil_r.
  - cbn [app ReadInt32 ArIsError Words]. cbn -[ReadDeleted_loop].
    destruct (M !! d) as [idx|]; rewrite IH; [|done].
    by rewrite <- app_assoc.
Qed.

(** The header of a well-formed delta is accepted. *)
Lemma ReadDeltaHeader_spec H (D : Delta) :
  WellFormedDelta D ->
  ReadDeltaHeader H Header.empty (mkReader (DeltaWords D) false)
  = (true,
     DeltaHeader D
       (omap (fun id => ItemMap (ArraySerializer H) !! id) (dDeleted D)),
     mkReader (flat_map (fun e => e.1 :: e.2) (dChanged D)) false).
Proof.
  intros (Hdel & Hchg & _). unfold ReadDeltaHeader, DeltaWords.
  cbn [app ReadInt32 ArIsError Words].
  destruct (Z.ltb_spec MaxNumberOfAllowedDeletionsPerUpdate
              (Num (dDeleted D))); [lia|].
  destruct (Z.ltb_spec MaxNumberOfAllowedChangesPerUpdate
              (Num (dChanged D))); [lia|].
  unfold Num at 1. rewrite Nat2Z.id.
  cbn [Header.set_NumChanged Header.DeletedIndices Header.empty
         Header.ArrayReplicationKey Header.BaseReplicationKey
         Header.NumChanged].
  by rewrite ReadDeleted_loop_spec.
Qed.

Lemma At_lookup Its (k : nat) :
  At Its (Z.of_nat k) = Its !! k.
Proof.
  unfold At. destruct (IsValidIndex Its (Z.of_nat k)) eqn:Hv.
  - by rewrite Nat2Z.id.
  - symmetry. apply lookup_ge_None.
    destruct (decide (length Its <= k)%nat); [done|].
    assert (IsValidIndex Its (Z.of_nat k) = true); [|congruence].
    apply IsValidIndex_spec. rewrite Nat2Z.id. lia.
Qed.

(** A changed element whose id is known. *)
Lemma ReadChanged_step_found Hdr H id ws Rest Chg Add (k : nat) Item :
  Decodes ws ->
  ItemMap (ArraySerializer H) !! id = Some (Z.of_nat k) ->
  Items H !! k = Some Item ->
  ReadChanged_step Hdr H (mkReader (id :: ws ++ Rest) false) Chg Add
  = Some (true,
          set_Items
            (<[k := Stamp (Header.ArrayReplicationKey Hdr)
                      (NetSerializeStruct_Load (mkReader (ws ++ Rest) false)
                         (ItemData Item)).1 Item]> (Items H)) H,
          mkReader Rest false, Chg ++ [Z.of_nat k], Add).
Proof.
  intros Hdec HM Hk. unfold ReadChanged_step.
  cbn [ReadInt32 ArIsError Words]. rewrite HM.
  rewrite At_lookup, Hk. cbn [mbind option_bind].
  rewrite At_lookup, Hk. cbn [mbind option_bind].
  cbn [ItemData set_ReplicationKey set_MostRecentArrayReplicationKey].
  pose proof (Hdec Rest (ItemData Item)) as Hd.
  destruct (NetSerializeStruct_Load _ _) as [Data R'] eqn:HL.
  cbn [fst snd] in *. subst R'. cbn [ArIsError negb].
  unfold SetAt. by rewrite Nat2Z.id.
Qed.

(** A changed element whose id is unknown. *)
Lemma ReadChanged_step_new Hdr H id ws Rest Chg Add :
  Decodes ws ->
  ItemMap (ArraySerializer H) !! id = None ->
  ReadChanged_step Hdr H (mkReader (id :: ws ++ Rest) false) Chg Add
  = Some (true,
          set_ArraySerializer
            (set_ItemMap (<[id := Num (Items H)]> (ItemMap (ArraySerializer H)))
               (ArraySerializer H))
            (set_Items
               (Items H
                ++ [Stamp (Header.ArrayReplicationKey Hdr)
                      (NetSerializeStruct_Load (mkReader (ws ++ Rest) false)
                         Payload_default).1
                      (set_ReplicationID id new_Item)]) H),
          mkReader Rest false, Chg, Add ++ [Num (Items H)]).
Proof.
  intros Hdec HM. unfold ReadChanged_step.
  cbn [ReadInt32 ArIsError Words]. rewrite HM.
  cbn [mbind option_bind Items set_Items set_ArraySerializer].
  assert (Hn : Num (Items H ++ [set_ReplicationID id new_Item]) - 1
               = Z.of_nat (length (Items H))).
  { unfold Num. rewrite length_app. cbn. lia. }
  rewrite Hn. rewrite At_lookup.
  rewrite lookup_app_r, Nat.sub_diag by lia. cbn [lookup list_lookup].
  cbn [mbind option_bind].
  cbn [ItemData set_ReplicationKey set_MostRecentArrayReplicationKey
         set_ReplicationID new_Item].
  pose proof (Hdec Rest Payload_default) as Hd.
  destruct (NetSerializeStruct_Load _ _) as [Data R'] eqn:HL.
  cbn [fst snd] in *. subst R'. cbn [ArIsError negb].
  unfold SetAt. rewrite Nat2Z.id.
  rewrite insert_app_r_alt, Nat.sub_diag by lia.
  by destruct H.
Qed.

Lemma Listings_nil x : Listings x [] = 0%nat.
Proof. done. Qed.

Lemma Listings_cons x id ids :
  Listings x (id :: ids)
  = ((if decide (id = x) then 1 else 0) + Listings x ids)%nat.
Proof.
  unfold Listings. rewrite filter_cons. by destruct (decide (id = x)).
Qed.

Lemma Listings_not_elem_of x ids : x ∉ ids -> Listings x ids = 0%nat.
Proof.
  induction ids as [|id ids IH]; [done|]. intros Hni.
  apply not_elem_of_cons in Hni as [Hne Hni].
  rewrite Listings_cons, IH by done. by rewrite decide_False by done.
Qed.

Lemma IDs_lookup Its (k : nat) id :
  IDs Its !! k = Some id
  <-> exists Item, Its !! k = Some Item /\ ReplicationID Item = id.
Proof.
  unfold IDs. rewrite list_lookup_fmap. destruct (Its !! k); cbn.
  - split; [intros [= <-]; eauto|]. by intros (? & [= <-] & <-).
  - split; [done|]. by intros (? & ? & _).
Qed.

Lemma ItemMapConsistent_IDs Its M :
  ItemMapConsistent Its M
  <-> (forall id idx,
         M !! id = Some idx
         <-> exists k : nat, idx = Z.of_nat k /\ IDs Its !! k = Some id).
Proof.
  unfold ItemMapConsistent.
  split; intros Hc id idx; rewrite (Hc id idx).
  - split.
    + intros (k & x & -> & Hk & Hid). exists k. split; [done|].
      apply IDs_lookup. eauto.
    + intros (k & -> & Hk). apply IDs_lookup in Hk as (x & ? & ?). eauto.
  - split.
    + intros (k & -> & Hk). apply IDs_lookup in Hk as (x & ? & ?). eauto.
    + intros (k & x & -> & Hk & Hid). exists k. split; [done|].
      apply IDs_lookup. eauto.
Qed.

Lemma ItemMapConsistent_ext Its Its' M :
  IDs Its' = IDs Its -> ItemMapConsistent Its M -> ItemMapConsistent Its' M.
Proof.
  intros Heq Hc. apply ItemMapConsistent_IDs. rewrite Heq.
  by apply ItemMapConsistent_IDs.
Qed.

Lemma IDs_Stamp Its (k : nat) Key Data Item :
  Its !! k = Some Item -> IDs (<[k := Stamp Key Data Item]> Its) = IDs Its.
Proof.
  intros Hk. unfold IDs. rewrite list_fmap_insert. cbn.
  apply list_insert_id. by rewrite list_lookup_fmap, Hk.
Qed.

Lemma ChangedRead_nil Key H :
  DistinctIDs (Items H) ->
  ItemMapConsistent (Items H) (ItemMap (ArraySerializer H)) ->
  ChangedRead Key [] H H.
Proof.
  intros Hd Hc. split; [|split; [done|split; [done|split; [|split; [|split]]]]].
  - repeat split; try done. by destruct (ArraySerializer H).
  - intros k Item Hk. exists Item. by rewrite Listings_nil.
  - intros k Item' _ Hin. by apply elem_of_nil in Hin.
  - intros k Item' Hk Hle. apply lookup_lt_Some in Hk. lia.
  - split; [|done]. intros id Hin. by apply elem_of_nil in Hin.
Qed.

Lemma ChangedRead_found Key H (k : nat) Item Data :
  DistinctIDs (Items H) ->
  ItemMapConsistent (Items H) (ItemMap (ArraySerializer H)) ->
  Items H !! k = Some Item ->
  ChangedRead Key [ReplicationID Item] H
    (set_Items (<[k := Stamp Key Data Item]> (Items H)) H).
Proof.
  intros Hd Hc Hk. pose proof (lookup_lt_Some _ _ _ Hk) as Hlt.
  pose proof (IDs_Stamp _ _ Key Data _ Hk) as HIDs.
  unfold ChangedRead. cbn [Items Parms States Calls ArraySerializer set_Items].
  split; [|split; [|split; [|split; [|split; [|split; [|split]]]]]].
  - repeat split; try done. by destruct (ArraySerializer H).
  - unfold DistinctIDs. by rewrite HIDs.
  - by eapply ItemMapConsistent_ext.
  - intros j It Hj. destruct (decide (j = k)) as [->|Hne].
    + rewrite Hk in Hj. inversion Hj; subst It.
      exists (Stamp Key Data Item). rewrite list_lookup_insert_eq by done.
      split; [done|]. split; [done|]. split.
      * rewrite Listings_cons, Listings_nil, decide_True by done. done.
      * intros Hni. exfalso. apply Hni. by left.
    + exists It. rewrite list_lookup_insert_ne by done.
      split; [done|]. split; [done|].
      assert (Hid : ReplicationID Item <> ReplicationID It).
      { intros Heq. apply Hne. symmetry. by eapply DistinctIDs_inj. }
      rewrite Listings_cons, Listings_nil, decide_False by done. done.
  - intros j It' Hj Hin. apply list_elem_of_singleton in Hin.
    destruct (decide (j = k)) as [->|Hne].
    + rewrite list_lookup_insert_eq in Hj by done. by inversion Hj.
    + rewrite list_lookup_insert_ne in Hj by done.
      exfalso. apply Hne. by eapply DistinctIDs_inj.
  - intros j It' Hj Hle. apply lookup_lt_Some in Hj.
    rewrite length_insert in Hj. lia.
  - intros id Hin. apply list_elem_of_singleton in Hin as ->.
    change (ReplicationID Item ∈ IDs (<[k:=Stamp Key Data Item]> (Items H))).
    rewrite HIDs. apply elem_of_IDs. eauto.
  - intros _. apply length_insert.
Qed.

Lemma ChangedRead_new Key H id Data :
  DistinctIDs (Items H) ->
  ItemMapConsistent (Items H) (ItemMap (ArraySerializer H)) ->
  id <> INDEX_NONE -> id ∉ IDs (Items H) ->
  ChangedRead Key [id] H
    (set_ArraySerializer
       (set_ItemMap (<[id := Num (Items H)]> (ItemMap (ArraySerializer H)))
          (ArraySerializer H))
       (set_Items
          (Items H ++ [Stamp Key Data (set_ReplicationID id new_Item)]) H)).
Proof.
  intros [Hnd Hns] Hc Hne Hni.
  set (New := Stamp Key Data (set_ReplicationID id new_Item)).
  assert (HIDs : IDs (Items H ++ [New]) = IDs (Items H) ++ [id]).
  { unfold IDs. by rewrite fmap_app. }
  unfold ChangedRead.
  cbn [Items Parms States Calls ArraySerializer set_Items set_ArraySerializer
         ItemMap set_ItemMap].
  split; [|split; [|split; [|split; [|split; [|split; [|split]]]]]].
  - repeat split; try done.
  - split; rewrite HIDs.
    + apply NoDup_app. split; [done|]. split; [|apply NoDup_singleton].
      intros x Hx Hx'. by apply list_elem_of_singleton in Hx' as ->.
    + intros Hin. apply elem_of_app in Hin as [?|Hin]; [done|].
      by apply list_elem_of_singleton in Hin.
  - intros id' idx. destruct (decide (id = id')) as [<-|Hne'].
    + rewrite lookup_insert_eq. split.
      * intros [= <-]. exists (length (Items H)), New. split; [done|].
        split; [|done]. by rewrite lookup_app_r, Nat.sub_diag by lia.
      * intros (k & x & -> & Hk & Hid). f_equal. unfold Num. f_equal.
        apply lookup_app_Some in Hk as [Hk|[Hge Hk]].
        -- exfalso. apply Hni. apply elem_of_IDs. eauto.
        -- apply list_lookup_singleton_Some in Hk as [Hk _]. lia.
    + rewrite lookup_insert_ne by done. rewrite (Hc id' idx). split.
      * intros (k & x & -> & Hk & Hid). exists k, x.
        split; [done|]. split; [|done]. by apply lookup_app_l_Some.
      * intros (k & x & -> & Hk & Hid). exists k, x.
        split; [done|]. split; [|done].
        apply lookup_app_Some in Hk as [Hk|[Hge Hk]]; [done|].
        apply list_lookup_singleton_Some in Hk as [Hk <-]. done.
  - intros k It Hk. exists It. split; [by apply lookup_app_l_Some|].
    split; [done|].
    assert (Hid : id <> ReplicationID It).
    { intros ->. apply Hni. apply elem_of_IDs. eauto. }
    rewrite Listings_cons, Listings_nil, decide_False by done. done.
  - intros k It' Hk Hin. apply list_elem_of_singleton in Hin.
    apply lookup_app_Some in Hk as [Hk|[Hge Hk]].
    + exfalso. apply Hni. apply elem_of_IDs. eauto.
    + by apply list_lookup_singleton_Some in Hk as [_ <-].
  - intros k It' Hk Hle.
    apply lookup_app_Some in Hk as [Hk|[Hge Hk]].
    + apply lookup_lt_Some in Hk. lia.
    + apply list_lookup_singleton_Some in Hk as [_ <-]. by left.
  - intros id' Hin. apply list_elem_of_singleton in Hin as ->.
    change (id ∈ IDs (Items H ++ [New])). rewrite HIDs.
    apply elem_of_app. right. by left.
  - intros Hall. exfalso. apply Hni, Hall. by left.
Qed.

Lemma ChangedRead_trans Key id ids H H1 H2 :
  ChangedRead Key [id] H H1 -> ChangedRead Key ids H1 H2 ->
  ChangedRead Key (id :: ids) H H2.
Proof.
  intros ((HP1 & HS1 & HC1 & HA1) & Hd1 & Hc1 & Hpre1 & Hst1 & Hnew1 & Hcov1
          & Hlen1)
         ((HP2 & HS2 & HC2 & HA2) & Hd2 & Hc2 & Hpre2 & Hst2 & Hnew2 & Hcov2
          & Hlen2).
  split; [|split; [done|split; [done|split; [|split; [|split; [|split]]]]]].
  - repeat split; try congruence.
    rewrite HA2, HA1. by destruct (ArraySerializer H).
  - intros k It Hk.
    destruct (Hpre1 k It Hk) as (It1 & Hk1 & Hid1 & Hkey1 & Hsame1).
    destruct (Hpre2 k It1 Hk1) as (It2 & Hk2 & Hid2 & Hkey2 & Hsame2).
    exists It2. split; [done|]. split; [congruence|]. split.
    + rewrite Hkey2, Hkey1, Hid1, !Listings_cons, Listings_nil, Nat.add_0_r.
      by rewrite (Nat.add_comm _ (Listings _ ids)), Nat.iter_add.
    + intros Hni. apply not_elem_of_cons in Hni as [Hne Hni].
      rewrite Hsame2 by (by rewrite Hid1). apply Hsame1.
      intros Hin. by apply list_elem_of_singleton in Hin.
  - intros k It2 Hk2 Hin.
    destruct (decide (ReplicationID It2 ∈ ids)) as [Hi|Hi]; [by eapply Hst2|].
    apply elem_of_cons in Hin as [Hid|?]; [|done].
    destruct (decide (length (Items H1) <= k)%nat) as [Hge|Hlt].
    { exfalso. apply Hi. by eapply Hnew2. }
    destruct (lookup_lt_is_Some_2 (Items H1) k ltac:(lia)) as [It1 Hk1].
    destruct (Hpre2 k It1 Hk1) as (It2' & Hk2' & Hid2 & _ & Hsame2).
    rewrite Hk2 in Hk2'. inversion Hk2'; subst It2'.
    rewrite Hsame2 by (by rewrite <- Hid2).
    apply (Hst1 k It1 Hk1). apply list_elem_of_singleton. congruence.
  - intros k It2 Hk2 Hle.
    destruct (decide (length (Items H1) <= k)%nat) as [Hge|Hlt].
    { apply elem_of_cons. right. by eapply Hnew2. }
    destruct (lookup_lt_is_Some_2 (Items H1) k ltac:(lia)) as [It1 Hk1].
    destruct (Hpre2 k It1 Hk1) as (It2' & Hk2' & Hid2 & _).
    rewrite Hk2 in Hk2'. inversion Hk2'; subst It2'.
    pose proof (Hnew1 k It1 Hk1 Hle) as Hin.
    apply list_elem_of_singleton in Hin. apply elem_of_cons. left.
    congruence.
  - intros id' Hin. apply elem_of_cons in Hin as [->|Hin]; [|by apply Hcov2].
    pose proof (Hcov1 id (list_elem_of_here _ _)) as Hin1.
    apply elem_of_IDs in Hin1 as (k & It1 & Hk1 & Hid1).
    destruct (Hpre2 k It1 Hk1) as (It2 & Hk2 & Hid2 & _).
    apply elem_of_IDs. exists k, It2. split; [done|congruence].
  - intros Hall. rewrite Hlen2, Hlen1; [done|..].
    + intros id' Hin. apply list_elem_of_singleton in Hin as ->.
      apply Hall. by left.
    + intros id' Hin.
      assert (Hin0 : id' ∈ IDs (Items H)) by (apply Hall; by right).
      apply elem_of_IDs in Hin0 as (k & It & Hk & Hid).
      destruct (Hpre1 k It Hk) as (It1 & Hk1 & Hid1 & _).
      apply elem_of_IDs. exists k, It1. split; [done|congruence].
Qed.

Lemma IsValidIndex_mono Its Its' i :
  (length Its <= length Its')%nat ->
  IsValidIndex Its i = true -> IsValidIndex Its' i = true.
Proof. rewrite !IsValidIndex_spec. lia. Qed.

Lemma ItemMapConsistent_lookup_is_Some Its M id :
  ItemMapConsistent Its M -> id ∈ IDs Its ->
  exists (k : nat) Item,
    M !! id = Some (Z.of_nat k) /\ Its !! k = Some Item
    /\ ReplicationID Item = id.
Proof.
  intros Hc Hin. apply elem_of_IDs in Hin as (k & x & Hk & Hid).
  exists k, x. split; [|done]. apply Hc. eauto.
Qed.

(** The loop over the changed elements of a delta. *)
Lemma ReadChanged_loop_spec Hdr (chg : list (Z * list Z)) :
  forall H Rest Chg Add,
    DistinctIDs (Items H) ->
    ItemMapConsistent (Items H) (ItemMap (ArraySerializer H)) ->
    INDEX_NONE ∉ chg.*1 ->
    Forall (fun e => Decodes e.2) chg ->
    Forall (fun i => IsValidIndex (Items H) i = true) Chg ->
    Forall (fun i => IsValidIndex (Items H) i = true) Add ->
    exists H' Chg' Add',
      ReadChanged_loop (length chg) Hdr H
        (mkReader (flat_map (fun e => e.1 :: e.2) chg ++ Rest) false) Chg Add
      = Some (true, H', mkReader Rest false, Chg', Add')
      /\ ChangedRead (Header.ArrayReplicationKey Hdr) chg.*1 H H'
      /\ Forall (fun i => IsValidIndex (Items H') i = true) Chg'
      /\ Forall (fun i => IsValidIndex (Items H') i = true) Add'
      /\ ((forall id, id ∈ chg.*1 -> id ∈ IDs (Items H)) -> Add' = Add).
Proof.
  induction chg as [|[id ws] chg IH]; intros H Rest Chg Add Hd Hc Hns Hdec
    HChg HAdd.
  - exists H, Chg, Add. cbn. split; [done|].
    split; [by apply ChangedRead_nil|]. done.
  - apply Forall_cons in Hdec as [Hws Hdec]. cbn [fst snd] in Hws.
    rewrite fmap_cons in Hns. cbn [fst] in Hns.
    apply not_elem_of_cons in Hns as [Hne Hns].
    rewrite fmap_cons.
    cbn [length ReadChanged_loop flat_map fst snd].
    rewrite <- !app_assoc. cbn [app].
    destruct (ItemMap (ArraySerializer H) !! id) as [idx|] eqn:HM.
    + pose proof (proj1 (Hc id idx) HM) as (k & Item & -> & Hk & Hid).
      rewrite (ReadChanged_step_found Hdr H id ws _ Chg Add k Item Hws HM Hk).
      set (H1 := set_Items _ H).
      pose proof (ChangedRead_found (Header.ArrayReplicationKey Hdr) H k Item
                    (NetSerializeStruct_Load
                       (mkReader
                          (ws ++ flat_map (fun e => e.1 :: e.2) chg ++ Rest)
                          false) (ItemData Item)).1 Hd Hc Hk) as HR1.
      rewrite Hid in HR1. fold H1 in HR1.
      assert (Hlen1 : length (Items H1) = length (Items H)).
      { subst H1. cbn. apply length_insert. }
      destruct HR1 as (HF1 & Hd1 & Hc1 & Hrest1).
      destruct (IH H1 Rest (Chg ++ [Z.of_nat k]) Add Hd1 Hc1 Hns Hdec)
        as (H' & Chg' & Add' & Heq & HR2 & HChg' & HAdd' & Hadd).
      { apply Forall_app. split.
        - eapply Forall_impl; [exact HChg|]. intros i.
          apply IsValidIndex_mono. lia.
        - apply Forall_singleton. apply IsValidIndex_spec.
          rewrite Nat2Z.id, Hlen1. apply lookup_lt_Some in Hk. lia. }
      { eapply Forall_impl; [exact HAdd|]. intros i.
        apply IsValidIndex_mono. lia. }
      exists H', Chg', Add'. split; [exact Heq|].
      assert (HR1 : ChangedRead (Header.ArrayReplicationKey Hdr) [id] H H1)
        by done.
      split; [by eapply ChangedRead_trans|].
      split; [done|]. split; [done|].
      intros Hall. apply Hadd. intros id' Hin.
      assert (Hin0 : id' ∈ IDs (Items H)) by (apply Hall; by right).
      apply elem_of_IDs in Hin0 as (j & It & Hj & Hidj).
      destruct Hrest1 as (Hpre1 & _).
      destruct (Hpre1 j It Hj) as (It1 & Hj1 & Hid1 & _).
      apply elem_of_IDs. exists j, It1. split; [done|congruence].
    + assert (Hni : id ∉ IDs (Items H)).
      { intros Hin.
        destruct (ItemMapConsistent_lookup_is_Some _ _ _ Hc Hin)
          as (? & ? & ? & _). congruence. }
      rewrite (ReadChanged_step_new Hdr H id ws _ Chg Add Hws HM).
      set (H1 := set_ArraySerializer _ _).
      pose proof (ChangedRead_new (Header.ArrayReplicationKey Hdr) H id
                    (NetSerializeStruct_Load
                       (mkReader
                          (ws ++ flat_map (fun e => e.1 :: e.2) chg ++ Rest)
                          false) Payload_default).1 Hd Hc
                    (not_eq_sym Hne) Hni) as HR1.
      fold H1 in HR1.
      assert (Hlen1 : length (Items H1) = S (length (Items H))).
      { subst H1. cbn. rewrite length_app. cbn. lia. }
      pose proof HR1 as (HF1 & Hd1 & Hc1 & Hrest1).
      destruct (IH H1 Rest Chg (Add ++ [Num (Items H)]) Hd1 Hc1 Hns Hdec)
        as (H' & Chg' & Add' & Heq & HR2 & HChg' & HAdd' & Hadd).
      { eapply Forall_impl; [exact HChg|]. intros i.
        apply IsValidIndex_mono. lia. }
      { apply Forall_app. split.
        - eapply Forall_impl; [exact HAdd|]. intros i.
          apply IsValidIndex_mono. lia.
        - apply Forall_singleton. apply IsValidIndex_spec.
          unfold Num. rewrite Nat2Z.id, Hlen1. lia. }
      exists H', Chg', Add'. split; [exact Heq|].
      split; [by eapply ChangedRead_trans|].
      split; [done|]. split; [done|].
      intros Hall. exfalso. apply Hni, Hall. by left.
Qed.

(** The reading branch on a well-formed delta, up to the call of
    [PostReceiveCleanup]. *)
Lemma ReceiveWords_run H (D : Delta) :
  ReceiverOK H -> WellFormedDelta D ->
  exists M0 Hm Chg Add,
    let Hr :=
      set_ArraySerializer (set_ItemMap M0 (ArraySerializer H))
        (set_Parms
           (set_Reader (Some (mkReader (DeltaWords D) false)) (Parms H)) H) in
    let Hdr := DeltaHeader D (omap (fun id => M0 !! id) (dDeleted D)) in
    ItemMapConsistent (Items H) M0
    /\ ChangedRead (dArrayReplicationKey D) (ChangedIDs D) Hr Hm
    /\ Forall (fun i => IsValidIndex (Items Hm) i = true) Chg
    /\ Forall (fun i => IsValidIndex (Items Hm) i = true) Add
    /\ ((forall id, id ∈ ChangedIDs D -> id ∈ IDs (Items H)) -> Add = [])
    /\ ReceiveWords H (DeltaWords D)
       = (H' ← PostReceiveCleanup Hm Hdr Chg Add;
          Some (true,
                set_Parms (set_Reader (Some (mkReader [] false)) (Parms H'))
                  H')).
Proof.
  intros HOK HWF.
  set (H0 := set_Parms
               (set_Reader (Some (mkReader (DeltaWords D) false)) (Parms H))
               H).
  assert (HOK0 : ReceiverOK H0).
  { destruct HOK as (HW & Hd & Hu). by split. }
  destruct (ConditionalRebuildItemMap_consistent H0 HOK0) as (M0 & Hreb & Hc0).
  cbn [Items ArraySerializer H0 set_Parms] in Hc0.
  set (Hr := set_ArraySerializer (set_ItemMap M0 (ArraySerializer H)) H0).
  change (ConditionalRebuildItemMap false H0 = Hr) in Hreb.
  pose proof HWF as (Hdel & Hchg & Hnd & Hdisj & Hns & Hdec).
  destruct (ReadChanged_loop_spec
              (DeltaHeader D (omap (fun id => M0 !! id) (dDeleted D)))
              (dChanged D) Hr [] [] [])
    as (Hm & Chg & Add & Hloop & HCR & HChg & HAdd & Hadd);
    [by destruct HOK as (_ & ? & _)|done|done|done|done|done|].
  rewrite app_nil_r in Hloop.
  exists M0, Hm, Chg, Add. cbv zeta. fold H0. fold Hr.
  split; [done|]. split; [done|]. split; [done|]. split; [done|].
  split; [done|].
  unfold ReceiveWords. fold H0. unfold FastArrayDeltaSerialize.
  rewrite Hreb.
  assert (HWr : Writer (Parms Hr) = None) by (by destruct HOK).
  rewrite HWr. cbn [Reader Parms Hr H0 set_ArraySerializer set_Parms set_Reader
                      mbind option_bind].
  unfold FastArrayDeltaSerialize_Load.
  rewrite (ReadDeltaHeader_spec _ D HWF).
  cbn [negb ItemMap ArraySerializer set_ArraySerializer set_ItemMap].
  change (Header.NumChanged (DeltaHeader D _)) with (Num (dChanged D)).
  unfold Num at 1. rewrite Nat2Z.id.
  fold H0. fold Hr. change (ItemMap (ArraySerializer Hr)) with M0.
  rewrite Hloop. cbn [mbind option_bind negb].
  by destruct (PostReceiveCleanup _ _ _ _).
Qed.

Lemma NoDup_omap_inj {A B} (f : A -> option B) (l : list A) :
  NoDup l ->
  (forall x y v, x ∈ l -> y ∈ l -> f x = Some v -> f y = Some v -> x = y) ->
  NoDup (omap f l).
Proof.
  induction 1 as [|x l Hx Hnd IH]; intros Hinj; [constructor|].
  cbn. destruct (f x) as [v|] eqn:Hfx.
  - constructor.
    + intros Hin. apply list_elem_of_omap in Hin as (y & Hy & Hfy).
      apply Hx. replace x with y; [done|].
      symmetry. apply (Hinj x y v); [by left|by right|done..].
    + apply IH. intros a b w Ha Hb. apply Hinj; by right.
  - apply IH. intros a b w Ha Hb. apply Hinj; by right.
Qed.

Lemma omap_None_nil {A B} (f : A -> option B) (l : list A) :
  (forall x, x ∈ l -> f x = None) -> omap f l = [].
Proof.
  intros Hall. destruct (omap f l) as [|y k] eqn:E; [done|].
  assert (Hy : y ∈ omap f l) by (rewrite E; by left).
  apply list_elem_of_omap in Hy as (x & Hx & Hfx).
  rewrite Hall in Hfx by done. done.
Qed.

Lemma no_elements_nil {A} (l : list A) : (forall x, x ∉ l) -> l = [].
Proof. destruct l as [|x l]; [done|]. intros Hn. exfalso. apply (Hn x). by left. Qed.

Lemma Sort_nil : Sort [] = [].
Proof. reflexivity. Qed.

Lemma ItemMapConsistent_inj Its M id1 id2 idx :
  ItemMapConsistent Its M ->
  M !! id1 = Some idx -> M !! id2 = Some idx -> id1 = id2.
Proof.
  intros Hc H1 H2.
  apply Hc in H1 as (k1 & x1 & -> & Hk1 & <-).
  apply Hc in H2 as (k2 & x2 & Heq & Hk2 & <-).
  apply Nat2Z.inj in Heq as <-. congruence.
Qed.

Lemma Survivors_DistinctIDs Its Its' Kept :
  Survivors Its Its' Kept -> DistinctIDs Its -> DistinctIDs Its'.
Proof.
  intros [Hnd HF] Hd. split.
  - apply NoDup_alt. intros a b id Ha Hb.
    apply IDs_lookup in Ha as (x & Ha & Hx).
    apply IDs_lookup in Hb as (y & Hb & Hy).
    destruct (Forall2_lookup_l _ _ _ _ _ HF Ha) as (p & Hp & Hpx).
    destruct (Forall2_lookup_l _ _ _ _ _ HF Hb) as (q & Hq & Hqy).
    assert (p = q) by (eapply (DistinctIDs_inj Its); [done..|congruence]).
    subst q. by apply (proj1 (NoDup_alt Kept) Hnd a b p).
  - intros Hin. apply elem_of_IDs in Hin as (a & x & Ha & Hx).
    destruct (Forall2_lookup_l _ _ _ _ _ HF Ha) as (p & Hp & Hpx).
    by eapply (DistinctIDs_not_sentinel Its).
Qed.

(** The deleted set of a helper under a header. *)
Lemma FindImplicitDeletes_elem_of H Hdr idx :
  idx ∈ Header.DeletedIndices (FindImplicitDeletes H Hdr)
  <-> idx ∈ Header.DeletedIndices Hdr
      \/ (bInternalAck (Parms H) = false
          /\ exists (j : nat) Item,
               Items H !! j = Some Item /\ idx = Z.of_nat j
               /\ ImplicitlyDeleted Hdr Item).
Proof.
  unfold FindImplicitDeletes. destruct (bInternalAck (Parms H)); cbn.
  - split; [by left|]. by intros [?|[? _]].
  - rewrite FindImplicitDeletes_loop_elem_of. split.
    + intros [?|(j & It & ? & ? & ?)]; [by left|right].
      split; [done|]. exists j, It. split; [done|]. split; [lia|done].
    + intros [?|[_ (j & It & ? & ? & ?)]]; [by left|right].
      exists j, It. split; [done|]. split; [lia|done].
Qed.

Lemma FindImplicitDeletes_NoDup H Hdr :
  NoDup (Header.DeletedIndices Hdr) ->
  NoDup (Header.DeletedIndices (FindImplicitDeletes H Hdr)).
Proof.
  intros Hnd. unfold FindImplicitDeletes.
  destruct (bInternalAck (Parms H)); cbn; [done|].
  by apply FindImplicitDeletes_loop_NoDup.
Qed.

(** A well-formed delta is accepted by a receiver in order, which stays in
    order and shows the delta as applied. *)
Lemma ReceiveWords_first H (D : Delta) :
  ReceiverOK H -> WellFormedDelta D ->
  exists H1,
    ReceiveWords H (DeltaWords D) = Some (true, H1)
    /\ ReceiverOK H1 /\ Applied D H1
    /\ bInternalAck (Parms H1) = bInternalAck (Parms H).
Proof.
  intros HOK HWF.
  destruct (ReceiveWords_run H D HOK HWF)
    as (M0 & Hm & Chg & Add & Hc0 & HCR & HChg & HAdd & _ & Hrun).
  cbv zeta in *.
  set (Hdr := DeltaHeader D (omap (fun id => M0 !! id) (dDeleted D))) in *.
  set (Hr := set_ArraySerializer _ _) in *.
  destruct HCR as ((HP & HS & HC & HA) & Hdm & Hcm & Hpre & Hst & Hnew
                   & Hcov & _).
  pose proof HWF as (_ & _ & Hnd & Hdisj & Hns & _).
  pose proof HOK as (HW & Hd0 & _).
  pose proof (PostReceiveCleanup_spec Hm Hdr Chg Add HAdd HChg) as Hspec.
  cbv zeta in Hspec. rewrite Hspec in Hrun. cbn [mbind option_bind] in Hrun.
  set (Dfin := Header.DeletedIndices (FindImplicitDeletes Hm Hdr)) in *.
  destruct (RemoveAll_Sort_survivors (Items Hm) Dfin)
    as (Kept & Hsurv & Hnot & Hkeep).
  assert (HndD : NoDup Dfin).
  { apply FindImplicitDeletes_NoDup. cbn.
    apply NoDup_omap_inj; [done|].
    intros x y v _ _ Hx Hy.
    exact (ItemMapConsistent_inj _ _ _ _ _ Hc0 Hx Hy). }
  specialize (Hkeep HndD).
  assert (Hack : bInternalAck (Parms Hm) = bInternalAck (Parms H))
    by (by rewrite HP).
  eexists. split; [exact Hrun|].
  unfold ReceiverOK, Applied, ItemMapUsable.
  cbn [Items Parms ArraySerializer set_Parms set_Reader bInternalAck Writer].
  pose proof Hsurv as [HndK HF].
  (* an element left comes from a position that is not deleted *)
  assert (Hfrom : forall x, x ∈ RemoveAll (reverse (Sort Dfin)) (Items Hm) ->
            exists p : nat, Items Hm !! p = Some x /\ Z.of_nat p ∉ Dfin).
  { intros x Hx. apply list_elem_of_lookup in Hx as [a Ha].
    destruct (Forall2_lookup_l _ _ _ _ _ HF Ha) as (p & Hp & Hpx).
    exists p. split; [done|]. apply Hnot. by eapply list_elem_of_lookup_2. }
  (* a position that is not deleted is left *)
  assert (Hto : forall (p : nat) x, Items Hm !! p = Some x ->
            Z.of_nat p ∉ Dfin ->
            x ∈ RemoveAll (reverse (Sort Dfin)) (Items Hm)).
  { intros p x Hp Hni.
    assert (Hin : p ∈ Kept).
    { apply Hkeep; [|done]. by eapply lookup_lt_Some. }
    apply list_elem_of_lookup in Hin as [a Ha].
    destruct (Forall2_lookup_r _ _ _ _ _ HF Ha) as (y & Hy & Hpy).
    assert (y = x) by congruence. subst y.
    by eapply list_elem_of_lookup_2. }
  split; [|split; [|done]].
  - (* the receiver stays in order *)
    split; [by rewrite HP|]. split; [by eapply Survivors_DistinctIDs|].
    destruct (0 <? Num Dfin) eqn:HD.
    + cbn [ItemMap set_ItemMap].
      destruct (RemoveAll (reverse (Sort Dfin)) (Items Hm)) as [|x l];
        [right; apply ItemMapConsistent_empty|left].
      rewrite map_size_empty. unfold Num. cbn. lia.
    + right. assert (HDnil : Dfin = []).
      { apply Z.ltb_ge in HD. unfold Num in HD.
        destruct Dfin; [done|]. cbn [length] in HD. lia. }
      rewrite HDnil, Sort_nil. cbn [reverse RemoveAll].
      change (reverse []) with (@nil Z). cbn [RemoveAll].
      by destruct (_ || _).
  - (* the delta shows as applied *)
    split; [|split].
    + intros c Hc. pose proof (Hcov c Hc) as Hin.
      apply elem_of_IDs in Hin as (p & x & Hp & Hx).
      apply elem_of_IDs.
      assert (Hrec : MostRecentArrayReplicationKey x = dArrayReplicationKey D).
      { apply (Hst p x Hp). by rewrite Hx. }
      assert (Hni : Z.of_nat p ∉ Dfin).
      { intros Hin. apply FindImplicitDeletes_elem_of in Hin
          as [Hin|[_ (j & y & Hj & Heq & Hr1 & Hr2)]].
        - cbn in Hin. apply list_elem_of_omap in Hin as (d & Hd & HMd).
          apply Hc0 in HMd as (k & y & Heq & Hk & Hy).
          apply Nat2Z.inj in Heq as <-.
          destruct (Hpre p y Hk) as (y' & Hp' & Hid' & _).
          assert (y' = x) by congruence. subst y'.
          apply (Hdisj d Hd). replace d with c by congruence. done.
        - apply Nat2Z.inj in Heq as <-.
          assert (y = x) by congruence. subst y.
          cbn in Hr2. lia. }
      pose proof (Hto p x Hp Hni) as Hx'.
      apply list_elem_of_lookup in Hx' as [a Ha]. eauto.
    + intros d Hd Hin. apply elem_of_IDs in Hin as (a & x & Ha & Hx).
      destruct (Hfrom x (list_elem_of_lookup_2 _ _ _ Ha)) as (p & Hp & Hni).
      apply Hni. apply FindImplicitDeletes_elem_of. left. cbn.
      apply list_elem_of_omap. exists d. split; [done|].
      assert (Hdc : d ∉ ChangedIDs D) by (by apply Hdisj).
      destruct (decide (length (Items Hr) <= p)%nat) as [Hge|Hlt].
      { exfalso. apply Hdc. rewrite <- Hx. by eapply Hnew. }
      destruct (lookup_lt_is_Some_2 (Items Hr) p ltac:(lia)) as [y Hy].
      destruct (Hpre p y Hy) as (x' & Hp' & Hid' & _).
      assert (x' = x) by congruence. subst x'.
      apply Hc0. exists p, y. split; [done|]. split; [done|congruence].
    + intros Hnack x Hx Himp.
      destruct (Hfrom x Hx) as (p & Hp & Hni).
      apply Hni. apply FindImplicitDeletes_elem_of. right.
      split; [done|]. exists p, x. split; [done|]. split; [done|].
      exact Himp.
Qed.

(** A delta that shows as applied is accepted again; it changes no id, and
    the key of an item goes up once for each time the delta lists its id as
    changed. *)
Lemma ReceiveWords_again H1 (D : Delta) :
  ReceiverOK H1 -> WellFormedDelta D -> Applied D H1 ->
  exists H2,
    ReceiveWords H1 (DeltaWords D) = Some (true, H2)
    /\ IDs (Items H2) = IDs (Items H1)
    /\ (forall (k : nat) Item1,
          Items H1 !! k = Some Item1 ->
          exists Item2,
            Items H2 !! k = Some Item2
            /\ ReplicationKey Item2
               = Nat.iter (Listings (ReplicationID Item1) (ChangedIDs D))
                   incr32 (ReplicationKey Item1)).
Proof.
  intros HOK HWF (Hchg & Hdel & Himp).
  destruct (ReceiveWords_run H1 D HOK HWF)
    as (M1 & Hm & Chg & Add & Hc1 & HCR & HChg & HAdd & Hadd & Hrun).
  cbv zeta in *. specialize (Hadd Hchg). subst Add.
  set (Hr := set_ArraySerializer _ _) in *.
  destruct HCR as ((HP & HS & HC & HA) & Hdm & Hcm & Hpre & Hst & Hnew
                   & Hcov & Hlen).
  specialize (Hlen Hchg). change (Items Hr) with (Items H1) in *.
  (* no explicit delete is found *)
  assert (HE : omap (fun id => M1 !! id) (dDeleted D) = []).
  { apply omap_None_nil. intros d Hd.
    eapply ItemMapConsistent_lookup_None; [exact Hc1|]. by apply Hdel. }
  rewrite HE in Hrun.
  (* no implicit delete is found *)
  assert (HD : Header.DeletedIndices (FindImplicitDeletes Hm (DeltaHeader D []))
               = []).
  { apply no_elements_nil. intros idx Hin.
    apply FindImplicitDeletes_elem_of in Hin
      as [Hin|[Hnack (j & x & Hj & -> & Hr1 & Hr2)]].
    { by apply elem_of_nil in Hin. }
    destruct (lookup_lt_is_Some_2 (Items H1) j) as [y Hy].
    { rewrite <- Hlen. by eapply lookup_lt_Some. }
    destruct (Hpre j y Hy) as (x' & Hj' & Hid & _ & Hsame).
    assert (x' = x) by congruence. subst x'.
    destruct (decide (ReplicationID y ∈ ChangedIDs D)) as [Hin|Hni].
    - assert (MostRecentArrayReplicationKey x = dArrayReplicationKey D).
      { apply (Hst j x Hj). by rewrite Hid. }
      cbn in Hr2. lia.
    - rewrite (Hsame Hni) in *.
      apply (Himp ltac:(by rewrite <- Hnack, HP) y);
        [by eapply list_elem_of_lookup_2|by split]. }
  pose proof (PostReceiveCleanup_spec Hm (DeltaHeader D []) Chg [] HAdd HChg)
    as Hspec.
  cbv zeta in Hspec. rewrite HD in Hspec.
  rewrite Hspec in Hrun. cbn [mbind option_bind] in Hrun.
  eexists. split; [exact Hrun|].
  cbn [Items set_Parms]. rewrite Sort_nil.
  change (reverse []) with (@nil Z). cbn [RemoveAll].
  split.
  - apply list_eq. intros k. unfold IDs. rewrite !list_lookup_fmap.
    destruct (Items H1 !! k) as [y|] eqn:Hy.
    + destruct (Hpre k y Hy) as (x & Hk & Hid & _). rewrite Hk. cbn.
      by rewrite Hid.
    + apply lookup_ge_None in Hy.
      by rewrite (lookup_ge_None_2 (Items Hm) k) by lia.
  - intros k y Hy. destruct (Hpre k y Hy) as (x & Hk & _ & Hkey & _). eauto.
Qed.

(** C3 (amended): a receiver in order that applies a well-formed delta and
    then the same delta again accepts it both times; the second application
    leaves the sequence of ids as it is, and raises the key of a record once
    for each time the delta lists its id as changed (so a record the delta
    does not list keeps its key). *)
Theorem duplicate_delta_keeps_ids H (D : Delta) :
  ReceiverOK H -> WellFormedDelta D ->
  exists H1 H2,
    ReceiveWords H (DeltaWords D) = Some (true, H1)
    /\ ReceiveWords H1 (DeltaWords D) = Some (true, H2)
    /\ ReplicationID <$> Items H2 = ReplicationID <$> Items H1
    /\ (forall (k : nat) Item1,
          Items H1 !! k = Some Item1 ->
          exists Item2,
            Items H2 !! k = Some Item2
            /\ ReplicationKey Item2
               = Nat.iter (Listings (ReplicationID Item1) (ChangedIDs D))
                   incr32 (ReplicationKey Item1)).
Proof.
  intros HOK HWF.
  destruct (ReceiveWords_first H D HOK HWF) as (H1 & Hfirst & HOK1 & HA1 & _).
  destruct (ReceiveWords_again H1 D HOK1 HWF HA1) as (H2 & Hagain & HIDs & Hkeys).
  by exists H1, H2.
Qed.

End ReceiveFacts.

(** C3 (as stated, at an input): an empty collection receives a delta with
    one changed record and receives it again.  The record's key is 0 after
    the first application and 1 after the second. *)
Lemma duplicate_delta_raises_key :
  let H := ExampleHelper [] ∅ 0 (ReadingParms [] false) [] in
  let D := mkDelta 1 0 [] [(7, [42])] in
  exists H1 H2,
    @ReceiveWords ExampleItemType ExampleLimits H (DeltaWords D)
    = Some (true, H1)
    /\ @ReceiveWords ExampleItemType ExampleLimits H1 (DeltaWords D)
       = Some (true, H2)
    /\ Items H1 = [ExampleItem 7 0 1 42]
    /\ Items H2 = [ExampleItem 7 1 1 42].
Proof. cbv zeta. do 2 eexists. split; [by vm_compute|]. by vm_compute. Qed.

(** Why the delta has to keep its deleted and its changed ids apart: a
    delta that lists id 7 as deleted and as changed empties a collection
    holding record 7, and brings the record back when it is received again. *)
Lemma duplicate_delta_with_id_deleted_and_changed :
  let H := ExampleHelper [ExampleItem 7 0 1 40] ∅ 0 (ReadingParms [] false)
             [] in
  let D := mkDelta 2 1 [7] [(7, [41])] in
  exists H1 H2,
    @ReceiveWords ExampleItemType ExampleLimits H (DeltaWords D)
    = Some (true, H1)
    /\ @ReceiveWords ExampleItemType ExampleLimits H1 (DeltaWords D)
       = Some (true, H2)
    /\ Items H1 = []
    /\ Items H2 = [ExampleItem 7 0 2 41].
Proof. cbv zeta. do 2 eexists. split; [by vm_compute|]. by vm_compute. Qed.

(** The decoder of the example item type reads one word. *)
Lemma ExampleItemType_Decodes (w : Z) : @Decodes ExampleItemType [w].
Proof. intros Rest Data. reflexivity. Qed.

(** A collection of three records receives, twice, a delta that deletes
    record 1, changes record 2 and adds record 4. *)
Lemma duplicate_delta_keeps_ids_witness :
  let H := ExampleHelper
             [ExampleItem 1 0 2 10; ExampleItem 2 0 2 20; ExampleItem 3 0 3 30]
             ∅ 0 (ReadingParms [] false) [] in
  let D := mkDelta 5 3 [1] [(2, [21]); (4, [40])] in
  exists H1 H2,
    @ReceiveWords ExampleItemType ExampleLimits H (DeltaWords D)
    = Some (true, H1)
    /\ @ReceiveWords ExampleItemType ExampleLimits H1 (DeltaWords D)
       = Some (true, H2)
    /\ ReplicationID <$> Items H2 = ReplicationID <$> Items H1
    /\ (forall (k : nat) Item1,
          Items H1 !! k = Some Item1 ->
          exists Item2,
            Items H2 !! k = Some Item2
            /\ ReplicationKey Item2
               = Nat.iter (Listings (ReplicationID Item1) (ChangedIDs D))
                   incr32 (ReplicationKey Item1)).
Proof.
  apply (@duplicate_delta_keeps_ids ExampleItemType ExampleLimits).
  - split; [reflexivity|]. split.
    + split; compute_done.
    + left. by vm_compute.
  - split; [by vm_compute|]. split; [by vm_compute|].
    split; [compute_done|].
    split.
    { intros id Hid. apply list_elem_of_singleton in Hid as ->.
      compute_done. }
    split; [compute_done|].
    repeat constructor; apply ExampleItemType_Decodes.
Defined.

(** A walk on the server: of three records, one is as in the old map, one
    has a new key, and one has no id yet; id 3 of the old map is gone. *)
Lemma BuildChangedAndDeletedBuffers_example :
  let H := @mkHelper ExampleItemType
             [ExampleItem 1 0 (-1) 10; ExampleItem 2 1 (-1) 20;
              ExampleItem (-1) (-1) (-1) 30]
             (mkSerializer ∅ 3 7 INDEX_NONE INDEX_NONE)
             (WritingParms (Some 0%nat)) [] [] in
  let Old : gmap Z Z := {[ 1 := 0; 2 := 0; 3 := 0 ]} in
  let '(H', NewMap, Changed, Deleted) :=
    BuildChangedAndDeletedBuffers H ∅ (Some Old) [] [] in
  Items H'
  = [ExampleItem 1 0 (-1) 10; ExampleItem 2 1 (-1) 20; ExampleItem 4 0 (-1) 30]
  /\ Changed = [mkIdxID 1 2; mkIdxID 2 4]
  /\ Deleted = [3]
  /\ NewMap = {[ 1 := 0; 2 := 1; 4 := 0 ]}
  /\ bDeleteCount (BuildChanged H ∅ (Some Old) []).2 = 1.
Proof. by vm_compute. Qed.

(** * Further properties of the code *)

(** ** The array key and the ids handed out *)

Section KeyFacts.
Context `{T : FastArrayItemType}.

Lemma incr32_neq x : in_int32 x -> incr32 x <> x.
Proof.
  unfold incr32, wrap32, in_int32, INT32_MIN, INT32_MAX. intros Hx Heq.
  destruct (Z.eq_dec x 2147483647) as [->|Hne]; [by vm_compute in Heq|].
  rewrite Z.mod_small in Heq by lia. lia.
Qed.

Lemma IncrementArrayReplicationKey_neq Ser :
  ArrayReplicationKey (IncrementArrayReplicationKey Ser)
  <> ArrayReplicationKey Ser.
Proof.
  rewrite IncrementArrayReplicationKey_spec.
  set (k := ArrayReplicationKey Ser).
  destruct (Z.eqb_spec (incr32 k) INDEX_NONE) as [He|Hne].
  - rewrite He. intros Hk. rewrite <- Hk in He. by vm_compute in He.
  - intros Heq.
    assert (Hin : in_int32 k) by (rewrite <- Heq; apply wrap32_range).
    by apply (incr32_neq k).
Qed.

(** Incrementing the array key gives a key in the [int32] range that is
    neither the sentinel nor the key before, and touches nothing else: a
    base state that holds the key before is out of date afterwards. *)
Theorem IncrementArrayReplicationKey_moves_key Ser :
  let Ser' := IncrementArrayReplicationKey Ser in
  in_int32 (ArrayReplicationKey Ser')
  /\ ArrayReplicationKey Ser' <> INDEX_NONE
  /\ ArrayReplicationKey Ser' <> ArrayReplicationKey Ser
  /\ Ser' = set_ArrayReplicationKey (ArrayReplicationKey Ser') Ser.
Proof.
  cbv zeta. split; [|split; [|split]].
  - rewrite IncrementArrayReplicationKey_spec.
    destruct (_ =? _); apply wrap32_range.
  - apply IncrementArrayReplicationKey_not_sentinel.
  - apply IncrementArrayReplicationKey_neq.
  - done.
Qed.

Lemma MarkItemDirty_fresh Ser Item :
  ReplicationID Item = INDEX_NONE ->
  -1 <= IDCounter Ser < INT32_MAX ->
  IDCounter (MarkItemDirty Ser Item).1 = IDCounter Ser + 1
  /\ ReplicationID (MarkItemDirty Ser Item).2 = IDCounter Ser + 1.
Proof.
  intros He Hc. unfold MarkItemDirty. rewrite He. cbn.
  rewrite incr32_small by (unfold INT32_MIN; lia).
  destruct (Z.eqb_spec (IDCounter Ser + 1) INDEX_NONE) as [E|E];
    [unfold INDEX_NONE in E; lia|done].
Qed.

Lemma MarkItemDirty_assigned Ser Item :
  ReplicationID Item <> INDEX_NONE ->
  IDCounter (MarkItemDirty Ser Item).1 = IDCounter Ser
  /\ ReplicationID (MarkItemDirty Ser Item).2 = ReplicationID Item.
Proof.
  intros Hne. unfold MarkItemDirty. apply Z.eqb_neq in Hne.
  by rewrite Hne.
Qed.

Lemma MarkItemDirty_rest Ser Item :
  ItemData (MarkItemDirty Ser Item).2 = ItemData Item
  /\ MostRecentArrayReplicationKey (MarkItemDirty Ser Item).2
     = MostRecentArrayReplicationKey Item.
Proof. unfold MarkItemDirty. by destruct (_ =? _). Qed.

Lemma MarkItemsDirty_spec Its :
  forall Ser,
    -1 <= IDCounter Ser ->
    IDCounter Ser + Z.of_nat (length Its) <= INT32_MAX ->
    (forall id, id ∈ IDs Its -> id <> INDEX_NONE -> id <= IDCounter Ser) ->
    NoDup (filter (fun id => id <> INDEX_NONE) (IDs Its)) ->
    let Ser' := (MarkItemsDirty Ser Its).1 in
    let Its' := (MarkItemsDirty Ser Its).2 in
    IDCounter Ser <= IDCounter Ser'
    /\ IDCounter Ser' <= IDCounter Ser + Z.of_nat (length Its)
    /\ NoDup (IDs Its')
    /\ (forall id, id ∈ IDs Its' ->
          id <> INDEX_NONE /\ id <= IDCounter Ser'
          /\ (id <= IDCounter Ser -> id ∈ IDs Its))
    /\ Forall2 (fun Item Item' =>
                  (ReplicationID Item <> INDEX_NONE ->
                   ReplicationID Item' = ReplicationID Item)
                  /\ ReplicationKey Item' = incr32 (ReplicationKey Item)
                  /\ ItemData Item' = ItemData Item) Its Its'.
Proof.
  induction Its as [|Item Rest IH]; intros Ser Hc Hmax Hle Hnd; cbv zeta.
  - cbn. split; [lia|]. split; [lia|]. split; [constructor|].
    split; [|constructor]. intros id Hin. by apply elem_of_nil in Hin.
  - cbn [MarkItemsDirty].
    destruct (MarkItemDirty Ser Item) as [Ser1 Item1] eqn:Hm.
    destruct (MarkItemsDirty Ser1 Rest) as [Ser2 Rest2] eqn:Hr.
    cbn [fst snd length] in *.
    pose proof (MarkItemDirty_key Ser Item) as Hkey.
    pose proof (MarkItemDirty_rest Ser Item) as [Hdata _].
    rewrite Hm in Hkey, Hdata. cbn [snd] in Hkey, Hdata.
    unfold IDs in Hle, Hnd. rewrite fmap_cons in Hle, Hnd.
    destruct (Z.eq_dec (ReplicationID Item) INDEX_NONE) as [He|Hne].
    + destruct (MarkItemDirty_fresh Ser Item He ltac:(lia)) as [Hc1 Hid1].
      rewrite Hm in Hc1, Hid1. cbn [fst snd] in Hc1, Hid1.
      rewrite filter_cons_False in Hnd by (intros Hx; by apply Hx).
      specialize (IH Ser1 ltac:(lia) ltac:(lia)).
      rewrite Hr in IH. cbn [fst snd] in IH.
      destruct IH as (Hlo & Hhi & Hnd2 & Hids & Hall).
      { intros id Hin Hid. rewrite Hc1.
        specialize (Hle id ltac:(by right) Hid). lia. }
      { done. }
      split; [lia|]. split; [lia|]. split; [|split].
      * unfold IDs. rewrite fmap_cons. constructor; [|done].
        intros Hin. apply Hids in Hin as (Hn & _ & Hold).
        rewrite Hid1 in Hold, Hn.
        specialize (Hold ltac:(lia)).
        specialize (Hle _ ltac:(right; exact Hold) Hn). lia.
      * intros id Hin. unfold IDs in Hin. rewrite fmap_cons in Hin.
        apply elem_of_cons in Hin as [->|Hin].
        -- rewrite Hid1. split; [unfold INDEX_NONE; lia|].
           split; [lia|]. intros; lia.
        -- apply Hids in Hin as (Hn & Hh & Hold).
           split; [done|]. split; [done|]. intros Hc'.
           unfold IDs. rewrite fmap_cons. right. apply Hold. lia.
      * constructor; [|done]. split; [done|]. by split.
    + destruct (MarkItemDirty_assigned Ser Item Hne) as [Hc1 Hid1].
      rewrite Hm in Hc1, Hid1. cbn [fst snd] in Hc1, Hid1.
      rewrite filter_cons_True in Hnd by done.
      apply NoDup_cons in Hnd as [Hnin Hnd].
      specialize (IH Ser1 ltac:(lia) ltac:(lia)).
      rewrite Hr in IH. cbn [fst snd] in IH.
      destruct IH as (Hlo & Hhi & Hnd2 & Hids & Hall).
      { intros id Hin Hid. rewrite Hc1. apply Hle; [by right|done]. }
      { done. }
      split; [lia|]. split; [lia|]. split; [|split].
      * unfold IDs. rewrite fmap_cons. constructor; [|done].
        intros Hin. apply Hids in Hin as (Hn & _ & Hold).
        rewrite Hid1 in Hold.
        apply Hnin. apply list_elem_of_filter. split; [done|].
        apply Hold. rewrite Hc1. apply Hle; [by left|done].
      * intros id Hin. unfold IDs in Hin. rewrite fmap_cons in Hin.
        apply elem_of_cons in Hin as [->|Hin].
        -- rewrite Hid1. split; [done|]. split.
           ++ specialize (Hle _ ltac:(by left) Hne). lia.
           ++ intros _. unfold IDs. rewrite fmap_cons. by left.
        -- apply Hids in Hin as (Hn & Hh & Hold).
           split; [done|]. split; [done|]. intros Hc'.
           unfold IDs. rewrite fmap_cons. right. apply Hold. lia.
      * constructor; [|done]. split; [done|]. by split.
Qed.

(** Marking every item of an array dirty keeps the ids in order: when the
    assigned ids are distinct and not above the counter, and the counter
    cannot reach the end of the [int32] range, every item leaves with an id
    of its own, different from the sentinel and not above the new counter;
    an assigned id is kept, every key goes up by one and no payload
    changes. *)
Theorem MarkItemsDirty_keeps_ids_distinct Ser Its :
  0 <= IDCounter Ser ->
  IDCounter Ser + Z.of_nat (length Its) <= INT32_MAX ->
  (forall id, id ∈ IDs Its -> id <> INDEX_NONE -> id <= IDCounter Ser) ->
  NoDup (filter (fun id => id <> INDEX_NONE) (IDs Its)) ->
  let '(Ser', Its') := MarkItemsDirty Ser Its in
  DistinctIDs Its'
  /\ (forall id, id ∈ IDs Its' -> id <= IDCounter Ser')
  /\ IDCounter Ser <= IDCounter Ser' <= IDCounter Ser + Z.of_nat (length Its)
  /\ Forall2 (fun Item Item' =>
                (ReplicationID Item <> INDEX_NONE ->
                 ReplicationID Item' = ReplicationID Item)
                /\ ReplicationKey Item' = incr32 (ReplicationKey Item)
                /\ ItemData Item' = ItemData Item) Its Its'.
Proof.
  intros Hc Hmax Hle Hnd.
  pose proof (MarkItemsDirty_spec Its Ser ltac:(lia) Hmax Hle Hnd) as Hspec.
  cbv zeta in Hspec. destruct (MarkItemsDirty Ser Its) as [Ser' Its'].
  cbn [fst snd] in Hspec.
  destruct Hspec as (Hlo & Hhi & Hnd' & Hids & Hall).
  split; [|split; [|split; [lia|done]]].
  - split; [done|]. intros Hin. by apply Hids in Hin as [Hn _].
  - intros id Hin. by apply Hids in Hin as (_ & Hh & _).
Qed.

End KeyFacts.

(** Three items, the second already holding id 2, marked dirty on a
    serializer whose counter stands at 2. *)
Lemma MarkItemsDirty_keeps_ids_distinct_witness :
  let Ser := @mkSerializer ∅ 2 0 INDEX_NONE INDEX_NONE in
  let Its := [ExampleItem INDEX_NONE INDEX_NONE INDEX_NONE 10;
              ExampleItem 2 0 INDEX_NONE 20;
              ExampleItem INDEX_NONE INDEX_NONE INDEX_NONE 30] in
  IDs (MarkItemsDirty Ser Its).2 = [3; 2; 4]
  /\ DistinctIDs (MarkItemsDirty Ser Its).2.
Proof.
  cbv zeta. split; [by vm_compute|].
  set (Ser := mkSerializer ∅ 2 0 INDEX_NONE INDEX_NONE).
  set (Its := [ExampleItem INDEX_NONE INDEX_NONE INDEX_NONE 10;
               ExampleItem 2 0 INDEX_NONE 20;
               ExampleItem INDEX_NONE INDEX_NONE INDEX_NONE 30]).
  assert (H0 : 0 <= IDCounter Ser) by (by vm_compute).
  assert (H1 : IDCounter Ser + Z.of_nat (length Its) <= INT32_MAX)
    by (by vm_compute).
  assert (H2 : forall id, id ∈ IDs Its -> id <> INDEX_NONE ->
                          id <= IDCounter Ser).
  { intros id Hin Hne. vm_compute in Hin.
    repeat (apply elem_of_cons in Hin as [->|Hin]);
      [done|by vm_compute|done|by apply elem_of_nil in Hin]. }
  assert (H3 : NoDup (filter (fun id => id <> INDEX_NONE) (IDs Its))).
  { vm_compute. apply NoDup_singleton. }
  pose proof (MarkItemsDirty_keeps_ids_distinct Ser Its H0 H1 H2 H3) as Hthm.
  destruct (MarkItemsDirty Ser Its) as [Ser' Its'].
  exact (proj1 Hthm).
Defined.

(** ** The serialization mode *)

Lemma RunFlagsOps_standard flags ops :
  flags = 1 \/ flags = 3 ->
  Forall (fun p => p = StandardPath) (RunFlagsOps flags ops).1
  /\ (RunFlagsOps flags ops).2 = flags.
Proof.
  revert flags. induction ops as [|[b|s] ops IH]; intros flags Hf.
  - by split.
  - cbn [RunFlagsOps].
    assert (Hs : SetDeltaSerializationEnabled flags b = flags)
      by (destruct Hf as [-> | ->]; by destruct b).
    rewrite Hs. by apply IH.
  - cbn [RunFlagsOps].
    assert (Hs : FastArrayDeltaSerialize_Path flags s = (StandardPath, flags))
      by (destruct Hf as [-> | ->]; by destruct s).
    rewrite Hs. destruct (IH flags Hf) as [Hall Hfl].
    destruct (RunFlagsOps flags ops) as [ps fl]. cbn [fst snd] in *.
    split; [by constructor|done].
Qed.

Lemma RunFlagsOps_structs ops :
  Forall (fun p => p = DeltaSerializeStructsPath) (RunFlagsOps 7 ops).1
  /\ (RunFlagsOps 7 ops).2 = 7.
Proof.
  induction ops as [|[b|s] ops IH].
  - by split.
  - cbn [RunFlagsOps].
    assert (Hs : SetDeltaSerializationEnabled 7 b = 7) by (by destruct b).
    by rewrite Hs.
  - cbn [RunFlagsOps].
    assert (Hs : FastArrayDeltaSerialize_Path 7 s
                 = (DeltaSerializeStructsPath, 7)) by (by destruct s).
    rewrite Hs. destruct IH as [Hall Hfl].
    destruct (RunFlagsOps 7 ops) as [ps fl]. cbn [fst snd] in *.
    split; [by constructor|done].
Qed.

Lemma RunFlagsOps_fresh flags ops :
  flags = 0 \/ flags = 2 ->
  let '(ps, flags') := RunFlagsOps flags ops in
  (ps = [] /\ (flags' = 0 \/ flags' = 2))
  \/ (Forall (fun p => p = StandardPath) ps /\ (flags' = 1 \/ flags' = 3))
  \/ (Forall (fun p => p = DeltaSerializeStructsPath) ps /\ flags' = 7).
Proof.
  revert flags. induction ops as [|[b|s] ops IH]; intros flags Hf.
  - cbn. left. by split.
  - cbn [RunFlagsOps]. apply IH.
    destruct Hf as [-> | ->]; destruct b; vm_compute; auto.
  - cbn [RunFlagsOps].
    destruct (FastArrayDeltaSerialize_Path flags s) as [p fl1] eqn:Hp.
    assert (Hcase : (p = StandardPath /\ (fl1 = 1 \/ fl1 = 3))
                    \/ (p = DeltaSerializeStructsPath /\ fl1 = 7)).
    { destruct Hf as [-> | ->]; destruct s; vm_compute in Hp;
        inversion Hp; auto. }
    destruct Hcase as [[-> Hfl]|[-> ->]].
    + destruct (RunFlagsOps_standard fl1 ops Hfl) as [Hall Hfl'].
      destruct (RunFlagsOps fl1 ops) as [ps fl]. cbn [fst snd] in *.
      right. left. split; [by constructor|]. by subst.
    + destruct (RunFlagsOps_structs ops) as [Hall Hfl'].
      destruct (RunFlagsOps 7 ops) as [ps fl]. cbn [fst snd] in *.
      right. right. split; [by constructor|done].
Qed.

(** A serializer never changes its way of serializing: whatever the calls
    of [SetDeltaSerializationEnabled] and the support the driver announces
    from call to call, all serializing calls on a serializer take the path
    its first serializing call took. *)
Theorem serialization_path_is_fixed_by_first_call (ops : list FlagsOp) :
  exists p, Forall (fun q => q = p) (RunFlagsOps new_DeltaFlags ops).1.
Proof.
  pose proof (RunFlagsOps_fresh new_DeltaFlags ops
                ltac:(right; by vm_compute)) as Hrun.
  destruct (RunFlagsOps new_DeltaFlags ops) as [ps fl]. cbn [fst] in *.
  destruct Hrun as [[-> _]|[[Hall _]|[Hall _]]].
  - exists StandardPath. constructor.
  - by exists StandardPath.
  - by exists DeltaSerializeStructsPath.
Qed.

(** Once a serializer has serialized, [SetDeltaSerializationEnabled] is
    ignored: the flags stay as the first serializing call left them, also
    through later serializing calls. *)
Theorem SetDeltaSerializationEnabled_ignored_after_serializing
    (before after : list FlagsOp) (s : bool) :
  let flags := (RunFlagsOps new_DeltaFlags (before ++ [Op_Serialize s])).2 in
  EnumHasAnyFlags flags HasBeenSerialized = true
  /\ (RunFlagsOps flags after).2 = flags
  /\ forall b, SetDeltaSerializationEnabled flags b = flags.
Proof.
  cbv zeta.
  assert (Hreach : forall flags ops,
            flags = 0 \/ flags = 2 ->
            let fl := (RunFlagsOps flags (ops ++ [Op_Serialize s])).2 in
            fl = 1 \/ fl = 3 \/ fl = 7).
  { intros flags ops. revert flags.
    induction ops as [|[b|s'] ops IH]; intros flags Hf; cbv zeta.
    - destruct Hf as [-> | ->]; destruct s; vm_compute; auto.
    - cbn [app RunFlagsOps]. apply IH.
      destruct Hf as [-> | ->]; destruct b; vm_compute; auto.
    - cbn [app RunFlagsOps].
      destruct (FastArrayDeltaSerialize_Path flags s') as [p fl1] eqn:Hp.
      assert (Hcase : fl1 = 1 \/ fl1 = 3 \/ fl1 = 7).
      { destruct Hf as [-> | ->]; destruct s'; vm_compute in Hp;
          inversion Hp; auto. }
      destruct (RunFlagsOps fl1 (ops ++ [Op_Serialize s])) as [ps fl] eqn:Hr.
      cbn [snd].
      assert (Hfl : fl = fl1).
      { destruct Hcase as [->|[->| ->]].
        - pose proof (RunFlagsOps_standard 1 (ops ++ [Op_Serialize s])
                        ltac:(auto)) as [_ Hx]. by rewrite Hr in Hx.
        - pose proof (RunFlagsOps_standard 3 (ops ++ [Op_Serialize s])
                        ltac:(auto)) as [_ Hx]. by rewrite Hr in Hx.
        - pose proof (RunFlagsOps_structs (ops ++ [Op_Serialize s]))
            as [_ Hx]. by rewrite Hr in Hx. }
      by rewrite Hfl. }
  specialize (Hreach new_DeltaFlags before ltac:(right; by vm_compute)).
  cbv zeta in Hreach.
  set (flags := (RunFlagsOps new_DeltaFlags (before ++ [Op_Serialize s])).2)
    in *.
  clearbody flags.
  destruct Hreach as [->|[->| ->]].
  - split; [by vm_compute|]. split; [|by intros []].
    by apply RunFlagsOps_standard; auto.
  - split; [by vm_compute|]. split; [|by intros []].
    by apply RunFlagsOps_standard; auto.
  - split; [by vm_compute|]. split; [|by intros []].
    by apply RunFlagsOps_structs.
Qed.

(** ** Optional values *)

Lemma SerializeBits_saving W v n :
  SerializeBits (mkArchive true false W false) v n
  = (v, mkArchive true false (W ++ ZToBits (Z.to_nat n) v) false).
Proof. done. Qed.

Lemma SerializeBits_loading (n : nat) v v0 rest :
  0 <= v < 2 ^ Z.of_nat n -> v <= INT32_MAX ->
  SerializeBits (LoadingArchive (ZToBits n v ++ rest)) v0 (Z.of_nat n)
  = (v, LoadingArchive rest).
Proof.
  intros Hv Hmax. unfold SerializeBits, LoadingArchive.
  cbn [ArIsSaving ArIsLoading ArError Bits orb]. rewrite Nat2Z.id.
  assert (Hlen : (length (ZToBits n v ++ rest) <? n)%nat = false).
  { apply Nat.ltb_ge. rewrite length_app, ZToBits_length. lia. }
  rewrite Hlen.
  rewrite take_app_length' by (by rewrite ZToBits_length).
  rewrite drop_app_length' by (by rewrite ZToBits_length).
  rewrite BitsToZ_ZToBits by done.
  rewrite wrap32_id; [done|].
  unfold in_int32, INT32_MIN, INT32_MAX in *. lia.
Qed.


Lemma SerializeByte_Encodes v :
  0 <= v < 256 -> Encodes SerializeByte v (ZToBits 8 v).
Proof.
  intros Hv. split.
  - intros W. apply SerializeBits_saving.
  - intros v0 rest. unfold SerializeByte.
    apply (SerializeBits_loading 8); [done|unfold INT32_MAX; lia].
Qed.

Lemma NetSerializeByte_NetEncodes v :
  0 <= v < 256 -> NetEncodes NetSerializeByte v (ZToBits 8 v).
Proof. intros Hv ok. by apply SerializeByte_Encodes. Qed.

Section OptionalValueFacts.
Context {ValueType : Type} `{EqDecision ValueType}.



End OptionalValueFacts.



(** ** Bounded arrays *)

Section SafeNetSerializeTArrayElementFacts.
Context {A : Type} (DefaultElement : A).

Lemma At_middle (pre post : list A) x :
  At (pre ++ x :: post) (Z.of_nat (length pre)) = Some x.
Proof.
  unfold At, IsValidIndex, Num. rewrite length_app. cbn [length].
  destruct (Z.leb_spec 0 (Z.of_nat (length pre))); [|lia].
  destruct (Z.ltb_spec (Z.of_nat (length pre))
              (Z.of_nat (length pre + S (length post)))); [|lia].
  cbn. rewrite Nat2Z.id. by apply list_lookup_middle.
Qed.

Lemma SetAt_middle (pre post : list A) x y :
  SetAt (pre ++ x :: post) (Z.of_nat (length pre)) y = pre ++ y :: post.
Proof.
  unfold SetAt. rewrite Nat2Z.id.
  rewrite insert_app_r_alt by lia. by rewrite Nat.sub_diag.
Qed.

(** Saving a run of elements appends their encodings. *)
Lemma SafeNetSerializeTArray_Default_loop_saving
    (Serialize : FArchive -> A -> A * FArchive) (xs : list A) encs :
  Forall2 (Encodes Serialize) xs encs ->
  forall pre post W,
    SafeNetSerializeTArray_Default_loop Serialize (length xs)
      (Z.of_nat (length pre)) (mkArchive true false W false)
      (pre ++ xs ++ post)
    = Some (mkArchive true false (W ++ concat encs) false,
            pre ++ xs ++ post).
Proof.
  induction 1 as [|x enc xs encs [Hsave _] Hall IH]; intros pre post W.
  - cbn. by rewrite (app_nil_r W).
  - cbn [length SafeNetSerializeTArray_Default_loop ArError app].
    rewrite At_middle. cbn [mbind option_bind]. rewrite Hsave.
    rewrite SetAt_middle.
    specialize (IH (pre ++ [x]) post (W ++ enc)).
    rewrite length_app in IH. cbn [length] in IH.
    replace (Z.of_nat (length pre + 1)) with (Z.of_nat (length pre) + 1)
      in IH by lia.
    rewrite <- app_assoc in IH. cbn [app] in IH. rewrite IH.
    cbn [concat]. by rewrite <- !app_assoc.
Qed.

(** Loading a run of elements reads them off the stream, over whatever the
    array holds. *)
Lemma SafeNetSerializeTArray_Default_loop_loading
    (Serialize : FArchive -> A -> A * FArchive) (xs : list A) encs :
  Forall2 (Encodes Serialize) xs encs ->
  forall pre olds post rest,
    length olds = length xs ->
    SafeNetSerializeTArray_Default_loop Serialize (length xs)
      (Z.of_nat (length pre)) (LoadingArchive (concat encs ++ rest))
      (pre ++ olds ++ post)
    = Some (LoadingArchive rest, pre ++ xs ++ post).
Proof.
  induction 1 as [|x enc xs encs [_ Hload] Hall IH];
    intros pre olds post rest Hlen.
  - destruct olds; [|done]. done.
  - destruct olds as [|o olds]; [done|]. cbn [length] in Hlen.
    cbn [length SafeNetSerializeTArray_Default_loop ArError app
           LoadingArchive].
    change (mkArchive false true ?b false) with (LoadingArchive b).
    cbn [ArError LoadingArchive].
    rewrite At_middle. cbn [mbind option_bind].
    cbn [concat]. rewrite <- app_assoc. rewrite Hload.
    rewrite SetAt_middle.
    specialize (IH (pre ++ [x]) olds post rest ltac:(lia)).
    rewrite length_app in IH. cbn [length] in IH.
    replace (Z.of_nat (length pre + 1)) with (Z.of_nat (length pre) + 1)
      in IH by lia.
    rewrite <- app_assoc in IH. cbn [app] in IH. rewrite IH.
    by rewrite <- !app_assoc.
Qed.

Lemma Forall2_take_l {B C} (P : B -> C -> Prop) l k n :
  Forall2 P l k -> Forall2 P (take n l) (take n k).
Proof. intros HF. by apply Forall2_take. Qed.

(** An array comes back from the wire cut at the maximum: saving writes the
    count field and the encodings of the first [MaxNum] elements, and
    succeeds exactly when the array is no longer than that; loading these
    bits succeeds and yields those elements, whatever array it is given to
    fill, and reads nothing of what follows. *)
Theorem SafeNetSerializeTArray_Default_round_trip Serialize (MaxNum : Z)
    (Array Array0 : list A) (encs : list (list bool)) (rest : list bool) :
  0 <= MaxNum <= INT32_MAX ->
  Forall2 (Encodes Serialize) Array encs ->
  let wire := CountField MaxNum Array
              ++ concat (take (Z.to_nat MaxNum) encs) in
  SafeNetSerializeTArray_Default DefaultElement Serialize MaxNum
    SavingArchive Array
  = Some (bool_decide (Num Array <= MaxNum),
          mkArchive true false wire false, Array)
  /\ SafeNetSerializeTArray_Default DefaultElement Serialize MaxNum
       (LoadingArchive (wire ++ rest)) Array0
     = Some (true, LoadingArchive rest, take (Z.to_nat MaxNum) Array).
Proof.
  intros [H0 Hmax] Henc. cbv zeta.
  pose proof (MaxNum_fits MaxNum H0) as Hfit.
  pose proof (Z.log2_up_nonneg MaxNum) as Hnn.
  set (n := Z.to_nat (Z.min (Num Array) MaxNum)).
  assert (Hn : Z.of_nat n = Z.min (Num Array) MaxNum)
    by (unfold n, Num; lia).
  assert (Htake : take (Z.to_nat MaxNum) Array = take n Array).
  { unfold n, Num. destruct (Z.le_ge_cases (Z.of_nat (length Array)) MaxNum).
    - rewrite Z.min_l by lia. rewrite Nat2Z.id.
      by rewrite !take_ge by lia.
    - by rewrite Z.min_r by lia. }
  assert (Htake' : take (Z.to_nat MaxNum) encs = take n encs).
  { pose proof (Forall2_length _ _ _ Henc) as Hl.
    unfold n, Num. destruct (Z.le_ge_cases (Z.of_nat (length Array)) MaxNum).
    - rewrite Z.min_l by lia. rewrite Nat2Z.id.
      by rewrite !take_ge by lia.
    - by rewrite Z.min_r by lia. }
  assert (Hlen : length (take n Array) = n).
  { rewrite length_take. unfold n, Num. lia. }
  pose proof (Forall2_take_l _ _ _ n Henc) as Henc'.
  split.
  - unfold SafeNetSerializeTArray_Default, SavingArchive.
    rewrite SafeNetSerializeTArray_HeaderOnly_saving.
    cbn [app mbind option_bind]. fold n.
    pose proof (SafeNetSerializeTArray_Default_loop_saving Serialize
                  _ _ Henc' [] (drop n Array)) as Hloop.
    cbn [app length] in Hloop. change (Z.of_nat 0) with 0 in Hloop.
    rewrite take_drop, Hlen in Hloop.
    rewrite Hloop. cbn [mbind option_bind ArError negb andb].
    rewrite Htake'. unfold CountField. rewrite andb_true_r.
    destruct (Z.ltb_spec MaxNum (Num Array)).
    + by rewrite bool_decide_eq_false_2 by lia.
    + by rewrite bool_decide_eq_true_2 by lia.
  - unfold SafeNetSerializeTArray_Default.
    rewrite SafeNetSerializeTArray_HeaderOnly_loading. cbv beta iota zeta.
    unfold CountField. rewrite <- app_assoc.
    pose proof (SerializeBits_loading (Z.to_nat (CeilLogTwo MaxNum + 1))
                  (Z.min (Num Array) MaxNum) 0
                  (concat (take (Z.to_nat MaxNum) encs) ++ rest)) as Hraw.
    rewrite Z2Nat.id in Hraw by (unfold CeilLogTwo; lia).
    rewrite Hraw by (unfold Num; lia). clear Hraw.
    cbn [fst snd]. rewrite (Z.min_l (Z.min (Num Array) MaxNum) MaxNum) by lia.
    rewrite <- Hn. rewrite ResetAddDefaulted_nonneg by lia.
    cbn [mbind option_bind]. rewrite !Nat2Z.id.
    rewrite Htake, Htake'.
    pose proof (SafeNetSerializeTArray_Default_loop_loading Serialize
                  _ _ Henc' [] (replicate n DefaultElement) [] rest) as Hloop.
    cbn [app length] in Hloop. change (Z.of_nat 0) with 0 in Hloop.
    rewrite !app_nil_r, Hlen in Hloop.
    rewrite Hloop by (by rewrite length_replicate).
    cbn [mbind option_bind].
    destruct (Z.ltb_spec MaxNum (Z.of_nat n)); [lia|]. done.
Qed.

(** The loops keep the length of the array and never read outside it. *)
Lemma SafeNetSerializeTArray_Default_loop_total Serialize n :
  forall idx Ar (Array : list A),
    0 <= idx -> idx + Z.of_nat n <= Num Array ->
    exists Ar' Array',
      SafeNetSerializeTArray_Default_loop Serialize n idx Ar Array
      = Some (Ar', Array')
      /\ length Array' = length Array.
Proof.
  induction n as [|n IH]; intros idx Ar Array H0 Hle;
    cbn [SafeNetSerializeTArray_Default_loop]; [by eauto|].
  destruct (ArError Ar); [by eauto|].
  destruct (At_is_Some Array idx) as [x ->].
  { apply IsValidIndex_spec. unfold Num in *. lia. }
  cbn [mbind option_bind]. destruct (Serialize Ar x) as [x' Ar1].
  destruct (IH (idx + 1) Ar1 (SetAt Array idx x') ltac:(lia))
    as (Ar' & Array' & -> & Hlen).
  { unfold SetAt, Num in *. rewrite length_insert. lia. }
  exists Ar', Array'. split; [done|].
  rewrite Hlen. unfold SetAt. by rewrite length_insert.
Qed.

Lemma SafeNetSerializeTArray_WithNetSerialize_loop_total NetSerialize n :
  forall idx Ar (Array : list A) ok,
    0 <= idx -> idx + Z.of_nat n <= Num Array ->
    exists Ar' Array' ok',
      SafeNetSerializeTArray_WithNetSerialize_loop NetSerialize n idx Ar
        Array ok
      = Some (Ar', Array', ok')
      /\ length Array' = length Array.
Proof.
  induction n as [|n IH]; intros idx Ar Array ok H0 Hle;
    cbn [SafeNetSerializeTArray_WithNetSerialize_loop]; [by eauto|].
  destruct (ArError Ar); [by eauto|].
  destruct (At_is_Some Array idx) as [x ->].
  { apply IsValidIndex_spec. unfold Num in *. lia. }
  cbn [mbind option_bind].
  destruct (NetSerialize Ar x ok) as [[x' Ar1] ok1].
  destruct (IH (idx + 1) Ar1 (SetAt Array idx x') ok1 ltac:(lia))
    as (Ar' & Array' & ok' & -> & Hlen).
  { unfold SetAt, Num in *. rewrite length_insert. lia. }
  exists Ar', Array', ok'. split; [done|].
  rewrite Hlen. unfold SetAt. by rewrite length_insert.
Qed.

(** Loading never allocates more than the maximum: for a maximum of at
    most 2^30 (a count field of at most 31 bits), whatever the bits on the
    wire, the element serializer and the array handed in, both array
    serializers return, and the array they leave has at most [MaxNum]
    elements. *)
Theorem SafeNetSerializeTArray_loading_bounded (MaxNum : Z) (bs : list bool)
    (Array0 : list A) Serialize NetSerialize :
  0 <= MaxNum <= 2 ^ 30 ->
  (exists ok Ar' Array',
     SafeNetSerializeTArray_Default DefaultElement Serialize MaxNum
       (LoadingArchive bs) Array0 = Some (ok, Ar', Array')
     /\ Num Array' <= MaxNum)
  /\ (exists ok Ar' Array',
        SafeNetSerializeTArray_WithNetSerialize DefaultElement NetSerialize
          MaxNum (LoadingArchive bs) Array0 = Some (ok, Ar', Array')
        /\ Num Array' <= MaxNum).
Proof.
  intros Hmax.
  unfold SafeNetSerializeTArray_Default,
    SafeNetSerializeTArray_WithNetSerialize.
  rewrite SafeNetSerializeTArray_HeaderOnly_loading_small by done.
  cbv beta iota zeta.
  pose proof (CeilLogTwo_small MaxNum Hmax) as Hlog.
  pose proof (SerializeBits_loading_nonneg bs 0 (CeilLogTwo MaxNum + 1)
                ltac:(lia)) as Hnn.
  set (Raw := SerializeBits (LoadingArchive bs) 0 (CeilLogTwo MaxNum + 1))
    in *.
  set (n := Z.min Raw.1 MaxNum).
  assert (HNum : Num (replicate (Z.to_nat n) DefaultElement) = n).
  { unfold Num. rewrite length_replicate. lia. }
  cbn [mbind option_bind]. split.
  - destruct (SafeNetSerializeTArray_Default_loop_total Serialize
                (Z.to_nat n) 0 Raw.2 (replicate (Z.to_nat n) DefaultElement)
                ltac:(lia) ltac:(lia)) as (Ar' & Array' & -> & Hlen).
    cbn [mbind option_bind]. do 3 eexists. split; [done|].
    unfold Num in *. rewrite Hlen. lia.
  - destruct (SafeNetSerializeTArray_WithNetSerialize_loop_total NetSerialize
                (Z.to_nat n) 0 Raw.2 (replicate (Z.to_nat n) DefaultElement)
                (if MaxNum <? Raw.1 then false else true)
                ltac:(lia) ltac:(lia)) as (Ar' & Array' & ok' & -> & Hlen).
    cbn [mbind option_bind]. do 3 eexists. split; [done|].
    unfold Num in *. rewrite Hlen. lia.
Qed.

(** Saving a run of elements with [NetSerialize]: the flag that comes out is
    the one the last element left. *)
Lemma SafeNetSerializeTArray_WithNetSerialize_loop_saving
    (NetSerialize : FArchive -> A -> bool -> A * FArchive * bool)
    (xs : list A) encs :
  Forall2 (NetEncodes NetSerialize) xs encs ->
  forall pre post W ok,
    exists ok',
      SafeNetSerializeTArray_WithNetSerialize_loop NetSerialize (length xs)
        (Z.of_nat (length pre)) (mkArchive true false W false)
        (pre ++ xs ++ post) ok
      = Some (mkArchive true false (W ++ concat encs) false,
              pre ++ xs ++ post, ok')
      /\ (xs = [] -> ok' = ok)
      /\ forall x, last xs = Some x ->
           (forall Ar ok0, (NetSerialize Ar x ok0).2 = true) -> ok' = true.
Proof.
  intros Hall.
  induction Hall as [|x enc xs encs Henc Hall IH]; intros pre post W ok.
  - exists ok. cbn. by rewrite (app_nil_r W).
  - cbn [length SafeNetSerializeTArray_WithNetSerialize_loop ArError app].
    rewrite At_middle. cbn [mbind option_bind].
    destruct (Henc ok) as [Hsave _]. specialize (Hsave W).
    cbn beta in Hsave.
    destruct (NetSerialize (mkArchive true false W false) x ok)
      as [[x' Ar1] ok1] eqn:HN.
    cbn [fst] in Hsave. inversion Hsave; subst x' Ar1.
    rewrite SetAt_middle.
    destruct (IH (pre ++ [x]) post (W ++ enc) ok1) as (ok' & Heq & Hnil & Hlast).
    rewrite length_app in Heq. cbn [length] in Heq.
    replace (Z.of_nat (length pre + 1)) with (Z.of_nat (length pre) + 1)
      in Heq by lia.
    rewrite <- app_assoc in Heq. cbn [app] in Heq. rewrite Heq.
    exists ok'. cbn [concat]. rewrite <- !app_assoc.
    split; [done|]. split; [done|].
    intros y Hy Hset. rewrite last_cons in Hy.
    destruct (last xs) as [z|] eqn:Hz.
    + apply (Hlast y); [congruence|done].
    + apply last_None in Hz. rewrite (Hnil Hz).
      assert (y = x) by congruence. subst y.
      specialize (Hset (mkArchive true false W false) ok).
      by rewrite HN in Hset.
Qed.

(** [SafeNetSerializeTArray_WithNetSerialize] hands [bOutSuccess] to the
    [NetSerialize] of each element, so the flag it returns is the one the
    last element written left.  When that element's [NetSerialize] sets the
    flag to true whatever it was (the quantized vectors of this header
    assign the result of their serialization to it), saving an array longer
    than a maximum of at least one writes only the first [MaxNum] elements
    and still returns true. *)
Theorem SafeNetSerializeTArray_WithNetSerialize_overflow_flag NetSerialize
    (MaxNum : Z) (Array : list A) (encs : list (list bool)) (x : A) :
  1 <= MaxNum <= INT32_MAX ->
  MaxNum < Num Array ->
  Forall2 (NetEncodes NetSerialize) Array encs ->
  At Array (MaxNum - 1) = Some x ->
  (forall Ar ok, (NetSerialize Ar x ok).2 = true) ->
  SafeNetSerializeTArray_WithNetSerialize DefaultElement NetSerialize MaxNum
    SavingArchive Array
  = Some (true,
          mkArchive true false
            (CountField MaxNum Array ++ concat (take (Z.to_nat MaxNum) encs))
            false,
          Array).
Proof.
  intros [H1 Hmax] Hlong Henc Hx Hset.
  unfold SafeNetSerializeTArray_WithNetSerialize, SavingArchive.
  rewrite SafeNetSerializeTArray_HeaderOnly_saving.
  cbn [app mbind option_bind]. rewrite Z.min_r by lia.
  set (n := Z.to_nat MaxNum).
  assert (Hlen : length (take n Array) = n).
  { rewrite length_take. unfold n, Num in *. lia. }
  pose proof (Forall2_take_l _ _ _ n Henc) as Henc'.
  pose proof (SafeNetSerializeTArray_WithNetSerialize_loop_saving
                NetSerialize _ _ Henc' [] (drop n Array)) as Hrun.
  cbn [app length] in Hrun. change (Z.of_nat 0) with 0 in Hrun.
  rewrite take_drop, Hlen in Hrun. fold n.
  edestruct Hrun as (ok' & Hloop & _ & Hlast).
  rewrite Hloop. cbn [mbind option_bind ArError negb andb].
  unfold CountField. rewrite Z.min_r by lia.
  rewrite (Hlast x); [by rewrite andb_true_r| |done].
  apply At_Some in Hx as [_ Hx].
  rewrite last_lookup, Hlen, lookup_take_lt by lia.
  replace (Init.Nat.pred n) with (Z.to_nat (MaxNum - 1)) by lia. done.
Qed.

End SafeNetSerializeTArrayElementFacts.

(** Three bytes through a codec that allows two. *)
Lemma SafeNetSerializeTArray_Default_round_trip_witness :
  let wire := ZToBits 2 2 ++ ZToBits 8 5 ++ ZToBits 8 6 in
  SafeNetSerializeTArray_Default 0 SerializeByte 2 SavingArchive [5; 6; 7]
  = Some (false, mkArchive true false wire false, [5; 6; 7])
  /\ SafeNetSerializeTArray_Default 0 SerializeByte 2
       (LoadingArchive (wire ++ [true])) [9]
     = Some (true, LoadingArchive [true], [5; 6]).
Proof.
  assert (Hrange : 0 <= 2 <= INT32_MAX) by (unfold INT32_MAX; lia).
  assert (Henc : Forall2 (Encodes SerializeByte) [5; 6; 7]
                   [ZToBits 8 5; ZToBits 8 6; ZToBits 8 7]).
  { repeat constructor; apply SerializeByte_Encodes; lia. }
  pose proof (SafeNetSerializeTArray_Default_round_trip 0 SerializeByte 2
                [5; 6; 7] [9] _ [true] Hrange Henc) as Hthm.
  vm_compute in Hthm |- *. exact Hthm.
Defined.

Lemma SafeNetSerializeTArray_loading_bounded_witness :
  exists ok Ar' Array',
    SafeNetSerializeTArray_Default 0 SerializeByte 2
      (LoadingArchive [true; true; true; true]) [9] = Some (ok, Ar', Array')
    /\ Num Array' <= 2.
Proof.
  exact (proj1 (SafeNetSerializeTArray_loading_bounded 0 2
                  [true; true; true; true] [9] SerializeByte NetSerializeByte
                  ltac:(lia))).
Defined.

Lemma SafeNetSerializeTArray_WithNetSerialize_overflow_flag_witness :
  SafeNetSerializeTArray_WithNetSerialize 0 NetSerializeByte 2 SavingArchive
    [5; 6; 7]
  = Some (true,
          mkArchive true false (ZToBits 2 2 ++ ZToBits 8 5 ++ ZToBits 8 6)
            false,
          [5; 6; 7]).
Proof.
  assert (Hrange : 1 <= 2 <= INT32_MAX) by (unfold INT32_MAX; lia).
  assert (Hlong : 2 < Num [5; 6; 7]) by (by vm_compute).
  assert (Henc : Forall2 (NetEncodes NetSerializeByte) [5; 6; 7]
                   [ZToBits 8 5; ZToBits 8 6; ZToBits 8 7]).
  { repeat constructor; apply NetSerializeByte_NetEncodes; lia. }
  pose proof (SafeNetSerializeTArray_WithNetSerialize_overflow_flag 0
                NetSerializeByte 2 [5; 6; 7] _ 6 Hrange Hlong Henc eq_refl
                (fun _ _ => eq_refl)) as Hthm.
  vm_compute in Hthm |- *. exact Hthm.
Defined.

(** ** Rebuilding the id index *)

Section RebuildFacts.
Context `{T : FastArrayItemType} `{L : FastArrayLimits}.
Implicit Types H : TFastArraySerializeHelper.

(** The loop of [ConditionalRebuildItemMap].  An id is indexed when it is
    not the sentinel, or when there is a writer; it is then mapped to the
    position of the last item that holds it. *)
Lemma RebuildItemMap_loop_lookup (bWriter : bool) Rest :
  forall i M id idx,
    RebuildItemMap_loop bWriter i Rest M !! id = Some idx
    <-> ((id <> INDEX_NONE \/ bWriter = true)
         /\ exists k : nat, idx = i + Z.of_nat k /\ LastWithID Rest id k)
        \/ (M !! id = Some idx
            /\ (~ (id <> INDEX_NONE \/ bWriter = true)
                \/ forall (k : nat) Item,
                     Rest !! k = Some Item -> ReplicationID Item <> id)).
Proof.
  set (P := fun id : Z => id <> INDEX_NONE \/ bWriter = true).
  assert (HP : forall id, Decision (P id)).
  { intros id. unfold P. apply _. }
  change (forall i M id idx,
    RebuildItemMap_loop bWriter i Rest M !! id = Some idx
    <-> (P id
         /\ exists k : nat, idx = i + Z.of_nat k /\ LastWithID Rest id k)
        \/ (M !! id = Some idx
            /\ (~ P id
                \/ forall (k : nat) Item,
                     Rest !! k = Some Item -> ReplicationID Item <> id))).
  induction Rest as [|Item Rest IH]; intros i M id idx;
    cbn [RebuildItemMap_loop].
  - split.
    + intros HM. right. split; [done|]. right. intros k It Hk.
      by rewrite lookup_nil in Hk.
    + intros [(_ & k & _ & (It & Hk & _) & _)|[HM _]]; [|done].
      by rewrite lookup_nil in Hk.
  - assert (Hshift :
      (P id
       /\ exists k : nat, idx = i + 1 + Z.of_nat k /\ LastWithID Rest id k)
      <-> (P id
           /\ exists k : nat, idx = i + Z.of_nat (S k)
                              /\ LastWithID (Item :: Rest) id (S k))).
    { split; intros (Hne & k & -> & (It & Hk & Hid) & Hlast);
        (split; [done|]); exists k; (split; [lia|]);
        (split; [by exists It|]).
      - intros [|k'] It' Hlt Hk'; [lia|]. cbn in Hk'.
        apply (Hlast k' It'); [lia|done].
      - intros k' It' Hlt Hk'. apply (Hlast (S k') It'); [lia|done]. }
    destruct ((ReplicationID Item =? INDEX_NONE) && negb bWriter) eqn:Hskip.
    + assert (He : ~ P (ReplicationID Item)).
      { apply andb_true_iff in Hskip as [He Hw]. apply Z.eqb_eq in He.
        apply negb_true_iff in Hw. unfold P. intros [?|?]; congruence. }
      rewrite IH, Hshift. clear IH Hshift. split.
      * intros [(Hn & k & -> & Hl)|[HM Hno]].
        -- left. split; [done|]. by exists (S k).
        -- right. split; [done|].
           destruct (decide (P id)) as [Hid|Hid]; [right|by left].
           intros [|k] It Hk; cbn in Hk.
           ++ inversion Hk; subst It. intros Heq. apply He. by rewrite Heq.
           ++ destruct Hno as [?|Hno]; [done|]. by apply (Hno k).
      * intros [(Hn & [|k] & -> & Hl)|[HM Hno]].
        -- destruct Hl as [(It & Hk & Hid) _]. cbn in Hk.
           inversion Hk; subst It. exfalso. apply He. by rewrite Hid.
        -- left. split; [done|]. by exists k.
        -- right. split; [done|].
           destruct Hno as [?|Hno]; [by left|right].
           intros k It Hk. by apply (Hno (S k)).
    + assert (Hne : P (ReplicationID Item)).
      { apply andb_false_iff in Hskip as [He|Hw].
        - apply Z.eqb_neq in He. by left.
        - apply negb_false_iff in Hw. by right. }
      rewrite IH, Hshift. clear IH Hshift. split.
      * intros [(Hn & k & -> & Hl)|[HM Hno]].
        -- left. split; [done|]. by exists (S k).
        -- destruct (decide (id = ReplicationID Item)) as [->|Hid].
           ++ rewrite lookup_insert_eq in HM. inversion HM; subst idx.
              destruct Hno as [?|Hno]; [done|].
              left. split; [done|]. exists 0%nat. split; [lia|].
              split; [by exists Item|].
              intros [|k'] It' Hlt Hk'; [lia|]. cbn in Hk'.
              by apply (Hno k').
           ++ rewrite lookup_insert_ne in HM by done.
              right. split; [done|].
              destruct Hno as [?|Hno]; [by left|right].
              intros [|k] It Hk; cbn in Hk.
              ** inversion Hk; subst It. congruence.
              ** by apply (Hno k).
      * intros [(Hn & [|k] & -> & Hl)|[HM Hno]].
        -- destruct Hl as [(It & Hk & Hid) Hlast]. cbn in Hk.
           inversion Hk; subst It. subst id. right.
           rewrite lookup_insert_eq. split; [f_equal; lia|]. right.
           intros k It Hk'. apply (Hlast (S k) It); [lia|done].
        -- left. split; [done|]. by exists k.
        -- right.
           assert (Hid : ReplicationID Item <> id).
           { destruct Hno as [Hno|Hno]; [|by apply (Hno 0%nat)].
             intros Heq. apply Hno. by rewrite <- Heq. }
           rewrite lookup_insert_ne by done. split; [done|].
           destruct Hno as [?|Hno]; [by left|right].
           intros k It Hk. by apply (Hno (S k)).
Qed.

(** [ConditionalRebuildItemMap] touches nothing but the id index.  Without
    [bUpdateUnmappedObjects] and with a writer, or with an index that has as
    many entries as there are items, it does nothing at all.  Otherwise
    (with [bUpdateUnmappedObjects] or without a writer, and an index of
    another size) the index it builds holds exactly the ids of the items,
    the sentinel among them only when there is a writer, each with the
    position of the last item that holds it. *)
Theorem ConditionalRebuildItemMap_rebuilds (bUpdateUnmappedObjects : bool) H :
  let H' := ConditionalRebuildItemMap bUpdateUnmappedObjects H in
  H' = set_ArraySerializer
         (set_ItemMap (ItemMap (ArraySerializer H')) (ArraySerializer H)) H
  /\ ((bUpdateUnmappedObjects = false /\ is_Some (Writer (Parms H)))
      \/ Z.of_nat (size (ItemMap (ArraySerializer H))) = Num (Items H) ->
      H' = H)
  /\ (bUpdateUnmappedObjects = true \/ Writer (Parms H) = None ->
      Z.of_nat (size (ItemMap (ArraySerializer H))) <> Num (Items H) ->
      forall id idx,
        ItemMap (ArraySerializer H') !! id = Some idx
        <-> (id <> INDEX_NONE \/ is_Some (Writer (Parms H)))
            /\ exists k : nat, idx = Z.of_nat k /\ LastWithID (Items H) id k).
Proof.
  cbv zeta. unfold ConditionalRebuildItemMap.
  set (bWriter := bool_decide (is_Some (Writer (Parms H)))).
  assert (HbW : bWriter = true <-> is_Some (Writer (Parms H)))
    by apply bool_decide_eq_true.
  destruct (Z.eqb_spec (Z.of_nat (size (ItemMap (ArraySerializer H))))
              (Num (Items H))) as [Heq|Hne]; cbn [negb].
  { rewrite andb_false_r.
    split; [by destruct H as [? [] ? ? ?]|]. split; [done|]. done. }
  rewrite andb_true_r.
  destruct (bUpdateUnmappedObjects || negb bWriter) eqn:Hgo.
  - split; [done|]. split.
    + intros [[-> HW]|?]; [|done]. apply HbW in HW. by rewrite HW in Hgo.
    + intros _ _ id idx.
      cbn [ArraySerializer set_ArraySerializer ItemMap set_ItemMap].
      rewrite RebuildItemMap_loop_lookup, HbW. split.
      * intros [(Hn & k & -> & Hl)|[HM _]].
        -- split; [done|]. exists k. split; [lia|done].
        -- by rewrite lookup_empty in HM.
      * intros (Hn & k & -> & Hl). left. split; [done|].
        exists k. split; [lia|done].
  - apply orb_false_iff in Hgo as [-> Hw]. apply negb_false_iff in Hw.
    split; [by destruct H as [? [] ? ? ?]|]. split; [done|].
    intros [?|HW]; [done|]. apply HbW in Hw. rewrite HW in Hw.
    by destruct Hw.
Qed.

End RebuildFacts.

(** ** The header on the wire *)

Section HeaderRoundTrip.
Context `{T : FastArrayItemType} `{L : FastArrayLimits}.
Implicit Types H : TFastArraySerializeHelper.

(** A header within the maxima comes back from the wire: the reader gets
    the two keys and the count of changes as they were written, finds the
    deleted ids translated into the positions its own id index gives them
    (ids it does not know are dropped), reports no error and stops at the
    first word after the header. *)
Theorem ReadDeltaHeader_reads_what_WriteDeltaHeader_wrote H
    (Hdr : FFastArraySerializerHeader) (Rest : list Z) :
  Num (Header.DeletedIndices Hdr) <= MaxNumberOfAllowedDeletionsPerUpdate ->
  Header.NumChanged Hdr <= MaxNumberOfAllowedChangesPerUpdate ->
  ReadDeltaHeader H Header.empty
    (mkReader (WriteDeltaHeader Hdr [] ++ Rest) false)
  = (true,
     Header.mk (Header.ArrayReplicationKey Hdr)
       (Header.BaseReplicationKey Hdr) (Header.NumChanged Hdr)
       (omap (fun id => ItemMap (ArraySerializer H) !! id)
          (Header.DeletedIndices Hdr)),
     mkReader Rest false).
Proof.
  intros Hdel Hchg. rewrite WriteDeltaHeader_emits.
  unfold ReadDeltaHeader. cbn [app ReadInt32 ArIsError Words].
  destruct (Z.ltb_spec MaxNumberOfAllowedDeletionsPerUpdate
              (Num (Header.DeletedIndices Hdr))); [lia|].
  destruct (Z.ltb_spec MaxNumberOfAllowedChangesPerUpdate
              (Header.NumChanged Hdr)); [lia|].
  unfold Num at 1. rewrite Nat2Z.id.
  cbn [Header.set_NumChanged Header.DeletedIndices Header.empty
         Header.ArrayReplicationKey Header.BaseReplicationKey
         Header.NumChanged].
  by rewrite ReadDeleted_loop_spec.
Qed.

End HeaderRoundTrip.

(** A header with two deleted ids, of which the reader knows one. *)
Lemma ReadDeltaHeader_reads_what_WriteDeltaHeader_wrote_witness :
  let H := ExampleHelper [ExampleItem 7 0 1 40] {[ 7 := 0 ]} 0
             (ReadingParms [] false) [] in
  @ReadDeltaHeader ExampleItemType ExampleLimits H Header.empty
    (mkReader (WriteDeltaHeader (Header.mk 9 5 1 [3; 7]) [] ++ [11]) false)
  = (true, Header.mk 9 5 1 [0], mkReader [11] false).
Proof.
  cbv zeta.
  pose proof (@ReadDeltaHeader_reads_what_WriteDeltaHeader_wrote
                ExampleItemType ExampleLimits
                (ExampleHelper [ExampleItem 7 0 1 40] {[ 7 := 0 ]} 0
                   (ReadingParms [] false) [])
                (Header.mk 9 5 1 [3; 7]) [11]
                ltac:(by vm_compute) ltac:(by vm_compute)) as Hthm.
  vm_compute in Hthm |- *. exact Hthm.
Defined.

(** ** The end of a receive *)

Lemma filter_all {A} (P : A -> Prop) `{!forall x, Decision (P x)}
    (l : list A) :
  Forall P l -> filter P l = l.
Proof.
  induction 1 as [|x l Hx Hl IH]; [done|].
  by rewrite filter_cons_True, IH.
Qed.

Lemma RemoveAll_length {A} (D : list Z) :
  forall l : list A,
    (length (RemoveAll D l) + length (RemovedIndices D (Num l)))%nat
    = length l.
Proof.
  induction D as [|d D IH]; intros l; cbn [RemoveAll RemovedIndices].
  - cbn. lia.
  - change ((0 <=? d) && (d <? Num l)) with (IsValidIndex l d).
    destruct (IsValidIndex l d) eqn:Hv; [|apply IH].
    apply IsValidIndex_spec in Hv as [H0 Hlt].
    specialize (IH (RemoveAtSwap l (Z.to_nat d))).
    unfold Num in IH. rewrite RemoveAtSwap_length in IH by done.
    replace (Z.of_nat (Nat.pred (length l))) with (Num l - 1) in IH
      by (unfold Num; lia).
    cbn [length]. lia.
Qed.

Section CleanupSizeFacts.
Context `{T : FastArrayItemType} `{L : FastArrayLimits}.
Implicit Types H : TFastArraySerializeHelper.

(** The size announced to the callbacks is the size the array ends with:
    when the deleted indices (those of the header and the implicit ones) are
    in the array and no index is listed twice, [PostReceiveCleanup] leaves
    an array shorter by their number, and this is the [FinalSize] that the
    three array callbacks were handed before anything was removed. *)
Theorem PostReceiveCleanup_final_size H Hdr ChangedIndices AddedIndices :
  Forall (fun idx => IsValidIndex (Items H) idx = true) AddedIndices ->
  Forall (fun idx => IsValidIndex (Items H) idx = true) ChangedIndices ->
  Num (Items H) <= INT32_MAX ->
  let Deleted := Header.DeletedIndices (FindImplicitDeletes H Hdr) in
  NoDup Deleted ->
  Forall (fun idx => IsValidIndex (Items H) idx = true) Deleted ->
  exists H',
    PostReceiveCleanup H Hdr ChangedIndices AddedIndices = Some H'
    /\ Num (Items H') = Num (Items H) - Num Deleted
    /\ Array_PreReplicatedRemove Deleted (Num (Items H')) ∈ Calls H'
    /\ Array_PostReplicatedAdd AddedIndices (Num (Items H')) ∈ Calls H'
    /\ Array_PostReplicatedChange ChangedIndices (Num (Items H')) ∈ Calls H'.
Proof.
  intros HA HC Hmax Deleted Hnd Hval.
  pose proof (PostReceiveCleanup_spec H Hdr ChangedIndices AddedIndices HA HC)
    as Hspec.
  cbv zeta in Hspec. fold Deleted in Hspec.
  eexists. split; [exact Hspec|]. cbn [Items Calls].
  assert (Hlen : Num (RemoveAll (reverse (Sort Deleted)) (Items H))
                 = Num (Items H) - Num Deleted).
  { pose proof (RemoveAll_length (reverse (Sort Deleted)) (Items H)) as Hl.
    rewrite (RemovedIndices_strict (Items H)) in Hl
      by (by apply Sort_strictly_descending).
    rewrite filter_all in Hl.
    - rewrite length_reverse in Hl. unfold Sort in Hl.
      rewrite (Permutation_length (merge_sort_Permutation Z.le Deleted))
        in Hl.
      unfold Num, Sort. lia.
    - apply Forall_forall. intros d Hd.
      apply (proj1 (Sort_elem_of _ _)) in Hd.
      rewrite Forall_forall in Hval. by apply Hval. }
  assert (Hle : Num Deleted <= Num (Items H)).
  { unfold Num in *. lia. }
  assert (Hwrap : wrap32 (Num (Items H) - Num Deleted)
                  = Num (Items H) - Num Deleted).
  { apply wrap32_id. unfold in_int32, INT32_MIN, INT32_MAX, Num in *. lia. }
  rewrite Hwrap, Hlen. split; [done|].
  split; [|split].
  - apply elem_of_app. right. apply elem_of_app. right.
    apply elem_of_app. left. by apply list_elem_of_singleton.
  - apply elem_of_app. right. apply elem_of_app. right.
    apply elem_of_app. right. apply elem_of_app. right.
    apply elem_of_app. left. by apply list_elem_of_singleton.
  - apply elem_of_app. right. apply elem_of_app. right.
    apply elem_of_app. right. apply elem_of_app. right.
    apply elem_of_app. right. apply elem_of_app. right.
    apply elem_of_app. left. by apply list_elem_of_singleton.
Qed.

(** A delta with nothing in it leaves the collection alone: with no
    change, no deleted index and no item in the range of the implicit
    deletes (or with reliable delivery), [PostReceiveCleanup] keeps the
    items, the array key and the id index, and only makes the three array
    callbacks, with empty lists and the size of the array. *)
Theorem PostReceiveCleanup_of_an_empty_delta H Hdr :
  Header.NumChanged Hdr <= 0 ->
  Header.DeletedIndices Hdr = [] ->
  (bInternalAck (Parms H) = true
   \/ forall Item, Item ∈ Items H -> ~ ImplicitlyDeleted Hdr Item) ->
  Num (Items H) <= INT32_MAX ->
  PostReceiveCleanup H Hdr [] []
  = Some (with_Calls
            [Array_PreReplicatedRemove [] (Num (Items H));
             Array_PostReplicatedAdd [] (Num (Items H));
             Array_PostReplicatedChange [] (Num (Items H))] H).
Proof.
  intros Hchg Hdel Himp Hmax.
  pose proof (PostReceiveCleanup_spec H Hdr [] [] ltac:(constructor)
                ltac:(constructor)) as Hspec.
  cbv zeta in Hspec.
  assert (HD : Header.DeletedIndices (FindImplicitDeletes H Hdr) = []).
  { apply no_elements_nil. intros idx Hin.
    apply FindImplicitDeletes_elem_of in Hin
      as [Hin|(Hack & j & It & Hj & _ & Hr)].
    - rewrite Hdel in Hin. by apply elem_of_nil in Hin.
    - destruct Himp as [Hack'|Hno]; [congruence|].
      apply (Hno It); [|done]. by eapply list_elem_of_lookup_2. }
  rewrite HD in Hspec. rewrite Hspec. f_equal.
  change (Num []) with 0.
  destruct (Z.ltb_spec 0 (Header.NumChanged Hdr)); [lia|].
  cbn [orb Z.ltb Z.compare RemoveAll reverse Sort].
  rewrite Z.sub_0_r, wrap32_id
    by (unfold in_int32, INT32_MIN, INT32_MAX, Num in *; lia).
  unfold with_Calls. by destruct H.
Qed.

End CleanupSizeFacts.

(** Two items, the first deleted by the header. *)
Lemma PostReceiveCleanup_final_size_witness :
  let H := ExampleHelper [ExampleItem 7 0 1 40; ExampleItem 8 0 1 41]
             {[ 7 := 0; 8 := 1 ]} 0 (ReadingParms [] true) [] in
  exists H',
    @PostReceiveCleanup ExampleItemType H (Header.mk 9 5 0 [0]) [] []
    = Some H'
    /\ Num (Items H') = 1
    /\ Array_PreReplicatedRemove [0] 1 ∈ Calls H'.
Proof.
  cbv zeta.
  set (H := ExampleHelper [ExampleItem 7 0 1 40; ExampleItem 8 0 1 41]
              {[ 7 := 0; 8 := 1 ]} 0 (ReadingParms [] true) []).
  destruct (@PostReceiveCleanup_final_size ExampleItemType H
              (Header.mk 9 5 0 [0]) [] []
              ltac:(constructor) ltac:(constructor) ltac:(by vm_compute)
              ltac:(apply NoDup_singleton)
              ltac:(by repeat constructor))
    as (H' & Hrun & Hnum & Hrem & _).
  assert (Hn1 : Num (Items H') = 1) by (rewrite Hnum; by vm_compute).
  rewrite Hn1 in Hrem.
  exists H'. split; [exact Hrun|]. split; [exact Hn1|exact Hrem].
Defined.

(** An empty delta on a collection of one item. *)
Lemma PostReceiveCleanup_of_an_empty_delta_witness :
  let H := ExampleHelper [ExampleItem 7 0 1 40] {[ 7 := 0 ]} 0
             (ReadingParms [] true) [] in
  @PostReceiveCleanup ExampleItemType H (Header.mk 9 5 0 []) [] []
  = Some (with_Calls
            [Array_PreReplicatedRemove [] 1; Array_PostReplicatedAdd [] 1;
             Array_PostReplicatedChange [] 1] H).
Proof.
  cbv zeta.
  exact (@PostReceiveCleanup_of_an_empty_delta ExampleItemType
           (ExampleHelper [ExampleItem 7 0 1 40] {[ 7 := 0 ]} 0
              (ReadingParms [] true) [])
           (Header.mk 9 5 0 [])
           ltac:(by vm_compute) eq_refl (or_introl eq_refl)
           ltac:(by vm_compute)).
Defined.

(** ** More on the walk of the writer *)

Section WalkFacts.
Context `{T : FastArrayItemType} `{L : FastArrayLimits}.
Implicit Types H : TFastArraySerializeHelper.
Implicit Types B : BuildState.

(** A walk without an old map is a walk against the empty map. *)
Lemma BuildChanged_step_None client i Item B :
  BuildChanged_step client None i Item B
  = BuildChanged_step client (Some ∅) i Item B.
Proof.
  unfold BuildChanged_step. destruct (negb _); [done|].
  destruct (if ReplicationID Item =? INDEX_NONE then _ else _) as [Ser It].
  by rewrite lookup_empty.
Qed.

Lemma BuildChanged_loop_None client Rest :
  forall i B,
    BuildChanged_loop client None i Rest B
    = BuildChanged_loop client (Some ∅) i Rest B.
Proof.
  induction Rest as [|Item Rest IH]; intros i B; cbn [BuildChanged_loop];
    [done|].
  rewrite BuildChanged_step_None.
  destruct (BuildChanged_step _ _ _ _ _) as [It B1]. by rewrite IH.
Qed.

Lemma BuildChangedAndDeletedBuffers_None H New Chg Del :
  BuildChangedAndDeletedBuffers H New None Chg Del
  = BuildChangedAndDeletedBuffers H New (Some ∅) Chg Del.
Proof.
  unfold BuildChangedAndDeletedBuffers, BuildChanged, InitialDeleteCount.
  rewrite BuildChanged_loop_None. rewrite map_size_empty.
  destruct (BuildChanged_loop _ _ _ _ _) as [Its B].
  unfold BuildDeleted. rewrite map_to_list_empty. cbn.
  by destruct (0 <? bDeleteCount B).
Qed.

(** The walk in closed form. *)
Lemma BuildChanged_loop_closed client (Old : gmap Z Z) Rest :
  forall i B Rest' B',
    BuildChanged_loop client (Some Old) i Rest B = (Rest', B') ->
    bChangedElements B'
    = bChangedElements B ++ ChangedPairs client Old i Rest'
    /\ bNewIDToKeyMap B'
       = AddKeys (bNewIDToKeyMap B) (ConsideredItems client Rest')
    /\ Forall2 (fun Item Item' =>
                  ShouldWriteFastArrayItem Item' client
                  = ShouldWriteFastArrayItem Item client) Rest Rest'.
Proof.
  induction Rest as [|Item Rest IH]; intros i B Rest' B' Heq;
    cbn [BuildChanged_loop] in Heq.
  - inversion Heq; subst. cbn. by rewrite app_nil_r.
  - destruct (BuildChanged_step client (Some Old) i Item B)
      as [Item1 B1] eqn:Hstep.
    destruct (BuildChanged_loop client (Some Old) (i + 1) Rest B1)
      as [Rest1 B2] eqn:Hloop.
    inversion Heq; subst Rest' B'. clear Heq.
    apply BuildChanged_step_spec in Hstep.
    destruct (IH _ _ _ _ Hloop) as (Hchg & Hmap & Hcons). clear IH.
    assert (Hsw : ShouldWriteFastArrayItem Item1 client
                  = ShouldWriteFastArrayItem Item client).
    { destruct (ShouldWriteFastArrayItem Item client) eqn:Hs.
      - destruct Hstep as (Hkeep & _).
        unfold ShouldWriteFastArrayItem in *. destruct client; [|done].
        cbn in *. apply negb_true_iff, Z.eqb_neq in Hs.
        by rewrite (Hkeep Hs), (proj2 (Z.eqb_neq _ _) Hs).
      - destruct Hstep as [-> _]. done. }
    split; [|split; [|by constructor]].
    + rewrite Hchg. cbn [ChangedPairs]. rewrite Hsw.
      destruct (ShouldWriteFastArrayItem Item client).
      * destruct Hstep as (_ & _ & Hc & _).
        destruct (decide _); rewrite Hc; [done|].
        by rewrite <- app_assoc.
      * by destruct Hstep as [_ ->].
    + rewrite Hmap. unfold ConsideredItems. rewrite filter_cons.
      rewrite Hsw. destruct (ShouldWriteFastArrayItem Item client).
      * destruct Hstep as (_ & Hm & _). rewrite decide_True by done.
        cbn [AddKeys foldl]. by rewrite Hm.
      * destruct Hstep as [_ ->]. by rewrite decide_False by done.
Qed.

Lemma ChangedPairs_Idx client Old Its :
  forall i,
    StronglySorted Z.lt (Idx <$> ChangedPairs client Old i Its)
    /\ Forall (fun p =>
                 exists (k : nat) Item,
                   Idx p = i + Z.of_nat k /\ Its !! k = Some Item
                   /\ ID p = ReplicationID Item
                   /\ ShouldWriteFastArrayItem Item client = true
                   /\ Old !! ReplicationID Item
                      <> Some (ReplicationKey Item))
         (ChangedPairs client Old i Its).
Proof.
  induction Its as [|Item Rest IH]; intros i; cbn [ChangedPairs].
  - split; constructor.
  - destruct (IH (i + 1)) as [Hs Hall]. clear IH.
    assert (Hall' : Forall (fun p =>
                 exists (k : nat) It,
                   Idx p = i + Z.of_nat k /\ (Item :: Rest) !! k = Some It
                   /\ ID p = ReplicationID It
                   /\ ShouldWriteFastArrayItem It client = true
                   /\ Old !! ReplicationID It <> Some (ReplicationKey It))
              (ChangedPairs client Old (i + 1) Rest)).
    { eapply Forall_impl; [exact Hall|]. cbn.
      intros p (k & It & Hi & Hk & Hid & Hsw & Hne).
      exists (S k), It. split; [lia|]. done. }
    destruct (ShouldWriteFastArrayItem Item client) eqn:Hsw; [|done].
    destruct (decide _) as [He|Hne]; [done|].
    cbn [app fmap list_fmap Idx]. split.
    + constructor; [done|]. apply Forall_fmap.
      eapply Forall_impl; [exact Hall|]. cbn.
      intros p (k & _ & Hi & _). lia.
    + constructor; [|done]. exists 0%nat, Item. cbn.
      split; [lia|]. done.
Qed.

Lemma BuildDeleted_loop_NoDup It (New : gmap Z Z) :
  forall dc Del,
    NoDup (Del ++ It.*1) -> NoDup (BuildDeleted_loop It New dc Del).
Proof.
  induction It as [|[k v] It IH]; intros dc Del Hnd;
    cbn [BuildDeleted_loop].
  - by rewrite app_nil_r in Hnd.
  - cbn [fmap list_fmap fst] in Hnd.
    assert (Hnd1 : NoDup ((Del ++ [k]) ++ It.*1))
      by (by rewrite <- app_assoc).
    destruct (negb _).
    + destruct (decr32 dc <=? 0); [|by apply IH].
      by apply NoDup_app in Hnd1 as [? _].
    + apply IH. apply NoDup_app in Hnd as (Hd & Hdis & Hit).
      apply NoDup_cons in Hit as [_ Hit].
      apply NoDup_app. split; [done|]. split; [|done].
      intros x Hx Hx'. apply (Hdis x Hx). by right.
Qed.

(** The order of the changed elements.  Whatever the old state, the walk
    lists the changed elements by strictly increasing position, so that no
    position is listed twice; each pair holds a position of the array and
    the id that the item there has after the walk; and no id is listed twice
    among the deleted ones. *)
Theorem BuildChangedAndDeletedBuffers_lists_in_order H
    (OldIDToKeyMap : option (gmap Z Z)) :
  let '(H', NewMap, Changed, Deleted) :=
    BuildChangedAndDeletedBuffers H ∅ OldIDToKeyMap [] [] in
  StronglySorted Z.lt (Idx <$> Changed)
  /\ Forall (fun p => exists Item',
                        At (Items H') (Idx p) = Some Item'
                        /\ ReplicationID Item' = ID p) Changed
  /\ NoDup Deleted.
Proof.
  assert (HS : forall Old : gmap Z Z,
    let '(H', NewMap, Changed, Deleted) :=
      BuildChangedAndDeletedBuffers H ∅ (Some Old) [] [] in
    StronglySorted Z.lt (Idx <$> Changed)
    /\ Forall (fun p => exists Item',
                          At (Items H') (Idx p) = Some Item'
                          /\ ReplicationID Item' = ID p) Changed
    /\ NoDup Deleted).
  { intros Old. unfold BuildChangedAndDeletedBuffers, BuildChanged.
    destruct (BuildChanged_loop _ _ _ _ _) as [Items' B] eqn:Hloop.
    destruct (BuildChanged_loop_closed _ _ _ _ _ _ _ Hloop)
      as (Hchg & _ & _).
    cbn [bChangedElements app] in Hchg. rewrite Hchg.
    cbn [Items set_ArraySerializer set_Items].
    destruct (ChangedPairs_Idx (bIsWritingOnClient (Parms H)) Old Items' 0)
      as [Hs Hall].
    split; [done|]. split.
    - eapply Forall_impl; [exact Hall|]. cbn.
      intros p (k & It & Hi & Hk & Hid & _). exists It. split; [|done].
      rewrite Hi. rewrite Z.add_0_l. by rewrite At_lookup.
    - unfold BuildDeleted. destruct (0 <? _); [|constructor].
      apply BuildDeleted_loop_NoDup. cbn [app].
      apply NoDup_fst_map_to_list. }
  destruct OldIDToKeyMap as [Old|]; [apply HS|].
  rewrite BuildChangedAndDeletedBuffers_None. apply HS.
Qed.

(** The first replication.  Without an old state the walk lists every
    considered item as changed, in the order of the array, and deletes
    nothing. *)
Theorem BuildChangedAndDeletedBuffers_without_old_state H :
  let '(H', NewMap, Changed, Deleted) :=
    BuildChangedAndDeletedBuffers H ∅ None [] [] in
  Deleted = []
  /\ ID <$> Changed
     = IDs (ConsideredItems (bIsWritingOnClient (Parms H)) (Items H'))
  /\ length Changed
     = ConsideredCount (bIsWritingOnClient (Parms H)) (Items H).
Proof.
  rewrite BuildChangedAndDeletedBuffers_None.
  unfold BuildChangedAndDeletedBuffers, BuildChanged.
  destruct (BuildChanged_loop _ _ _ _ _) as [Items' B] eqn:Hloop.
  destruct (BuildChanged_loop_closed _ _ _ _ _ _ _ Hloop)
    as (Hchg & _ & Hcons).
  cbn [bChangedElements app] in Hchg. rewrite Hchg.
  cbn [Items set_ArraySerializer set_Items].
  split.
  { unfold BuildDeleted. rewrite map_to_list_empty. cbn.
    by destruct (0 <? bDeleteCount B). }
  set (client := bIsWritingOnClient (Parms H)) in *.
  assert (Hids : forall i Its,
            ID <$> ChangedPairs client ∅ i Its
            = IDs (ConsideredItems client Its)).
  { intros i Its. revert i.
    induction Its as [|It Its IH]; intros i; [done|].
    cbn [ChangedPairs]. unfold ConsideredItems, IDs in *.
    rewrite filter_cons, fmap_app, IH.
    destruct (ShouldWriteFastArrayItem It client); [|done].
    destruct (decide (∅ !! ReplicationID It = Some (ReplicationKey It)))
      as [He|_]; [by rewrite lookup_empty in He|].
    by rewrite decide_True by done. }
  split; [apply Hids|].
  rewrite <- (length_fmap ID), Hids. unfold IDs. rewrite length_fmap.
  unfold ConsideredCount, ConsideredItems.
  clear Hloop Hchg Hids.
  induction Hcons as [|It It' Its Its' Hsw Hcons IH]; [done|].
  rewrite !filter_cons, Hsw.
  destruct (ShouldWriteFastArrayItem It client).
  - rewrite !decide_True by done. cbn [length]. by rewrite IH.
  - by rewrite !decide_False by done.
Qed.

(** *** What is deleted *)

Lemma BuildDeleted_loop_complete It (New : gmap Z Z) :
  forall dc Del,
    Z.of_nat (length (filter (fun k => New !! k = None) It.*1)) <= dc ->
    0 < dc <= INT32_MAX ->
    BuildDeleted_loop It New dc Del
    = Del ++ filter (fun k => New !! k = None) It.*1.
Proof.
  induction It as [|[k v] It IH]; intros dc Del Hcount Hdc;
    cbn [BuildDeleted_loop].
  - cbn. by rewrite app_nil_r.
  - cbn [fmap list_fmap fst] in *. rewrite filter_cons in *.
    destruct (decide (New !! k = None)) as [Hn|Hn].
    + rewrite bool_decide_eq_false_2 by (rewrite Hn; by intros [? ?]).
      cbn [negb]. rewrite decr32_pos by done. cbn [length] in Hcount.
      destruct (Z.leb_spec (dc - 1) 0) as [Hle|Hgt].
      * assert (Hnil : filter (fun k => New !! k = None) It.*1 = []).
        { apply length_zero_iff_nil. lia. }
        by rewrite Hnil.
      * rewrite IH by lia. by rewrite <- app_assoc.
    + rewrite bool_decide_eq_true_2
        by (destruct (New !! k); [eauto|done]).
      cbn [negb]. by apply IH.
Qed.

Lemma filter_length_complement {A} (P : A -> Prop)
    `{!forall x, Decision (P x)} (l : list A) :
  (length (filter P l) + length (filter (fun x => ~ P x) l))%nat = length l.
Proof.
  induction l as [|x l IH]; [done|].
  rewrite !filter_cons.
  destruct (decide (P x)), (decide (~ P x)); cbn [length]; tauto || lia.
Qed.

Lemma NoDup_common_length (l k : list Z) :
  NoDup l -> NoDup k ->
  length (filter (fun x => x ∈ k) l) = length (filter (fun x => x ∈ l) k).
Proof.
  intros Hl Hk. apply Permutation_length. apply NoDup_Permutation.
  - by apply NoDup_filter.
  - by apply NoDup_filter.
  - intros x. rewrite !list_elem_of_filter. tauto.
Qed.

Lemma AddKeys_is_Some (M : gmap Z Z) Its id :
  is_Some (AddKeys M Its !! id) <-> is_Some (M !! id) \/ id ∈ IDs Its.
Proof.
  revert M. induction Its as [|It Its IH]; intros M; cbn [AddKeys foldl].
  - unfold IDs. cbn. rewrite elem_of_nil. tauto.
  - change (foldl _ ?m Its) with (AddKeys m Its). rewrite IH.
    unfold IDs. rewrite fmap_cons, elem_of_cons.
    destruct (decide (ReplicationID It = id)) as [<-|Hne].
    + rewrite lookup_insert_eq. split; [|eauto].
      intros _. right. by left.
    + rewrite lookup_insert_ne by done. split.
      * intros [?|?]; [by left|]. right. by right.
      * intros [?|[?|?]]; [by left|congruence|by right].
Qed.

Lemma AddKeys_lookup (M : gmap Z Z) Its id key :
  NoDup (IDs Its) ->
  AddKeys M Its !! id = Some key
  <-> (exists Item, Item ∈ Its /\ ReplicationID Item = id
                    /\ ReplicationKey Item = key)
      \/ ((id ∉ IDs Its) /\ M !! id = Some key).
Proof.
  revert M. induction Its as [|It Its IH]; intros M Hnd;
    cbn [AddKeys foldl].
  - split.
    + intros HM. right. split; [|done]. unfold IDs. cbn. apply not_elem_of_nil.
    + intros [(x & Hx & _)|[_ ?]]; [by apply elem_of_nil in Hx|done].
  - change (foldl _ ?m Its) with (AddKeys m Its).
    unfold IDs in Hnd. rewrite fmap_cons in Hnd.
    apply NoDup_cons in Hnd as [Hni Hnd]. rewrite (IH _ Hnd). clear IH.
    unfold IDs. rewrite fmap_cons. split.
    + intros [(x & Hx & Hid & Hk)|[Hn HM]].
      * left. exists x. split; [by right|done].
      * destruct (decide (ReplicationID It = id)) as [<-|Hne].
        -- rewrite lookup_insert_eq in HM. inversion HM; subst key.
           left. exists It. split; [by left|done].
        -- rewrite lookup_insert_ne in HM by done. right.
           split; [|done]. intros Hin.
           apply elem_of_cons in Hin as [?|?]; [congruence|done].
    + intros [(x & Hx & Hid & Hk)|[Hn HM]].
      * apply elem_of_cons in Hx as [->|Hx].
        -- right. split; [by rewrite <- Hid|].
           by rewrite <- Hid, <- Hk, lookup_insert_eq.
        -- left. by exists x.
      * right. split.
        -- intros Hin. apply Hn. by right.
        -- rewrite lookup_insert_ne; [done|].
           intros Heq. apply Hn. apply elem_of_cons. by left.
Qed.

(** The count of deletions after the walk, when no two considered items
    share an id: the number of ids of the old map that no considered item
    holds. *)
Lemma DeleteCount_distinct (Old : gmap Z Z) (ids : list Z) :
  NoDup ids ->
  Z.of_nat (size Old) - Z.of_nat (length ids)
  + Z.of_nat (length (filter (fun id => Old !! id = None) ids))
  = Z.of_nat (length (filter (fun k => k ∉ ids) (map_to_list Old).*1)).
Proof.
  intros Hnd.
  set (keys := (map_to_list Old).*1).
  assert (Hk : NoDup keys) by apply NoDup_fst_map_to_list.
  assert (Hsize : length keys = size Old).
  { unfold keys. by rewrite length_fmap, length_map_to_list. }
  assert (Hin : forall id, id ∈ keys <-> is_Some (Old !! id)).
  { intros id. unfold keys. rewrite list_elem_of_fmap. split.
    - intros ([k v] & -> & Hkv). apply elem_of_map_to_list in Hkv. eauto.
    - intros [v Hv]. exists (id, v). split; [done|].
      by apply elem_of_map_to_list. }
  pose proof (filter_length_complement (fun k => k ∈ ids) keys) as H1.
  pose proof (filter_length_complement (fun id => id ∈ keys) ids) as H2.
  pose proof (NoDup_common_length keys ids Hk Hnd) as H3.
  assert (H4 : filter (fun id => Old !! id = None) ids
               = filter (fun id => id ∉ keys) ids).
  { apply filter_Forall_iff. apply Forall_forall. intros id _.
    rewrite Hin. rewrite <- eq_None_not_Some. tauto. }
  rewrite H4. rewrite <- Hsize. lia.
Qed.

(** What is deleted, in closed form, when no two considered items share an
    id after the walk. *)
Lemma BuildDeleted_closed H (Old : gmap Z Z) Items' B :
  Z.of_nat (size Old) <= INT32_MAX ->
  BuildChanged H ∅ (Some Old) [] = (Items', B) ->
  NoDup (IDs (ConsideredItems (bIsWritingOnClient (Parms H)) Items')) ->
  BuildDeleted (Some Old) (bNewIDToKeyMap B) (bDeleteCount B) []
  = filter (fun k => k ∉ IDs (ConsideredItems (bIsWritingOnClient (Parms H))
                                Items'))
      (map_to_list Old).*1.
Proof.
  intros Hold Hloop Hnd. unfold BuildChanged in Hloop.
  set (client := bIsWritingOnClient (Parms H)) in *.
  destruct (BuildChanged_loop_closed _ _ _ _ _ _ _ Hloop)
    as (_ & Hmap & Hcons).
  destruct (BuildChanged_loop_spec _ _ _ _ _ _ _ Hloop)
    as (Hlen & _ & _ & Hdc & Hrng).
  cbn [bNewIDToKeyMap bDeleteCount] in *.
  set (ids := IDs (ConsideredItems client Items')) in *.
  assert (HNew : forall id, bNewIDToKeyMap B !! id = None <-> id ∉ ids).
  { intros id. rewrite Hmap, eq_None_not_Some, AddKeys_is_Some.
    rewrite lookup_empty. split.
    - intros Hn Hin. apply Hn. by right.
    - intros Hn [[? ?]|?]; done. }
  assert (Hcc : ConsideredCount client (Items H) = length ids).
  { unfold ids, IDs. rewrite length_fmap.
    unfold ConsideredCount, ConsideredItems. clear -Hcons.
    induction Hcons as [|It It' Its Its' Hsw Hcons IH]; [done|].
    rewrite !filter_cons, Hsw.
    destruct (ShouldWriteFastArrayItem It client).
    - rewrite !decide_True by done. cbn [length]. by rewrite IH.
    - by rewrite !decide_False by done. }
  assert (Hnc : NewCount client Old (zip (Items H) Items')
                = length (filter (fun id => Old !! id = None) ids)).
  { unfold ids, IDs, NewCount, ConsideredItems. clear -Hcons.
    induction Hcons as [|It It' Its Its' Hsw Hcons IH]; [done|].
    cbn [zip zip_with]. rewrite !filter_cons. cbn [fst snd].
    rewrite Hsw. destruct (ShouldWriteFastArrayItem It client) eqn:Hs.
    - rewrite (decide_True (P := true = true)) by done.
      rewrite fmap_cons, filter_cons.
      destruct (decide (Old !! ReplicationID It' = None)) as [Hn|Hn].
      + rewrite decide_True by done. cbn [length]. by rewrite IH.
      + rewrite decide_False by tauto. done.
    - rewrite (decide_False (P := false = true)) by done.
      rewrite decide_False by (intros [? _]; done). done. }
  assert (Hkeys : filter (fun k => bNewIDToKeyMap B !! k = None)
                    (map_to_list Old).*1
                  = filter (fun k => k ∉ ids) (map_to_list Old).*1).
  { apply filter_Forall_iff. apply Forall_forall. intros k _. apply HNew. }
  pose proof (length_filter (fun k => k ∉ ids) (map_to_list Old).*1) as Hf.
  rewrite length_fmap, length_map_to_list in Hf.
  assert (HDC : bDeleteCount B
                = Z.of_nat (length (filter (fun k => k ∉ ids)
                                      (map_to_list Old).*1))).
  { assert (Hin32 : in_int32 (bDeleteCount B)).
    { apply Hrng. unfold InitialDeleteCount. apply wrap32_range. }
    rewrite <- (wrap32_id (bDeleteCount B)) by done. rewrite Hdc.
    unfold InitialDeleteCount. rewrite CalcNumItemsForConsideration_spec.
    fold client. rewrite wrap32_sub_r, wrap32_add_l, Hcc, Hnc.
    rewrite (DeleteCount_distinct Old ids Hnd).
    apply wrap32_id.
    unfold in_int32, INT32_MIN, INT32_MAX in *. lia. }
  unfold BuildDeleted.
  destruct (Z.ltb_spec 0 (bDeleteCount B)) as [Hpos|Hle].
  - rewrite BuildDeleted_loop_complete; [by rewrite Hkeys| |].
    + rewrite Hkeys, HDC. lia.
    + split; [done|]. rewrite HDC. unfold INT32_MAX in *. lia.
  - symmetry. apply length_zero_iff_nil. lia.
Qed.

(** Every missing id is deleted.  On a walk against an old map within the
    [int32] range, when no two considered items share an id after the walk,
    the deleted ids are exactly the ids of the old map that no considered
    item holds, each listed once. *)
Theorem BuildChangedAndDeletedBuffers_deletes_the_missing H
    (Old : gmap Z Z) :
  Z.of_nat (size Old) <= INT32_MAX ->
  let client := bIsWritingOnClient (Parms H) in
  let '(H', NewMap, Changed, Deleted) :=
    BuildChangedAndDeletedBuffers H ∅ (Some Old) [] [] in
  NoDup (IDs (ConsideredItems client (Items H'))) ->
  NoDup Deleted
  /\ forall d,
       d ∈ Deleted
       <-> is_Some (Old !! d) /\ d ∉ IDs (ConsideredItems client (Items H')).
Proof.
  intros Hold. cbv zeta.
  unfold BuildChangedAndDeletedBuffers.
  destruct (BuildChanged H ∅ (Some Old) []) as [Items' B] eqn:Hloop.
  cbn [Items set_ArraySerializer set_Items]. intros Hnd.
  rewrite (BuildDeleted_closed H Old Items' B Hold Hloop Hnd). split.
  - apply NoDup_filter, NoDup_fst_map_to_list.
  - intros d. rewrite list_elem_of_filter, list_elem_of_fmap. split.
    + intros [Hn ([k v] & -> & Hkv)]. apply elem_of_map_to_list in Hkv.
      split; [eauto|done].
    + intros [[v Hv] Hn]. split; [done|]. exists (d, v).
      split; [done|]. by apply elem_of_map_to_list.
Qed.

End WalkFacts.

(** An old map with ids 1, 2 and 3 against an array that holds 1 and 3. *)
Lemma BuildChangedAndDeletedBuffers_deletes_the_missing_witness :
  let H := ExampleHelper [ExampleItem 3 0 INDEX_NONE 30;
                          ExampleItem 1 5 INDEX_NONE 10] ∅ 4
             (WritingParms None) [] in
  let Old : gmap Z Z := {[ 1 := 5; 2 := 0; 3 := 0 ]} in
  let Deleted :=
    (@BuildChangedAndDeletedBuffers ExampleItemType H ∅ (Some Old) [] []).2 in
  NoDup Deleted
  /\ forall d, d ∈ Deleted <-> is_Some (Old !! d) /\ d ∉ [3; 1].
Proof.
  cbv zeta.
  set (H := ExampleHelper [ExampleItem 3 0 INDEX_NONE 30;
                           ExampleItem 1 5 INDEX_NONE 10] ∅ 4
              (WritingParms None) []).
  set (Old := ({[ 1 := 5; 2 := 0; 3 := 0 ]} : gmap Z Z)).
  pose proof (@BuildChangedAndDeletedBuffers_deletes_the_missing
                ExampleItemType H Old ltac:(by vm_compute)) as Hthm.
  cbv zeta in Hthm.
  destruct (BuildChangedAndDeletedBuffers H ∅ (Some Old) [] [])
    as [[[H' NewMap] Changed] Deleted] eqn:Hrun.
  assert (HI : IDs (ConsideredItems (bIsWritingOnClient (Parms H)) (Items H'))
               = [3; 1]).
  { vm_compute in Hrun. inversion Hrun. by vm_compute. }
  rewrite HI in Hthm.
  exact (Hthm ltac:(compute_done)).
Defined.

(** ** The writing branch *)

Section SaveFacts.
Context `{T : FastArrayItemType} `{L : FastArrayLimits}.
Implicit Types H : TFastArraySerializeHelper.

Lemma alter_last {A} (f : A -> A) (l : list A) x :
  alter f (length l) (l ++ [x]) = l ++ [f x].
Proof. by rewrite alter_app_r_alt, Nat.sub_diag by lia. Qed.

(** The walk reads the items, the serializer and [bIsWritingOnClient], and
    nothing else of the helper. *)
Lemma BuildChangedAndDeletedBuffers_frame H P St New Old Chg Del :
  bIsWritingOnClient P = bIsWritingOnClient (Parms H) ->
  BuildChangedAndDeletedBuffers
    (mkHelper (Items H) (ArraySerializer H) P St (Calls H)) New Old Chg Del
  = let '(Hb, NewMap, Changed, Deleted) :=
      BuildChangedAndDeletedBuffers H New Old Chg Del in
    (mkHelper (Items Hb) (ArraySerializer Hb) P St (Calls H),
     NewMap, Changed, Deleted).
Proof.
  intros HP.
  unfold BuildChangedAndDeletedBuffers, BuildChanged, InitialDeleteCount,
    CalcNumItemsForConsideration.
  cbn [Items ArraySerializer Parms]. rewrite HP.
  by destruct (BuildChanged_loop _ _ _ _ _) as [Its B].
Qed.

(** The walk leaves the parameters, the states and the calls alone. *)
Lemma BuildChangedAndDeletedBuffers_rest H New Old Chg Del :
  let '(Hb, _, _, _) := BuildChangedAndDeletedBuffers H New Old Chg Del in
  Parms Hb = Parms H /\ States Hb = States H /\ Calls Hb = Calls H.
Proof.
  unfold BuildChangedAndDeletedBuffers.
  by destruct (BuildChanged _ _ _ _) as [Its B].
Qed.

(** The walk in closed form. *)
Lemma BuildChangedAndDeletedBuffers_closed H (OldMap : option (gmap Z Z))
    Hb NewMap Changed Deleted :
  BuildChangedAndDeletedBuffers H ∅ OldMap [] []
  = (Hb, NewMap, Changed, Deleted) ->
  let client := bIsWritingOnClient (Parms H) in
  Changed = ChangedPairs client (default ∅ OldMap) 0 (Items Hb)
  /\ NewMap = AddKeys ∅ (ConsideredItems client (Items Hb))
  /\ length (Items Hb) = length (Items H)
  /\ (forall (k : nat) Item Item',
        Items H !! k = Some Item -> Items Hb !! k = Some Item' ->
        ReplicationID Item <> INDEX_NONE -> Item' = Item)
  /\ (Forall (fun Item => ReplicationID Item <> INDEX_NONE) (Items H) ->
      ArraySerializer Hb = ArraySerializer H).
Proof.
  assert (HS : forall Old : gmap Z Z,
    BuildChangedAndDeletedBuffers H ∅ (Some Old) [] []
    = (Hb, NewMap, Changed, Deleted) ->
    let client := bIsWritingOnClient (Parms H) in
    Changed = ChangedPairs client Old 0 (Items Hb)
    /\ NewMap = AddKeys ∅ (ConsideredItems client (Items Hb))
    /\ length (Items Hb) = length (Items H)
    /\ (forall (k : nat) Item Item',
          Items H !! k = Some Item -> Items Hb !! k = Some Item' ->
          ReplicationID Item <> INDEX_NONE -> Item' = Item)
    /\ (Forall (fun Item => ReplicationID Item <> INDEX_NONE) (Items H) ->
        ArraySerializer Hb = ArraySerializer H)).
  { intros Old Hrun. cbv zeta.
    unfold BuildChangedAndDeletedBuffers, BuildChanged in Hrun.
    destruct (BuildChanged_loop _ _ _ _ _) as [Items' B] eqn:Hloop.
    inversion Hrun; subst Hb NewMap Changed Deleted. clear Hrun.
    cbn [Items ArraySerializer set_ArraySerializer set_Items].
    destruct (BuildChanged_loop_closed _ _ _ _ _ _ _ Hloop)
      as (Hchg & Hmap & _).
    destruct (BuildChanged_loop_spec _ _ _ _ _ _ _ Hloop)
      as (Hlen & Hsame & _).
    split; [done|]. split; [done|]. split; [done|]. split.
    - intros k It It' Hk Hk' Hne. eapply Hsame; eauto.
    - intros Hall. clear Hchg Hmap Hlen Hsame.
      assert (Hgen : forall Rest i B0 Rest' B',
                Forall (fun Item => ReplicationID Item <> INDEX_NONE) Rest ->
                BuildChanged_loop (bIsWritingOnClient (Parms H)) (Some Old)
                  i Rest B0 = (Rest', B') ->
                bSerializer B' = bSerializer B0).
      { clear. induction Rest as [|It Rest IH]; intros i B0 Rest' B' Hall Heq;
          cbn [BuildChanged_loop] in Heq; [by inversion Heq|].
        apply Forall_cons in Hall as [Hne Hall].
        destruct (BuildChanged_step _ _ _ _ _) as [It1 B1] eqn:Hstep.
        destruct (BuildChanged_loop _ _ _ _ B1) as [R1 B2] eqn:Hloop.
        inversion Heq; subst. rewrite (IH _ _ _ _ Hall Hloop).
        unfold BuildChanged_step in Hstep.
        apply Z.eqb_neq in Hne. rewrite Hne in Hstep.
        destruct (negb _); [by inversion Hstep|].
        destruct (Old !! ReplicationID It) as [v|];
          [destruct (v =? ReplicationKey It)|]; by inversion Hstep. }
      by rewrite (Hgen _ _ _ _ _ Hall Hloop). }
  destruct OldMap as [Old|]; [apply HS|].
  rewrite BuildChangedAndDeletedBuffers_None. apply HS.
Qed.

(** The loop of the writing branch over changed elements that are in the
    array. *)
Lemma WriteChanged_loop_spec (Changed : list FIdxIDPair) Its :
  forall W,
    Forall (fun p => is_Some (At Its (Idx p))) Changed ->
    WriteChanged_loop Changed Its W
    = Some (W ++ flat_map (fun e => e.1 :: e.2) (ChangedPayloads Changed Its))
    /\ length (ChangedPayloads Changed Its) = length Changed.
Proof.
  induction Changed as [|p Changed IH]; intros W Hall;
    cbn [WriteChanged_loop ChangedPayloads omap list_omap].
  - by rewrite app_nil_r.
  - apply Forall_cons in Hall as [[It HIt] Hall]. rewrite HIt.
    cbn [mbind option_bind flat_map fst snd length].
    destruct (IH (WriteInt32 W (ID p)
                    ++ NetSerializeStruct_Save (ItemData It)) Hall)
      as [-> Hlen].
    fold (ChangedPayloads Changed Its). rewrite Hlen. split; [|done].
    unfold WriteInt32. f_equal. rewrite <- !app_assoc. done.
Qed.

Lemma ChangedPairs_valid client Old Its :
  Forall (fun p => is_Some (At Its (Idx p))) (ChangedPairs client Old 0 Its).
Proof.
  destruct (ChangedPairs_Idx client Old Its 0) as [_ Hall].
  eapply Forall_impl; [exact Hall|]. cbn.
  intros p (k & It & Hi & Hk & _). rewrite Hi, Z.add_0_l, At_lookup. eauto.
Qed.

(** The writing branch when it does not skip: the result in closed form. *)
Lemma FastArrayDeltaSerialize_Save_go H W (OldMap : option (gmap Z Z))
    (Base : Z) Hb NewMap Changed Deleted :
  (OldState (Parms H) = None /\ OldMap = None /\ Base = INDEX_NONE)
  \/ (exists p st,
        OldState (Parms H) = Some p /\ States H !! p = Some st
        /\ OldMap = Some (BaseState.IDToCLMap st)
        /\ Base = BaseState.ArrayReplicationKey st
        /\ ArrayReplicationKey (ArraySerializer H) <> Base) ->
  BuildChangedAndDeletedBuffers H ∅ OldMap [] []
  = (Hb, NewMap, Changed, Deleted) ->
  FastArrayDeltaSerialize_Save H W
  = Some (true,
          mkHelper (Items Hb) (ArraySerializer Hb)
            (set_Writer
               (Some (W ++ DeltaWords
                             (SentDelta
                                (ArrayReplicationKey (ArraySerializer H))
                                Base Deleted Changed (Items Hb))))
               (set_NewState (Some (length (States H))) (Parms H)))
            (States H
             ++ [BaseState.mk NewMap
                   (ArrayReplicationKey (ArraySerializer Hb))])
            (Calls H)).
Proof.
  intros Hcase Hrun.
  pose proof (BuildChangedAndDeletedBuffers_closed H OldMap _ _ _ _ Hrun)
    as (HChg & _).
  unfold FastArrayDeltaSerialize_Save.
  assert (Hfirst :
    match OldState (Parms H) with
    | Some p =>
        Old ← States H !! p;
        let '(b, H0) :=
          ConditionalCreateNewDeltaState H (BaseState.IDToCLMap Old)
            (BaseState.ArrayReplicationKey Old) in
        Some (b, Some (BaseState.IDToCLMap Old),
              BaseState.ArrayReplicationKey Old, H0)
    | None => Some (true, None, INDEX_NONE, H)
    end = Some (true, OldMap, Base, H)).
  { destruct Hcase as [(-> & -> & ->)|(p & st & -> & Hst & -> & -> & Hne)];
      [done|].
    rewrite Hst. cbn [mbind option_bind].
    unfold ConditionalCreateNewDeltaState.
    apply Z.eqb_neq in Hne. by rewrite Hne. }
  rewrite Hfirst. cbn [mbind option_bind negb].
  unfold AllocState, UpdateState.
  cbn [set_Parms set_States set_NewState Items ArraySerializer Parms States
         Calls].
  rewrite alter_last.
  unfold set_States, set_Parms.
  cbn [Items ArraySerializer Parms States Calls].
  rewrite (BuildChangedAndDeletedBuffers_frame H) by done.
  rewrite Hrun.
  cbn [Items ArraySerializer Parms States Calls].
  rewrite !alter_last.
  cbn [BaseState.set_ArrayReplicationKey BaseState.set_IDToCLMap
         BaseState.IDToCLMap BaseState.ArrayReplicationKey BaseState.new].
  assert (Hval : Forall (fun p => is_Some (At (Items Hb) (Idx p))) Changed)
    by (rewrite HChg; apply ChangedPairs_valid).
  pose proof (fun W0 => WriteChanged_loop_spec Changed (Items Hb) W0 Hval)
    as HWC.
  rewrite (proj1 (HWC _)). pose proof (proj2 (HWC [])) as Hlen.
  cbn [mbind option_bind]. do 3 f_equal.
  unfold set_Writer, set_NewState. cbn. f_equal. f_equal.
  rewrite fold_left_WriteInt32. unfold WriteInt32, Num. rewrite Hlen.
  by rewrite <- !app_assoc.
Qed.

(** What a write publishes.  A call of the writing branch never touches a
    state that is already in the store, and makes no callback.  When it
    returns true it has allocated one state, the new state of the call, which
    holds the array key as the walk left it and an entry for exactly the ids
    of the considered items; when no two of them share an id, the entry of
    an id is the key of its item. *)
Theorem FastArrayDeltaSerialize_Save_publishes_a_state H W b H' :
  FastArrayDeltaSerialize_Save H W = Some (b, H') ->
  let client := bIsWritingOnClient (Parms H) in
  (forall p st, States H !! p = Some st -> States H' !! p = Some st)
  /\ Calls H' = Calls H
  /\ (b = true ->
      exists st',
        States H' = States H ++ [st']
        /\ NewState (Parms H') = Some (length (States H))
        /\ BaseState.ArrayReplicationKey st'
           = ArrayReplicationKey (ArraySerializer H')
        /\ (forall id,
              is_Some (BaseState.IDToCLMap st' !! id)
              <-> id ∈ IDs (ConsideredItems client (Items H')))
        /\ (NoDup (IDs (ConsideredItems client (Items H'))) ->
            forall id key,
              BaseState.IDToCLMap st' !! id = Some key
              <-> exists Item,
                    Item ∈ ConsideredItems client (Items H')
                    /\ ReplicationID Item = id
                    /\ ReplicationKey Item = key)).
Proof.
  intros Hsave. cbv zeta.
  destruct (OldState (Parms H)) as [p|] eqn:Hold.
  - destruct (States H !! p) as [st|] eqn:Hst; cycle 1.
    { unfold FastArrayDeltaSerialize_Save in Hsave.
      rewrite Hold, Hst in Hsave. done. }
    destruct (Z.eq_dec (ArrayReplicationKey (ArraySerializer H))
                (BaseState.ArrayReplicationKey st)) as [Heq|Hne].
    + (* the keys match: nothing is written *)
      unfold FastArrayDeltaSerialize_Save in Hsave.
      rewrite Hold, Hst in Hsave. cbn [mbind option_bind] in Hsave.
      rewrite <- Heq in Hsave.
      pose proof (ConditionalCreateNewDeltaState_same_key H
                    (BaseState.IDToCLMap st)) as HC.
      destruct (ConditionalCreateNewDeltaState _ _ _) as [b0 H0].
      rewrite Hold in HC.
      destruct HC as (-> & HI & HCl & HWr & _ & HN & HS).
      cbn in Hsave. inversion Hsave; subst b H'. clear Hsave.
      split; [by rewrite HS|]. split; [done|]. done.
    + destruct (BuildChangedAndDeletedBuffers H ∅
                  (Some (BaseState.IDToCLMap st)) [] [])
        as [[[Hb NewMap] Changed] Deleted] eqn:Hrun.
      rewrite (FastArrayDeltaSerialize_Save_go H W _
                 (BaseState.ArrayReplicationKey st) _ _ _ _
                 ltac:(right; exists p, st; done) Hrun) in Hsave.
      inversion Hsave; subst b H'. clear Hsave.
      cbn [States Calls Parms Items ArraySerializer set_Writer set_NewState
             NewState].
      pose proof (BuildChangedAndDeletedBuffers_closed H _ _ _ _ _ Hrun)
        as (_ & HNew & _).
      cbv zeta in HNew.
      split; [intros q s Hq; by apply lookup_app_l_Some|].
      split; [done|]. intros _. eexists. split; [done|].
      split; [done|]. split; [done|].
      cbn [BaseState.IDToCLMap]. rewrite HNew. split.
      * intros id. rewrite AddKeys_is_Some, lookup_empty. split.
        -- intros [[? ?]|?]; done.
        -- by right.
      * intros Hnd id key. rewrite (AddKeys_lookup _ _ _ _ Hnd). split.
        -- intros [?|[_ HM]]; [done|]. by rewrite lookup_empty in HM.
        -- by left.
  - destruct (BuildChangedAndDeletedBuffers H ∅ None [] [])
      as [[[Hb NewMap] Changed] Deleted] eqn:Hrun.
    rewrite (FastArrayDeltaSerialize_Save_go H W _ INDEX_NONE _ _ _ _
               ltac:(by left) Hrun) in Hsave.
    inversion Hsave; subst b H'. clear Hsave.
    cbn [States Calls Parms Items ArraySerializer set_Writer set_NewState
           NewState].
    pose proof (BuildChangedAndDeletedBuffers_closed H _ _ _ _ _ Hrun)
      as (_ & HNew & _).
    cbv zeta in HNew.
    split; [intros q s Hq; by apply lookup_app_l_Some|].
    split; [done|]. intros _. eexists. split; [done|].
    split; [done|]. split; [done|].
    cbn [BaseState.IDToCLMap]. rewrite HNew. split.
    * intros id. rewrite AddKeys_is_Some, lookup_empty. split.
      -- intros [[? ?]|?]; done.
      -- by right.
    * intros Hnd id key. rewrite (AddKeys_lookup _ _ _ _ Hnd). split.
      -- intros [?|[_ HM]]; [done|]. by rewrite lookup_empty in HM.
      -- by left.
Qed.

(** The entry of the writing branch from the driver, and the state that a
    write that returns true has published. *)
Lemma FastArrayDeltaSerialize_writing H W :
  Writer (Parms H) = Some W ->
  FastArrayDeltaSerialize H = FastArrayDeltaSerialize_Save H W.
Proof.
  intros HW. unfold FastArrayDeltaSerialize, ConditionalRebuildItemMap.
  rewrite HW. rewrite bool_decide_eq_true_2 by eauto.
  cbn [negb andb orb]. by rewrite HW.
Qed.

Lemma FastArrayDeltaSerialize_Save_published H W H1 :
  FastArrayDeltaSerialize_Save H W = Some (true, H1) ->
  exists st,
    States H1 = States H ++ [st]
    /\ NewState (Parms H1) = Some (length (States H))
    /\ BaseState.ArrayReplicationKey st
       = ArrayReplicationKey (ArraySerializer H1).
Proof.
  intros Hsave.
  destruct (OldState (Parms H)) as [p|] eqn:Hold.
  - destruct (States H !! p) as [st|] eqn:Hst; cycle 1.
    { unfold FastArrayDeltaSerialize_Save in Hsave.
      rewrite Hold, Hst in Hsave. done. }
    destruct (Z.eq_dec (ArrayReplicationKey (ArraySerializer H))
                (BaseState.ArrayReplicationKey st)) as [Heq|Hne].
    + unfold FastArrayDeltaSerialize_Save in Hsave.
      rewrite Hold, Hst in Hsave. cbn [mbind option_bind] in Hsave.
      rewrite <- Heq in Hsave.
      pose proof (ConditionalCreateNewDeltaState_same_key H
                    (BaseState.IDToCLMap st)) as HC.
      destruct (ConditionalCreateNewDeltaState _ _ _) as [b0 H0].
      destruct HC as (-> & _). cbn in Hsave. done.
    + destruct (BuildChangedAndDeletedBuffers H ∅
                  (Some (BaseState.IDToCLMap st)) [] [])
        as [[[Hb NewMap] Changed] Deleted] eqn:Hwalk.
      rewrite (FastArrayDeltaSerialize_Save_go H W _
                 (BaseState.ArrayReplicationKey st) _ _ _ _
                 ltac:(right; exists p, st; done) Hwalk) in Hsave.
      inversion Hsave; subst H1. eexists. by cbn.
  - destruct (BuildChangedAndDeletedBuffers H ∅ None [] [])
      as [[[Hb NewMap] Changed] Deleted] eqn:Hwalk.
    rewrite (FastArrayDeltaSerialize_Save_go H W _ INDEX_NONE _ _ _ _
               ltac:(by left) Hwalk) in Hsave.
    inversion Hsave; subst H1. eexists. by cbn.
Qed.

(** Nothing to send after a write.  When a call of [FastArrayDeltaSerialize]
    has written a delta, the next call for the same observer, handed the
    state that was just published, finds the array key unchanged: it
    returns false, writes nothing, leaves the items as they are and hands
    the same state back. *)
Theorem FastArrayDeltaSerialize_twice_writes_once H H1 (W2 : FBitWriter) :
  is_Some (Writer (Parms H)) ->
  FastArrayDeltaSerialize H = Some (true, H1) ->
  exists H2,
    FastArrayDeltaSerialize (NextWrite H1 W2) = Some (false, H2)
    /\ Writer (Parms H2) = Some W2
    /\ Items H2 = Items H1
    /\ NewState (Parms H2) = NewState (Parms H1)
    /\ States H2 = States H1.
Proof.
  intros [W HW] Hrun.
  rewrite (FastArrayDeltaSerialize_writing H W HW) in Hrun.
  destruct (FastArrayDeltaSerialize_Save_published H W H1 Hrun)
    as (st & HS & HN & HK).
  rewrite (FastArrayDeltaSerialize_writing _ W2) by done.
  unfold NextWrite, FastArrayDeltaSerialize_Save.
  cbn [Parms set_Parms OldState States]. rewrite HN, HS.
  rewrite lookup_app_r, Nat.sub_diag by lia. cbn [lookup list_lookup].
  cbn [mbind option_bind]. rewrite HK.
  set (Hn := set_Parms _ H1).
  pose proof (ConditionalCreateNewDeltaState_same_key Hn
                (BaseState.IDToCLMap st)) as HC.
  change (ArrayReplicationKey (ArraySerializer Hn))
    with (ArrayReplicationKey (ArraySerializer H1)) in HC.
  destruct (ConditionalCreateNewDeltaState _ _ _) as [b0 H0].
  cbn [Hn Parms set_Parms OldState Items States Writer] in HC.
  destruct HC as (-> & HI & _ & HWr & _ & HNw & HSt).
  cbn. exists H0. split; [done|]. split; [done|]. split; [done|].
  split; [done|]. by rewrite HSt, HS.
Qed.

(** A write after [MarkArrayDirty].  When a call of
    [FastArrayDeltaSerialize] has written a delta and the array is then
    marked dirty, the next call for the same observer, handed the state that
    was just published, writes again: its delta starts with the new array
    key and, as base key, the array key of the write before. *)
Theorem FastArrayDeltaSerialize_after_MarkArrayDirty H H1 (W2 : FBitWriter) :
  is_Some (Writer (Parms H)) ->
  FastArrayDeltaSerialize H = Some (true, H1) ->
  let Hd := set_ArraySerializer (MarkArrayDirty (ArraySerializer H1)) H1 in
  exists H2 ws,
    FastArrayDeltaSerialize (NextWrite Hd W2) = Some (true, H2)
    /\ Writer (Parms H2)
       = Some (W2 ++ ArrayReplicationKey (ArraySerializer Hd)
                  :: ArrayReplicationKey (ArraySerializer H1) :: ws)
    /\ ArrayReplicationKey (ArraySerializer Hd)
       <> ArrayReplicationKey (ArraySerializer H1).
Proof.
  intros [W HW] Hrun. cbv zeta.
  rewrite (FastArrayDeltaSerialize_writing H W HW) in Hrun.
  destruct (FastArrayDeltaSerialize_Save_published H W H1 Hrun)
    as (st & HS & HN & HK).
  set (Hd := set_ArraySerializer (MarkArrayDirty (ArraySerializer H1)) H1).
  assert (Hne : ArrayReplicationKey (ArraySerializer Hd)
                <> ArrayReplicationKey (ArraySerializer H1)).
  { unfold Hd, MarkArrayDirty. cbn [ArraySerializer set_ArraySerializer].
    exact (IncrementArrayReplicationKey_neq
             (set_ItemMap ∅ (ArraySerializer H1))). }
  rewrite (FastArrayDeltaSerialize_writing _ W2) by done.
  destruct (BuildChangedAndDeletedBuffers (NextWrite Hd W2) ∅
              (Some (BaseState.IDToCLMap st)) [] [])
    as [[[Hb NewMap] Changed] Deleted] eqn:Hwalk.
  rewrite (FastArrayDeltaSerialize_Save_go (NextWrite Hd W2) W2 _
             (BaseState.ArrayReplicationKey st) _ _ _ _
             ltac:(right; exists (length (States H)), st;
                   cbn [NextWrite Parms set_Parms OldState States Hd
                          set_ArraySerializer ArraySerializer];
                   rewrite HN, HS, HK;
                   rewrite lookup_app_r, Nat.sub_diag by lia; done) Hwalk).
  eexists _, _. split; [done|]. split; [|done].
  cbn [Parms Writer set_Writer]. rewrite HK. done.
Qed.

End SaveFacts.

(** A first write of two items. *)
Lemma FastArrayDeltaSerialize_Save_publishes_a_state_witness :
  let H := ExampleHelper [ExampleItem 1 0 INDEX_NONE 10;
                          ExampleItem 2 3 INDEX_NONE 20] ∅ 2
             (WritingParms None) [] in
  exists H',
    @FastArrayDeltaSerialize_Save ExampleItemType H []
    = Some (true, H')
    /\ Writer (Parms H') = Some [2; -1; 0; 2; 1; 10; 2; 20]
    /\ States H' = [BaseState.mk {[ 1 := 0; 2 := 3 ]} 2]
    /\ Calls H' = Calls H.
Proof.
  cbv zeta.
  set (H := ExampleHelper [ExampleItem 1 0 INDEX_NONE 10;
                           ExampleItem 2 3 INDEX_NONE 20] ∅ 2
              (WritingParms None) []).
  destruct (@FastArrayDeltaSerialize_Save ExampleItemType H [])
    as [[b H']|] eqn:Hrun; [|by vm_compute in Hrun].
  pose proof (@FastArrayDeltaSerialize_Save_publishes_a_state
                ExampleItemType H [] b H' Hrun)
    as (_ & HCalls & _).
  vm_compute in Hrun. inversion Hrun; subst b H'.
  eexists. split; [reflexivity|]. split; [by vm_compute|].
  split; [by vm_compute|exact HCalls].
Defined.

(** Two writes in a row for one observer. *)
Lemma FastArrayDeltaSerialize_twice_writes_once_witness :
  let H := ExampleHelper [ExampleItem 1 0 INDEX_NONE 10] ∅ 2
             (WritingParms None) [] in
  exists H1 H2,
    @FastArrayDeltaSerialize ExampleItemType ExampleLimits H = Some (true, H1)
    /\ @FastArrayDeltaSerialize ExampleItemType ExampleLimits
         (NextWrite H1 []) = Some (false, H2)
    /\ Writer (Parms H2) = Some [].
Proof.
  cbv zeta.
  set (H := ExampleHelper [ExampleItem 1 0 INDEX_NONE 10] ∅ 2
              (WritingParms None) []).
  destruct (@FastArrayDeltaSerialize ExampleItemType ExampleLimits H)
    as [[[] H1]|] eqn:Hrun; [|by vm_compute in Hrun..].
  destruct (@FastArrayDeltaSerialize_twice_writes_once ExampleItemType
              ExampleLimits H H1 [] ltac:(by eexists) Hrun)
    as (H2 & Hnext & HW & _).
  exists H1, H2. split; [done|]. split; [exact Hnext|exact HW].
Defined.

(** A write, [MarkArrayDirty], and a second write for the same observer. *)
Lemma FastArrayDeltaSerialize_after_MarkArrayDirty_witness :
  let H := ExampleHelper [ExampleItem 1 0 INDEX_NONE 10] ∅ 2
             (WritingParms None) [] in
  exists H1 H2,
    @FastArrayDeltaSerialize ExampleItemType ExampleLimits H = Some (true, H1)
    /\ @FastArrayDeltaSerialize ExampleItemType ExampleLimits
         (NextWrite
            (set_ArraySerializer (MarkArrayDirty (ArraySerializer H1)) H1) [])
       = Some (true, H2)
    /\ Writer (Parms H2) = Some [3; 2; 0; 0].
Proof.
  cbv zeta.
  set (H := ExampleHelper [ExampleItem 1 0 INDEX_NONE 10] ∅ 2
              (WritingParms None) []).
  destruct (@FastArrayDeltaSerialize ExampleItemType ExampleLimits H)
    as [[[] H1]|] eqn:Hrun; [|by vm_compute in Hrun..].
  destruct (@FastArrayDeltaSerialize_after_MarkArrayDirty ExampleItemType
              ExampleLimits H H1 [] ltac:(by eexists) Hrun)
    as (H2 & ws & Hnext & _ & _).
  exists H1, H2. split; [done|]. split; [exact Hnext|].
  vm_compute in Hrun. inversion Hrun; subst H1. clear Hrun.
  vm_compute in Hnext. inversion Hnext. by vm_compute.
Defined.

(** ** An array that has not changed *)

Section UnchangedArrayFacts.
Context `{T : FastArrayItemType} `{L : FastArrayLimits}.

(** C6 (amended): when the array key equals the key recorded in the base
    state, [ConditionalCreateNewDeltaState] compares no item and changes
    neither the items nor any stored state: an existing old state is handed
    back as the new state (the same object), and without an old state a
    fresh state holding an empty map and the current array key is created.
    The writing branch of [FastArrayDeltaSerialize] consults it only when
    there is an old state: it then returns false with nothing written.
    Without an old state the writing branch returns true, whatever the array
    key: it publishes a new state and writes a delta that starts with the
    array key and the base key [INDEX_NONE]. *)
Theorem unchanged_array_shares_state (H : TFastArraySerializeHelper) :
  (forall OldIDToKeyMap,
     let '(b, H') :=
       ConditionalCreateNewDeltaState H OldIDToKeyMap
         (ArrayReplicationKey (ArraySerializer H)) in
     b = false
     /\ Items H' = Items H
     /\ match OldState (Parms H) with
        | Some p => NewState (Parms H') = Some p /\ States H' = States H
        | None =>
            NewState (Parms H') = Some (length (States H))
            /\ States H'
               = States H
                   ++ [BaseState.mk ∅ (ArrayReplicationKey (ArraySerializer H))]
        end)
  /\ (forall W p Old,
        Writer (Parms H) = Some W ->
        OldState (Parms H) = Some p ->
        States H !! p = Some Old ->
        BaseState.ArrayReplicationKey Old
        = ArrayReplicationKey (ArraySerializer H) ->
        exists H',
          FastArrayDeltaSerialize H = Some (false, H')
          /\ Writer (Parms H') = Some W
          /\ NewState (Parms H') = Some p
          /\ States H' = States H
          /\ Items H' = Items H
          /\ Calls H' = Calls H)
  /\ (forall W,
        Writer (Parms H) = Some W ->
        OldState (Parms H) = None ->
        exists H' ws st,
          FastArrayDeltaSerialize H = Some (true, H')
          /\ Writer (Parms H')
             = Some (W ++ ArrayReplicationKey (ArraySerializer H)
                       :: INDEX_NONE :: ws)
          /\ NewState (Parms H') = Some (length (States H))
          /\ States H' = States H ++ [st]).
Proof.
  split; [|split].
  - intros OldIDToKeyMap.
    pose proof (ConditionalCreateNewDeltaState_same_key H OldIDToKeyMap) as HC.
    destruct (ConditionalCreateNewDeltaState _ _ _) as [b H'].
    by destruct HC as (? & ? & _ & _ & _ & ?).
  - intros W p Old HW Hp HOld Hkey.
    rewrite (FastArrayDeltaSerialize_writing H W HW).
    unfold FastArrayDeltaSerialize_Save.
    rewrite Hp. rewrite HOld. cbn [mbind option_bind].
    rewrite Hkey.
    pose proof (ConditionalCreateNewDeltaState_same_key H
                  (BaseState.IDToCLMap Old)) as HC.
    destruct (ConditionalCreateNewDeltaState _ _ _) as [b H'].
    rewrite Hp in HC. destruct HC as (-> & HI & HCl & HWr & _ & HN & HS).
    cbn. exists H'. by rewrite HWr.
  - intros W HW HN.
    rewrite (FastArrayDeltaSerialize_writing H W HW).
    destruct (BuildChangedAndDeletedBuffers H ∅ None [] [])
      as [[[Hb NewMap] Changed] Deleted] eqn:Hwalk.
    rewrite (FastArrayDeltaSerialize_Save_go H W None INDEX_NONE _ _ _ _
               ltac:(by left) Hwalk).
    eexists _, _, _. split; [done|].
    cbn [Parms Writer set_Writer NewState set_NewState States].
    split; [|done]. unfold DeltaWords, SentDelta.
    cbn [dArrayReplicationKey dBaseReplicationKey app]. done.
Qed.

End UnchangedArrayFacts.

(** An observer whose base state (at address 0) was computed at array key 3
    asks again while the array key is still 3: the state at address 0 is
    shared and nothing is written. *)
Lemma unchanged_array_shares_state_witness :
  let Old := BaseState.mk {[ 7 := 0 ]} 3 in
  let H := ExampleHelper [ExampleItem 7 0 (-1) 42] ∅ 3
             (WritingParms (Some 0%nat)) [Old] in
  exists H',
    @FastArrayDeltaSerialize ExampleItemType ExampleLimits H
    = Some (false, H')
    /\ Writer (Parms H') = Some []
    /\ NewState (Parms H') = Some 0%nat
    /\ States H' = [Old]
    /\ Items H' = Items H
    /\ Calls H' = Calls H.
Proof.
  exact (proj1 (proj2 (@unchanged_array_shares_state ExampleItemType
                         ExampleLimits
                         (ExampleHelper [ExampleItem 7 0 (-1) 42] ∅ 3
                            (WritingParms (Some 0%nat))
                            [BaseState.mk {[ 7 := 0 ]} 3])))
           [] 0%nat (BaseState.mk {[ 7 := 0 ]} 3)
           eq_refl eq_refl eq_refl eq_refl).
Defined.

(** C6 as stated fails without an old base state.  On a first write (array
    key 0) nothing is skipped: the record is written and the state published
    holds its key.  Even when the array key is [INDEX_NONE], the base key
    that the writing branch uses without an old state, so that
    [ConditionalCreateNewDeltaState] on its own would answer false and
    synthesize a trivial state, the serializer does not consult it: it
    writes the record all the same. *)
Lemma first_write_is_never_skipped :
  let H0 := ExampleHelper [ExampleItem 7 0 (-1) 42] ∅ 0
              (WritingParms None) [] in
  let H1 := ExampleHelper [ExampleItem 7 0 (-1) 42] ∅ INDEX_NONE
              (WritingParms None) [] in
  (exists H',
     @FastArrayDeltaSerialize ExampleItemType ExampleLimits H0
     = Some (true, H')
     /\ Writer (Parms H') = Some [0; -1; 0; 1; 7; 42]
     /\ States H' = [BaseState.mk {[ 7 := 0 ]} 0])
  /\ (@ConditionalCreateNewDeltaState ExampleItemType H1 ∅ INDEX_NONE).1
     = false
  /\ States (@ConditionalCreateNewDeltaState ExampleItemType H1 ∅
               INDEX_NONE).2
     = [BaseState.mk ∅ INDEX_NONE]
  /\ (exists H',
        @FastArrayDeltaSerialize ExampleItemType ExampleLimits H1
        = Some (true, H')
        /\ Writer (Parms H') = Some [-1; -1; 0; 1; 7; 42]
        /\ States H' = [BaseState.mk {[ 7 := 0 ]} INDEX_NONE]).
Proof.
  cbv zeta. split; [|split; [|split]].
  - eexists. split; [by vm_compute|]. split; by vm_compute.
  - by vm_compute.
  - by vm_compute.
  - eexists. split; [by vm_compute|]. split; by vm_compute.
Qed.

(** ** A read that fails *)

Section LoadFailureFacts.
Context `{T : FastArrayItemType} `{L : FastArrayLimits}.
Implicit Types H : TFastArraySerializeHelper.

Lemma IDs_SetAt Its (i : Z) Item Item' :
  At Its i = Some Item -> ReplicationID Item' = ReplicationID Item ->
  IDs (SetAt Its i Item') = IDs Its.
Proof.
  intros HAt Hid. apply At_Some in HAt as [H0 Hl].
  unfold IDs, SetAt. rewrite list_fmap_insert. apply list_insert_id.
  by rewrite list_lookup_fmap, Hl, Hid.
Qed.

(** One element read: what it cannot touch. *)
Lemma ReadChanged_step_frame Hdr H R Chg Add b H1 R1 Chg1 Add1 :
  ReadChanged_step Hdr H R Chg Add = Some (b, H1, R1, Chg1, Add1) ->
  Calls H1 = Calls H /\ States H1 = States H /\ Parms H1 = Parms H
  /\ ArraySerializer H1
     = set_ItemMap (ItemMap (ArraySerializer H1)) (ArraySerializer H)
  /\ IDs (Items H) `prefix_of` IDs (Items H1)
  /\ (b = false -> ArIsError R1 = true).
Proof.
  unfold ReadChanged_step. destruct (ReadInt32 R) as [ElementID R0].
  destruct (ItemMap (ArraySerializer H) !! ElementID) as [idx|] eqn:HM.
  - destruct (At (Items H) idx) as [It|] eqn:HAt; [|done].
    cbn [mbind option_bind]. rewrite HAt. cbn [mbind option_bind].
    destruct (NetSerializeStruct_Load R0 _) as [Data R2].
    intros Heq. inversion Heq; subst. clear Heq.
    cbn [Calls States Parms ArraySerializer Items set_Items].
    split; [done|]. split; [done|]. split; [done|].
    split; [by destruct (ArraySerializer H)|]. split.
    + by rewrite (IDs_SetAt _ _ It).
    + by intros ->%negb_false_iff.
  - cbn [mbind option_bind Items set_Items set_ArraySerializer].
    set (Its1 := Items H ++ [set_ReplicationID ElementID new_Item]).
    destruct (At Its1 (Num Its1 - 1)) as [It|] eqn:HAt; [|done].
    cbn [mbind option_bind].
    destruct (NetSerializeStruct_Load R0 _) as [Data R2].
    intros Heq. inversion Heq; subst. clear Heq.
    cbn [Calls States Parms ArraySerializer Items set_Items
           set_ArraySerializer].
    split; [done|]. split; [done|]. split; [done|].
    split; [by destruct (ArraySerializer H)|]. split.
    + rewrite (IDs_SetAt _ _ It) by done.
      unfold Its1, IDs. rewrite fmap_app. by apply prefix_app_r.
    + by intros ->%negb_false_iff.
Qed.

Lemma ReadChanged_loop_frame Hdr n :
  forall H R Chg Add b H1 R1 Chg1 Add1,
    ReadChanged_loop n Hdr H R Chg Add = Some (b, H1, R1, Chg1, Add1) ->
    Calls H1 = Calls H /\ States H1 = States H /\ Parms H1 = Parms H
    /\ ArraySerializer H1
       = set_ItemMap (ItemMap (ArraySerializer H1)) (ArraySerializer H)
    /\ IDs (Items H) `prefix_of` IDs (Items H1)
    /\ (b = false -> ArIsError R1 = true).
Proof.
  induction n as [|n IH]; intros H R Chg Add b H1 R1 Chg1 Add1 Heq;
    cbn [ReadChanged_loop] in Heq.
  - inversion Heq; subst. split; [done|]. split; [done|]. split; [done|].
    split; [by destruct (ArraySerializer H1)|]. done.
  - destruct (ReadChanged_step Hdr H R Chg Add)
      as [[[[[[] H2] R2] Chg2] Add2]|] eqn:Hstep; [| |done].
    + apply ReadChanged_step_frame in Hstep
        as (HC & HS & HP & HA & Hpre & _).
      apply IH in Heq as (HC' & HS' & HP' & HA' & Hpre' & Herr).
      split; [congruence|]. split; [congruence|]. split; [congruence|].
      split; [|split; [by etrans|done]].
      rewrite HA'. rewrite HA. by destruct (ArraySerializer H).
    + inversion Heq; subst. by apply ReadChanged_step_frame in Hstep.
Qed.

(** A read that fails makes no callback.  When the reading branch returns
    false (a header over the limits, or a payload the decoder rejects), no
    callback has been made, the array key, the id counter and the stored
    states are as before, and the reader is left flagged in error.  The
    collection is not rolled back: the items that were there keep their
    places and ids, and the elements read before the failure stay in the
    array. *)
Theorem FastArrayDeltaSerialize_Load_failure H R H' :
  FastArrayDeltaSerialize_Load H R = Some (false, H') ->
  Calls H' = Calls H
  /\ States H' = States H
  /\ ArrayReplicationKey (ArraySerializer H')
     = ArrayReplicationKey (ArraySerializer H)
  /\ IDCounter (ArraySerializer H') = IDCounter (ArraySerializer H)
  /\ IDs (Items H) `prefix_of` IDs (Items H')
  /\ exists R', Reader (Parms H') = Some R' /\ ArIsError R' = true.
Proof.
  unfold FastArrayDeltaSerialize_Load.
  destruct (ReadDeltaHeader H Header.empty R) as [[ok Hdr] R0] eqn:Hhdr.
  destruct ok; cbn [negb].
  - destruct (ReadChanged_loop _ Hdr H R0 [] [])
      as [[[[[ok H1] R1] Chg] Add]|] eqn:Hloop; [|done].
    cbn [mbind option_bind]. destruct ok; cbn [negb].
    + destruct (PostReceiveCleanup H1 Hdr Chg Add); done.
    + intros Heq. inversion Heq; subst H'. clear Heq.
      apply ReadChanged_loop_frame in Hloop
        as (HC & HS & HP & HA & Hpre & Herr).
      cbn [Calls States ArraySerializer Items Parms set_Parms set_Reader
             Reader].
      split; [done|]. split; [done|]. rewrite HA.
      split; [done|]. split; [done|]. split; [done|].
      exists R1. split; [done|]. by apply Herr.
  - intros Heq. inversion Heq; subst H'. clear Heq.
    cbn [Calls States ArraySerializer Items Parms set_Parms set_Reader
           Reader].
    split; [done|]. split; [done|]. split; [done|]. split; [done|].
    split; [done|]. exists R0. split; [done|].
    unfold ReadDeltaHeader in Hhdr.
    repeat (destruct (ReadInt32 _) as [? ?]).
    destruct (_ <? _); [by inversion Hhdr|].
    destruct (_ <? _); [by inversion Hhdr|].
    destruct (ReadDeleted_loop _ _ _ _). by inversion Hhdr.
Qed.

End LoadFailureFacts.

(** A delta that announces two changed elements and is cut off after the
    first: the first element stays, the read of the second leaves an element
    with id 0 behind, and no callback is made. *)
Lemma FastArrayDeltaSerialize_Load_failure_witness :
  let H := ExampleHelper [ExampleItem 7 0 1 40] {[ 7 := 0 ]} 3
             (ReadingParms [] false) [] in
  exists H',
    @FastArrayDeltaSerialize_Load ExampleItemType ExampleLimits H
      (mkReader [9; 5; 0; 2; 8; 41] false) = Some (false, H')
    /\ Calls H' = []
    /\ ArrayReplicationKey (ArraySerializer H') = 3
    /\ IDs (Items H') = [7; 8; 0].
Proof.
  cbv zeta.
  set (H := ExampleHelper [ExampleItem 7 0 1 40] {[ 7 := 0 ]} 3
              (ReadingParms [] false) []).
  destruct (@FastArrayDeltaSerialize_Load ExampleItemType ExampleLimits H
              (mkReader [9; 5; 0; 2; 8; 41] false))
    as [[[] H']|] eqn:Hrun; [by vm_compute in Hrun| |by vm_compute in Hrun].
  destruct (@FastArrayDeltaSerialize_Load_failure ExampleItemType
              ExampleLimits H _ H' Hrun) as (HC & _ & HK & _).
  exists H'. split; [done|]. split; [exact HC|]. split; [exact HK|].
  vm_compute in Hrun. inversion Hrun. by vm_compute.
Defined.

(** ** From the writer to the reader *)

Section RoundTripFacts.
Context `{T : FastArrayItemType} `{L : FastArrayLimits}.
Implicit Types H : TFastArraySerializeHelper.

Lemma DecodesTo_Decodes ws d : DecodesTo ws d -> Decodes ws.
Proof. intros Hd Rest Data. by rewrite Hd. Qed.

(** What the changed elements of the walk put on the wire. *)
Lemma ChangedPayloads_ChangedPairs client Old Rest :
  forall Pre,
    ChangedPayloads (ChangedPairs client Old (Z.of_nat (length Pre)) Rest)
      (Pre ++ Rest)
    = WireEntry <$> ChangedItems client Old Rest.
Proof.
  induction Rest as [|It Rest IH]; intros Pre; [done|].
  cbn [ChangedPairs]. unfold ChangedItems. rewrite filter_cons.
  specialize (IH (Pre ++ [It])).
  rewrite length_app in IH. cbn [length] in IH.
  replace (Z.of_nat (length Pre + 1)) with (Z.of_nat (length Pre) + 1)
    in IH by lia.
  rewrite <- app_assoc in IH. cbn [app] in IH.
  destruct (ShouldWriteFastArrayItem It client) eqn:Hs.
  - destruct (decide (Old !! ReplicationID It = Some (ReplicationKey It)))
      as [He|Hne].
    + rewrite decide_False by (intros [_ ?]; done). cbn [app]. apply IH.
    + rewrite decide_True by done. cbn [app ChangedPayloads omap list_omap Idx ID].
      rewrite At_lookup, list_lookup_middle by done.
      cbn [mbind option_bind]. rewrite fmap_cons. f_equal. apply IH.
  - rewrite decide_False by (intros [? _]; done). cbn [app]. apply IH.
Qed.

(** The payloads that the loop of the reading branch leaves in the array. *)
Lemma ReadChanged_loop_data Hdr (chg : list (Z * list Z)) (ds : list Payload) :
  Forall2 (fun e d => DecodesTo e.2 d) chg ds ->
  forall H Rest Chg Add H' R' Chg' Add',
    DistinctIDs (Items H) ->
    ItemMapConsistent (Items H) (ItemMap (ArraySerializer H)) ->
    INDEX_NONE ∉ chg.*1 -> NoDup chg.*1 ->
    Forall (fun i => IsValidIndex (Items H) i = true) Chg ->
    Forall (fun i => IsValidIndex (Items H) i = true) Add ->
    ReadChanged_loop (length chg) Hdr H
      (mkReader (flat_map (fun e => e.1 :: e.2) chg ++ Rest) false) Chg Add
    = Some (true, H', R', Chg', Add') ->
    Forall2 (fun e d => exists Item',
                          Item' ∈ Items H' /\ ReplicationID Item' = e.1
                          /\ ItemData Item' = d) chg ds.
Proof.
  induction 1 as [|[id ws] d chg ds Hws Hall IH];
    intros H Rest Chg Add H' R' Chg' Add' Hd Hc Hns Hnd HChg HAdd Hloop;
    [constructor|].
  cbn [fst snd] in Hws. pose proof (DecodesTo_Decodes _ _ Hws) as Hdec.
  rewrite fmap_cons in Hns, Hnd. cbn [fst] in Hns, Hnd.
  apply not_elem_of_cons in Hns as [Hne Hns].
  apply NoDup_cons in Hnd as [Hnin Hnd].
  cbn [length ReadChanged_loop flat_map fst snd] in Hloop.
  rewrite <- !app_assoc in Hloop. cbn [app] in Hloop.
  assert (Hdecs : Forall (fun e : Z * list Z => Decodes e.2) chg).
  { clear -Hall. induction Hall as [|e d' chg ds He Hall IH]; constructor;
      [by eapply DecodesTo_Decodes|done]. }
  (* the helper after the first element, and where the element is *)
  assert (Hstep : exists H1 Chg1 Add1 (k : nat) It1,
    ReadChanged_loop (length chg) Hdr H1
      (mkReader (flat_map (fun e => e.1 :: e.2) chg ++ Rest) false)
      Chg1 Add1 = Some (true, H', R', Chg', Add')
    /\ DistinctIDs (Items H1)
    /\ ItemMapConsistent (Items H1) (ItemMap (ArraySerializer H1))
    /\ Forall (fun i => IsValidIndex (Items H1) i = true) Chg1
    /\ Forall (fun i => IsValidIndex (Items H1) i = true) Add1
    /\ Items H1 !! k = Some It1
    /\ ReplicationID It1 = id /\ ItemData It1 = d).
  { destruct (ItemMap (ArraySerializer H) !! id) as [idx|] eqn:HM.
    - pose proof (proj1 (Hc id idx) HM) as (k & Item & -> & Hk & Hid).
      rewrite (ReadChanged_step_found Hdr H id ws _ Chg Add k Item Hdec HM Hk)
        in Hloop.
      rewrite Hws in Hloop. cbn [fst] in Hloop.
      pose proof (ChangedRead_found (Header.ArrayReplicationKey Hdr) H k Item
                    d Hd Hc Hk) as (_ & Hd1 & Hc1 & _).
      pose proof (lookup_lt_Some _ _ _ Hk) as Hlt.
      eexists _, _, _, k, _. split; [exact Hloop|].
      cbn [Items set_Items].
      split; [done|]. split; [done|]. split; [|split; [|split]].
      + apply Forall_app. split.
        * eapply Forall_impl; [exact HChg|]. intros i.
          apply IsValidIndex_mono. by rewrite length_insert.
        * apply Forall_singleton. apply IsValidIndex_spec.
          rewrite Nat2Z.id, length_insert. lia.
      + eapply Forall_impl; [exact HAdd|]. intros i.
        apply IsValidIndex_mono. by rewrite length_insert.
      + by apply list_lookup_insert_eq.
      + done.
    - assert (Hni : id ∉ IDs (Items H)).
      { intros Hin.
        destruct (ItemMapConsistent_lookup_is_Some _ _ _ Hc Hin)
          as (? & ? & ? & _). congruence. }
      rewrite (ReadChanged_step_new Hdr H id ws _ Chg Add Hdec HM) in Hloop.
      rewrite Hws in Hloop. cbn [fst] in Hloop.
      pose proof (ChangedRead_new (Header.ArrayReplicationKey Hdr) H id d
                    Hd Hc (not_eq_sym Hne) Hni) as (_ & Hd1 & Hc1 & _).
      eexists _, _, _, (length (Items H)), _. split; [exact Hloop|].
      cbn [Items set_Items set_ArraySerializer ArraySerializer].
      split; [done|]. split; [done|]. split; [|split; [|split]].
      + eapply Forall_impl; [exact HChg|]. intros i.
        apply IsValidIndex_mono. rewrite length_app. lia.
      + apply Forall_app. split.
        * eapply Forall_impl; [exact HAdd|]. intros i.
          apply IsValidIndex_mono. rewrite length_app. lia.
        * apply Forall_singleton. apply IsValidIndex_spec.
          unfold Num. rewrite Nat2Z.id, length_app. cbn. lia.
      + by rewrite lookup_app_r, Nat.sub_diag by lia.
      + done. }
  destruct Hstep as (H1 & Chg1 & Add1 & k & It1 & Hloop1 & Hd1 & Hc1 & HChg1
                     & HAdd1 & Hk1 & Hid1 & Hdata1).
  constructor.
  - (* the first element is not touched by the others *)
    destruct (ReadChanged_loop_spec Hdr chg H1 Rest Chg1 Add1 Hd1 Hc1 Hns
                Hdecs HChg1 HAdd1)
      as (H'' & Chg'' & Add'' & Heq & HCR & _).
    rewrite Hloop1 in Heq. inversion Heq; subst H''. clear Heq.
    destruct HCR as (_ & _ & _ & Hpre & _).
    destruct (Hpre k It1 Hk1) as (It' & Hk' & _ & _ & Hsame).
    exists It1. cbn [fst]. split; [|done].
    rewrite <- (Hsame ltac:(by rewrite Hid1)).
    by eapply list_elem_of_lookup_2.
  - exact (IH H1 Rest Chg1 Add1 H' R' Chg' Add' Hd1 Hc1 Hns Hnd HChg1 HAdd1
             Hloop1).
Qed.

(** The reading branch on a well-formed delta whose payloads decode, up to
    the call of [PostReceiveCleanup]. *)
Lemma ReceiveWords_run_data H (D : Delta) (ds : list Payload) :
  ReceiverOK H -> WellFormedDelta D -> NoDup (ChangedIDs D) ->
  Forall2 (fun e d => DecodesTo e.2 d) (dChanged D) ds ->
  exists M0 Hm Chg Add,
    let Hr :=
      set_ArraySerializer (set_ItemMap M0 (ArraySerializer H))
        (set_Parms
           (set_Reader (Some (mkReader (DeltaWords D) false)) (Parms H)) H) in
    let Hdr := DeltaHeader D (omap (fun id => M0 !! id) (dDeleted D)) in
    ItemMapConsistent (Items H) M0
    /\ ChangedRead (dArrayReplicationKey D) (ChangedIDs D) Hr Hm
    /\ Forall (fun i => IsValidIndex (Items Hm) i = true) Chg
    /\ Forall (fun i => IsValidIndex (Items Hm) i = true) Add
    /\ Forall2 (fun e d => exists Item',
                             Item' ∈ Items Hm /\ ReplicationID Item' = e.1
                             /\ ItemData Item' = d) (dChanged D) ds
    /\ ReceiveWords H (DeltaWords D)
       = (H' ← PostReceiveCleanup Hm Hdr Chg Add;
          Some (true,
                set_Parms (set_Reader (Some (mkReader [] false)) (Parms H'))
                  H')).
Proof.
  intros HOK HWF HndC Hds.
  set (H0 := set_Parms
               (set_Reader (Some (mkReader (DeltaWords D) false)) (Parms H))
               H).
  assert (HOK0 : ReceiverOK H0).
  { destruct HOK as (HW & Hd & Hu). by split. }
  destruct (ConditionalRebuildItemMap_consistent H0 HOK0) as (M0 & Hreb & Hc0).
  cbn [Items ArraySerializer H0 set_Parms] in Hc0.
  set (Hr := set_ArraySerializer (set_ItemMap M0 (ArraySerializer H)) H0).
  change (ConditionalRebuildItemMap false H0 = Hr) in Hreb.
  pose proof HWF as (Hdel & Hchg & Hnd & Hdisj & Hns & Hdec).
  destruct (ReadChanged_loop_spec
              (DeltaHeader D (omap (fun id => M0 !! id) (dDeleted D)))
              (dChanged D) Hr [] [] [])
    as (Hm & Chg & Add & Hloop & HCR & HChg & HAdd & Hadd);
    [by destruct HOK as (_ & ? & _)|done|done|done|done|done|].
  pose proof (ReadChanged_loop_data _ _ _ Hds Hr [] [] [] _ _ _ _
                ltac:(by destruct HOK as (_ & ? & _)) Hc0 Hns HndC
                ltac:(constructor) ltac:(constructor) Hloop) as Hdata.
  rewrite app_nil_r in Hloop.
  exists M0, Hm, Chg, Add. cbv zeta. fold H0. fold Hr.
  split; [done|]. split; [done|]. split; [done|]. split; [done|].
  split; [done|].
  unfold ReceiveWords. fold H0. unfold FastArrayDeltaSerialize.
  rewrite Hreb.
  assert (HWr : Writer (Parms Hr) = None) by (by destruct HOK).
  rewrite HWr. cbn [Reader Parms Hr H0 set_ArraySerializer set_Parms set_Reader
                      mbind option_bind].
  unfold FastArrayDeltaSerialize_Load.
  rewrite (ReadDeltaHeader_spec _ D HWF).
  cbn [negb ItemMap ArraySerializer set_ArraySerializer set_ItemMap].
  change (Header.NumChanged (DeltaHeader D _)) with (Num (dChanged D)).
  unfold Num at 1. rewrite Nat2Z.id.
  fold H0. fold Hr. change (ItemMap (ArraySerializer Hr)) with M0.
  rewrite Hloop. cbn [mbind option_bind negb].
  by destruct (PostReceiveCleanup _ _ _ _).
Qed.

(** What a receiver in order holds once it has read a well-formed delta
    whose payloads decode, when no item of it is in the range of the
    implicit deletes. *)
Lemma ReceiveWords_result H (D : Delta) (ds : list Payload) :
  ReceiverOK H -> WellFormedDelta D -> NoDup (ChangedIDs D) ->
  Forall2 (fun e d => DecodesTo e.2 d) (dChanged D) ds ->
  (bInternalAck (Parms H) = true
   \/ forall Item, Item ∈ Items H ->
                   MostRecentArrayReplicationKey Item
                   <= dBaseReplicationKey D) ->
  exists H1,
    ReceiveWords H (DeltaWords D) = Some (true, H1)
    /\ ReceiverOK H1
    /\ (forall id,
          id ∈ IDs (Items H1)
          <-> (id ∈ IDs (Items H) \/ id ∈ ChangedIDs D) /\ id ∉ dDeleted D)
    /\ (forall Item1,
          Item1 ∈ Items H1 ->
          (ReplicationID Item1 ∉ ChangedIDs D -> Item1 ∈ Items H)
          /\ (forall (i : nat) e d,
                dChanged D !! i = Some e -> ds !! i = Some d ->
                e.1 = ReplicationID Item1 ->
                ItemData Item1 = d
                /\ MostRecentArrayReplicationKey Item1
                   = dArrayReplicationKey D)).
Proof.
  intros HOK HWF HndC Hds HNI.
  destruct (ReceiveWords_run_data H D ds HOK HWF HndC Hds)
    as (M0 & Hm & Chg & Add & Hc0 & HCR & HChg & HAdd & Hdata & Hrun).
  cbv zeta in *.
  set (Hdr := DeltaHeader D (omap (fun id => M0 !! id) (dDeleted D))) in *.
  set (Hr := set_ArraySerializer _ _) in *.
  destruct HCR as ((HP & HS & HC & HA) & Hdm & Hcm & Hpre & Hst & Hnew
                   & Hcov & _).
  change (Items Hr) with (Items H) in *.
  pose proof HWF as (_ & _ & Hnd & Hdisj & Hns & _).
  pose proof HOK as (HW & Hd0 & _).
  pose proof (PostReceiveCleanup_spec Hm Hdr Chg Add HAdd HChg) as Hspec.
  cbv zeta in Hspec. rewrite Hspec in Hrun. cbn [mbind option_bind] in Hrun.
  set (Dfin := Header.DeletedIndices (FindImplicitDeletes Hm Hdr)) in *.
  destruct (RemoveAll_Sort_survivors (Items Hm) Dfin)
    as (Kept & Hsurv & Hnot & Hkeep).
  assert (HndD : NoDup Dfin).
  { apply FindImplicitDeletes_NoDup. cbn.
    apply NoDup_omap_inj; [done|].
    intros x y v _ _ Hx Hy.
    exact (ItemMapConsistent_inj _ _ _ _ _ Hc0 Hx Hy). }
  specialize (Hkeep HndD).
  pose proof Hsurv as [HndK HF].
  assert (Hfrom : forall x, x ∈ RemoveAll (reverse (Sort Dfin)) (Items Hm) ->
            exists p : nat, Items Hm !! p = Some x /\ Z.of_nat p ∉ Dfin).
  { intros x Hx. apply list_elem_of_lookup in Hx as [a Ha].
    destruct (Forall2_lookup_l _ _ _ _ _ HF Ha) as (p & Hp & Hpx).
    exists p. split; [done|]. apply Hnot. by eapply list_elem_of_lookup_2. }
  assert (Hto : forall (p : nat) x, Items Hm !! p = Some x ->
            Z.of_nat p ∉ Dfin ->
            x ∈ RemoveAll (reverse (Sort Dfin)) (Items Hm)).
  { intros p x Hp Hni.
    assert (Hin : p ∈ Kept).
    { apply Hkeep; [|done]. by eapply lookup_lt_Some. }
    apply list_elem_of_lookup in Hin as [a Ha].
    destruct (Forall2_lookup_r _ _ _ _ _ HF Ha) as (y & Hy & Hpy).
    assert (y = x) by congruence. subst y.
    by eapply list_elem_of_lookup_2. }
  (* an item that the delta does not list is the receiver's own *)
  assert (Hown : forall (p : nat) x, Items Hm !! p = Some x ->
            ReplicationID x ∉ ChangedIDs D -> Items H !! p = Some x).
  { intros p x Hp Hni.
    destruct (decide (length (Items H) <= p)%nat) as [Hge|Hlt].
    { exfalso. apply Hni. by eapply Hnew. }
    destruct (lookup_lt_is_Some_2 (Items H) p ltac:(lia)) as [y Hy].
    destruct (Hpre p y Hy) as (x' & Hp' & Hid' & _ & Hsame).
    assert (x' = x) by congruence. subst x'.
    rewrite Hy. f_equal. symmetry. apply Hsame. by rewrite <- Hid'. }
  (* the deleted indices are those of the deleted ids *)
  assert (HDfin : forall (p : nat) x, Items Hm !! p = Some x ->
            (Z.of_nat p ∈ Dfin <-> ReplicationID x ∈ dDeleted D)).
  { intros p x Hp. split.
    - intros Hin. apply FindImplicitDeletes_elem_of in Hin
        as [Hin|[Hack (j & y & Hj & Heq & Hr1 & Hr2)]].
      + cbn in Hin. apply list_elem_of_omap in Hin as (d & Hd & HMd).
        apply Hc0 in HMd as (k & y & Heq & Hk & Hy).
        apply Nat2Z.inj in Heq as <-.
        destruct (Hpre p y Hk) as (y' & Hp' & Hid' & _).
        assert (y' = x) by congruence. subst y'. congruence.
      + exfalso. apply Nat2Z.inj in Heq as <-.
        assert (y = x) by congruence. subst y. cbn in Hr1, Hr2.
        destruct (decide (ReplicationID x ∈ ChangedIDs D)) as [Hc|Hc].
        * pose proof (Hst p x Hp Hc). lia.
        * pose proof (Hown p x Hp Hc) as Hx.
          destruct HNI as [Hack'|HNI]; [rewrite HP in Hack; cbn in Hack;
                                        congruence|].
          pose proof (HNI x (list_elem_of_lookup_2 _ _ _ Hx)). lia.
    - intros Hd. apply FindImplicitDeletes_elem_of. left. cbn.
      apply list_elem_of_omap. exists (ReplicationID x). split; [done|].
      assert (Hdc : ReplicationID x ∉ ChangedIDs D) by (by apply Hdisj).
      pose proof (Hown p x Hp Hdc) as Hx.
      apply Hc0. by exists p, x. }
  eexists. split; [exact Hrun|].
  cbn [Items Parms ArraySerializer set_Parms set_Reader].
  split; [|split].
  - (* the receiver stays in order *)
    unfold ReceiverOK, ItemMapUsable.
    cbn [Items Parms ArraySerializer set_Parms set_Reader Writer].
    split; [by rewrite HP|]. split; [by eapply Survivors_DistinctIDs|].
    destruct (0 <? Num Dfin) eqn:HD.
    + cbn [ItemMap set_ItemMap].
      destruct (RemoveAll (reverse (Sort Dfin)) (Items Hm)) as [|x l];
        [right; apply ItemMapConsistent_empty|left].
      rewrite map_size_empty. unfold Num. cbn. lia.
    + right. assert (HDnil : Dfin = []).
      { apply Z.ltb_ge in HD. unfold Num in HD.
        destruct Dfin; [done|]. cbn [length] in HD. lia. }
      rewrite HDnil, Sort_nil. cbn [reverse RemoveAll].
      change (reverse []) with (@nil Z). cbn [RemoveAll].
      by destruct (_ || _).
  - (* the ids *)
    intros id. split.
    + intros Hin. apply elem_of_IDs in Hin as (a & x & Ha & Hx).
      destruct (Hfrom x (list_elem_of_lookup_2 _ _ _ Ha)) as (p & Hp & Hni).
      split.
      * destruct (decide (id ∈ ChangedIDs D)) as [?|Hc]; [by right|left].
        rewrite <- Hx in Hc. pose proof (Hown p x Hp Hc) as Hx'.
        apply elem_of_IDs. eauto.
      * intros Hd. apply Hni. apply (HDfin p x Hp). by rewrite Hx.
    + intros [Hin Hnd'].
      assert (Hpos : exists (p : nat) x,
                Items Hm !! p = Some x /\ ReplicationID x = id).
      { destruct Hin as [Hin|Hin].
        - apply elem_of_IDs in Hin as (k & y & Hk & Hy).
          destruct (Hpre k y Hk) as (x & Hp & Hid & _).
          exists k, x. split; [done|congruence].
        - apply elem_of_IDs. by apply Hcov. }
      destruct Hpos as (p & x & Hp & Hx).
      assert (Hni : Z.of_nat p ∉ Dfin).
      { intros HD. apply (HDfin p x Hp) in HD. by rewrite Hx in HD. }
      pose proof (Hto p x Hp Hni) as Hx'.
      apply list_elem_of_lookup in Hx' as [a Ha].
      apply elem_of_IDs. eauto.
  - (* the items *)
    intros x Hx. destruct (Hfrom x Hx) as (p & Hp & Hni). split.
    + intros Hc. eapply list_elem_of_lookup_2. by apply Hown.
    + intros i e d He Hdi Hid.
      destruct (Forall2_lookup_lr _ _ _ _ _ _ Hdata He Hdi)
        as (x' & Hx'in & Hx'id & Hx'd).
      apply list_elem_of_lookup in Hx'in as [q Hq].
      assert (q = p).
      { eapply (DistinctIDs_inj (Items Hm)); [done..|congruence]. }
      subst q. assert (x' = x) by congruence. subst x'.
      split; [done|]. apply (Hst p x Hp). rewrite <- Hid.
      unfold ChangedIDs. apply list_elem_of_fmap. exists e.
      split; [done|]. by eapply list_elem_of_lookup_2.
Qed.

(** The deleted ids of a walk, when no two considered items share an id
    after it. *)
Lemma BuildChangedAndDeletedBuffers_Deleted H (Old : gmap Z Z)
    Hb NewMap Changed Deleted :
  Z.of_nat (size Old) <= INT32_MAX ->
  BuildChangedAndDeletedBuffers H ∅ (Some Old) [] []
  = (Hb, NewMap, Changed, Deleted) ->
  NoDup (IDs (ConsideredItems (bIsWritingOnClient (Parms H)) (Items Hb))) ->
  Deleted
  = filter (fun k => k ∉ IDs (ConsideredItems (bIsWritingOnClient (Parms H))
                                (Items Hb)))
      (map_to_list Old).*1.
Proof.
  intros Hold Hrun Hnd. unfold BuildChangedAndDeletedBuffers in Hrun.
  destruct (BuildChanged H ∅ (Some Old) []) as [Items' B] eqn:Hloop.
  inversion Hrun; subst Hb NewMap Changed Deleted. clear Hrun.
  cbn [Items set_ArraySerializer set_Items] in *.
  by apply BuildDeleted_closed.
Qed.

(** A walk over items that all have an id changes neither the items nor the
    serializer. *)
Lemma BuildChangedAndDeletedBuffers_assigned H (OldMap : option (gmap Z Z))
    Hb NewMap Changed Deleted :
  BuildChangedAndDeletedBuffers H ∅ OldMap [] []
  = (Hb, NewMap, Changed, Deleted) ->
  INDEX_NONE ∉ IDs (Items H) ->
  Items Hb = Items H /\ ArraySerializer Hb = ArraySerializer H
  /\ ConsideredItems (bIsWritingOnClient (Parms H)) (Items H) = Items H.
Proof.
  intros Hrun Hns.
  assert (Hall : Forall (fun Item => ReplicationID Item <> INDEX_NONE)
                   (Items H)).
  { apply Forall_forall. intros x Hx Heq. apply Hns.
    apply list_elem_of_fmap. by exists x. }
  destruct (BuildChangedAndDeletedBuffers_closed H OldMap _ _ _ _ Hrun)
    as (_ & _ & Hlen & Hsame & Hser).
  split; [|split].
  - apply list_eq_same_length with (length (Items H)); [done..|].
    intros k x y Hk Hx Hy. apply (Hsame k y x Hy Hx).
    exact (proj1 (Forall_lookup _ _) Hall k y Hy).
  - by apply Hser.
  - apply filter_all. eapply Forall_impl; [exact Hall|]. cbn.
    intros x Hx. unfold ShouldWriteFastArrayItem.
    apply Z.eqb_neq in Hx. rewrite Hx. by rewrite orb_true_r.
Qed.

Lemma IDs_WireEntry Its : (WireEntry <$> Its).*1 = IDs Its.
Proof. unfold IDs. rewrite <- list_fmap_compose. done. Qed.

(** A delta replicates the array.  A sender whose items all have an id of
    their own writes a delta against an old map (none on the first write);
    the words go to a receiver in order that holds exactly the ids of the
    old map and no item newer than the base key.  When the ids to delete and
    the items to send are within the limits of the reader and the payload
    codec round-trips, the read succeeds, the receiver is in
    order again and holds exactly the ids of the sender's items; an item
    whose key the old map holds is the receiver's own untouched item, and
    any other item has the payload of the sender's item with that id and is
    stamped with the sender's array key. *)
Theorem FastArrayDeltaSerialize_replicates_the_array Hs Hr
    (Old : gmap Z Z) (Base : Z) :
  CodecRoundTrips ->
  Writer (Parms Hs) = Some [] ->
  (OldState (Parms Hs) = None /\ Old = ∅ /\ Base = INDEX_NONE)
  \/ (exists p,
        OldState (Parms Hs) = Some p
        /\ States Hs !! p = Some (BaseState.mk Old Base)
        /\ ArrayReplicationKey (ArraySerializer Hs) <> Base) ->
  DistinctIDs (Items Hs) ->
  Z.of_nat (size Old) <= INT32_MAX ->
  Num (MissingIDs Old (Items Hs)) <= MaxNumberOfAllowedDeletionsPerUpdate ->
  Num (ChangedItems (bIsWritingOnClient (Parms Hs)) Old (Items Hs))
  <= MaxNumberOfAllowedChangesPerUpdate ->
  ReceiverOK Hr ->
  (forall id, id ∈ IDs (Items Hr) <-> is_Some (Old !! id)) ->
  (bInternalAck (Parms Hr) = true
   \/ forall Item, Item ∈ Items Hr ->
                   MostRecentArrayReplicationKey Item <= Base) ->
  exists Hs' W Hr',
    FastArrayDeltaSerialize Hs = Some (true, Hs')
    /\ Writer (Parms Hs') = Some W
    /\ ReceiveWords Hr W = Some (true, Hr')
    /\ ReceiverOK Hr'
    /\ (forall id, id ∈ IDs (Items Hr') <-> id ∈ IDs (Items Hs))
    /\ (forall ItemS ItemR,
          ItemS ∈ Items Hs -> ItemR ∈ Items Hr' ->
          ReplicationID ItemR = ReplicationID ItemS ->
          if decide (Old !! ReplicationID ItemS = Some (ReplicationKey ItemS))
          then ItemR ∈ Items Hr
          else ItemData ItemR = ItemData ItemS
               /\ MostRecentArrayReplicationKey ItemR
                  = ArrayReplicationKey (ArraySerializer Hs)).
Proof.
  intros Hcodec HW Hcase [HndS HnsS] Hold32 HoldMax Hmax HOK Hsync HNI.
  set (client := bIsWritingOnClient (Parms Hs)).
  set (OldMap := match OldState (Parms Hs) with
                 | Some _ => Some Old | None => None end).
  destruct (BuildChangedAndDeletedBuffers Hs ∅ OldMap [] [])
    as [[[Hb NewMap] Changed] Deleted] eqn:Hrun.
  (* the sender *)
  assert (Hsave :
    FastArrayDeltaSerialize Hs
    = Some (true,
            mkHelper (Items Hb) (ArraySerializer Hb)
              (set_Writer
                 (Some ([] ++ DeltaWords
                                (SentDelta
                                   (ArrayReplicationKey (ArraySerializer Hs))
                                   Base Deleted Changed (Items Hb))))
                 (set_NewState (Some (length (States Hs))) (Parms Hs)))
              (States Hs
               ++ [BaseState.mk NewMap
                     (ArrayReplicationKey (ArraySerializer Hb))])
              (Calls Hs))).
  { unfold FastArrayDeltaSerialize, ConditionalRebuildItemMap.
    rewrite HW. rewrite bool_decide_eq_true_2 by eauto.
    cbn [negb andb orb]. rewrite HW.
    apply (FastArrayDeltaSerialize_Save_go Hs [] OldMap Base); [|done].
    subst OldMap.
    destruct Hcase as [(HO & -> & ->)|(p & HO & Hst & Hne)]; rewrite HO.
    - by left.
    - right. exists p, (BaseState.mk Old Base). done. }
  assert (Hrun' : BuildChangedAndDeletedBuffers Hs ∅ (Some Old) [] []
                  = (Hb, NewMap, Changed, Deleted)).
  { subst OldMap.
    destruct Hcase as [(HO & -> & ->)|(p & HO & Hst & Hne)];
      rewrite HO in Hrun; [|done].
    by rewrite BuildChangedAndDeletedBuffers_None in Hrun. }
  clear Hrun. clearbody OldMap.
  destruct (BuildChangedAndDeletedBuffers_assigned Hs _ _ _ _ _ Hrun' HnsS)
    as (HItems & HSer & HCons).
  pose proof (BuildChangedAndDeletedBuffers_closed Hs _ _ _ _ _ Hrun')
    as (HChg & _).
  cbv zeta in HChg. cbn [default] in HChg. fold client in HChg, HCons.
  rewrite HItems in HChg.
  pose proof (BuildChangedAndDeletedBuffers_Deleted Hs Old _ _ _ _ Hold32
                Hrun') as HDel.
  fold client in HDel. rewrite HItems, HCons in HDel.
  specialize (HDel HndS).
  rewrite HItems in Hsave. cbn [app] in Hsave.
  (* the delta *)
  set (CI := ChangedItems client Old (Items Hs)).
  set (D := SentDelta (ArrayReplicationKey (ArraySerializer Hs)) Base Deleted
              Changed (Items Hs)) in *.
  assert (HDchg : dChanged D = WireEntry <$> CI).
  { unfold D, SentDelta. cbn [dChanged]. rewrite HChg.
    exact (ChangedPayloads_ChangedPairs client Old (Items Hs) []). }
  assert (HCIDs : ChangedIDs D = IDs CI).
  { unfold ChangedIDs. by rewrite HDchg, IDs_WireEntry. }
  assert (Hsub : IDs CI `sublist_of` IDs (Items Hs)).
  { unfold IDs. apply fmap_sublist. apply sublist_filter. }
  assert (HDdel : dDeleted D = Deleted) by done.
  assert (HinDel : forall d, d ∈ Deleted
                     <-> is_Some (Old !! d) /\ d ∉ IDs (Items Hs)).
  { intros d. rewrite HDel, list_elem_of_filter, list_elem_of_fmap. split.
    - intros [Hn ([k v] & -> & Hkv)]. apply elem_of_map_to_list in Hkv.
      split; [eauto|done].
    - intros [[v Hv] Hn]. split; [done|]. exists (d, v).
      split; [done|]. by apply elem_of_map_to_list. }
  assert (HinChg : forall id, id ∈ IDs CI
                     <-> exists Item, Item ∈ Items Hs
                           /\ ReplicationID Item = id
                           /\ Old !! id <> Some (ReplicationKey Item)).
  { intros id. unfold IDs, CI, ChangedItems.
    rewrite list_elem_of_fmap. split.
    - intros (x & -> & Hx). apply list_elem_of_filter in Hx as [[_ Hne] Hx].
      by exists x.
    - intros (x & Hx & <- & Hne). exists x. split; [done|].
      apply list_elem_of_filter. split; [|done]. split; [|done].
      unfold ShouldWriteFastArrayItem.
      assert (Hid : ReplicationID x <> INDEX_NONE).
      { intros Heq. apply HnsS. apply list_elem_of_fmap. by exists x. }
      apply Z.eqb_neq in Hid. rewrite Hid. by rewrite orb_true_r. }
  assert (HWF : WellFormedDelta D).
  { unfold WellFormedDelta. rewrite HDdel, HCIDs, HDchg.
    split; [|split; [|split; [|split; [|split]]]].
    - by rewrite HDel.
    - unfold Num in *. by rewrite length_fmap.
    - rewrite HDel. apply NoDup_filter, NoDup_fst_map_to_list.
    - intros id Hd Hc. apply HinDel in Hd as [_ Hd]. apply Hd.
      by eapply elem_of_sublist.
    - intros Hc. apply HnsS. by eapply elem_of_sublist.
    - apply Forall_fmap, Forall_forall. intros x _. cbn.
      eapply DecodesTo_Decodes. apply Hcodec. }
  assert (HndC : NoDup (ChangedIDs D)).
  { rewrite HCIDs. by eapply sublist_NoDup. }
  assert (Hds : Forall2 (fun e d => DecodesTo e.2 d) (dChanged D)
                  (ItemData <$> CI)).
  { rewrite HDchg. apply Forall2_fmap, Forall_Forall2_diag, Forall_forall.
    intros x _. cbn. apply Hcodec. }
  (* the receiver *)
  destruct (ReceiveWords_result Hr D (ItemData <$> CI) HOK HWF HndC Hds HNI)
    as (Hr' & Hrecv & HOK' & Hids & Hitems).
  eexists _, _, Hr'. split; [exact Hsave|].
  cbn [Parms Writer set_Writer]. split; [done|]. split; [exact Hrecv|].
  split; [done|]. split.
  - intros id. rewrite Hids, HDdel, HCIDs, HinDel, HinChg, Hsync. split.
    + intros [[Hin|(x & Hx & <- & _)] Hnd].
      * destruct (decide (id ∈ IDs (Items Hs))) as [|Hni]; [done|].
        exfalso. by apply Hnd.
      * apply list_elem_of_fmap. by exists x.
    + intros Hin. split; [|by intros [_ ?]].
      apply list_elem_of_fmap in Hin as (x & -> & Hx).
      destruct (decide (Old !! ReplicationID x = Some (ReplicationKey x)))
        as [He|Hne]; [left; by rewrite He|right; by exists x].
  - intros ItemS ItemR HS HR Hid.
    destruct (Hitems ItemR HR) as [Hown Hchanged].
    destruct (decide _) as [He|Hne].
    + apply Hown. rewrite HCIDs, HinChg, Hid.
      intros (x & Hx & Hxid & Hxne). apply Hxne.
      assert (x = ItemS); [|by subst x].
      apply list_elem_of_lookup in Hx as [i Hi].
      apply list_elem_of_lookup in HS as [j Hj].
      assert (i = j).
      { eapply (DistinctIDs_inj (Items Hs)); [by split|done..]. }
      subst i. congruence.
    + assert (HinCI : ItemS ∈ CI).
      { apply list_elem_of_filter. split; [|done]. split; [|done].
        unfold ShouldWriteFastArrayItem.
        assert (Hne' : ReplicationID ItemS <> INDEX_NONE).
        { intros Heq. apply HnsS. apply list_elem_of_fmap. by exists ItemS. }
        apply Z.eqb_neq in Hne'. rewrite Hne'. by rewrite orb_true_r. }
      apply list_elem_of_lookup in HinCI as [i Hi].
      refine (Hchanged i (WireEntry ItemS) (ItemData ItemS) _ _ _).
      * by rewrite HDchg, list_lookup_fmap, Hi.
      * by rewrite list_lookup_fmap, Hi.
      * done.
Qed.

End RoundTripFacts.

(** The decoder of the example item type reads back the word that its
    encoder writes. *)
Lemma ExampleItemType_CodecRoundTrips : @CodecRoundTrips ExampleItemType.
Proof. intros d Rest Data. reflexivity. Qed.

(** A sender with records 1 (as the receiver has it), 2 (changed) and 4
    (new), against an old map with ids 1, 2 and 3; the receiver holds
    records 1, 2 and 3. *)
Lemma FastArrayDeltaSerialize_replicates_the_array_witness :
  let Old : gmap Z Z := {[ 1 := 0; 2 := 0; 3 := 0 ]} in
  let Hs := ExampleHelper
              [ExampleItem 1 0 INDEX_NONE 10; ExampleItem 2 1 INDEX_NONE 21;
               ExampleItem 4 0 INDEX_NONE 40]
              ∅ 5 (WritingParms (Some 0%nat)) [BaseState.mk Old 3] in
  let Hr := ExampleHelper
              [ExampleItem 1 0 2 10; ExampleItem 2 0 2 20;
               ExampleItem 3 0 3 30]
              ∅ 0 (ReadingParms [] false) [] in
  exists Hs' W Hr',
    @FastArrayDeltaSerialize ExampleItemType ExampleLimits Hs
    = Some (true, Hs')
    /\ Writer (Parms Hs') = Some W
    /\ @ReceiveWords ExampleItemType ExampleLimits Hr W = Some (true, Hr')
    /\ (forall id, id ∈ IDs (Items Hr') <-> id ∈ [1; 2; 4]).
Proof.
  cbv zeta.
  set (Old := ({[ 1 := 0; 2 := 0; 3 := 0 ]} : gmap Z Z)).
  set (Hs := ExampleHelper _ ∅ 5 _ _).
  set (Hr := ExampleHelper _ ∅ 0 _ _).
  destruct (@FastArrayDeltaSerialize_replicates_the_array ExampleItemType
              ExampleLimits Hs Hr Old 3)
    as (Hs' & W & Hr' & Hsend & HW & Hrecv & _ & Hids & _).
  - exact ExampleItemType_CodecRoundTrips.
  - reflexivity.
  - right. exists 0%nat. split; [reflexivity|]. split; [reflexivity|].
    by vm_compute.
  - split; compute_done.
  - by vm_compute.
  - by vm_compute.
  - by vm_compute.
  - split; [reflexivity|]. split; [split; compute_done|].
    left. by vm_compute.
  - intros id. change (IDs (Items Hr)) with [1; 2; 3]. unfold Old.
    rewrite !lookup_insert_is_Some, lookup_singleton_is_Some.
    rewrite !elem_of_cons, elem_of_nil.
    destruct (decide (id = 1)) as [->|?]; [split; [by left|by left]|].
    destruct (decide (id = 2)) as [->|?];
      [split; [by right; split; [|left]|by right; left]|].
    split.
    + intros [?|[?|[->|[]]]]; [done..|].
      right. split; [done|]. right. split; done.
    + intros [?|[_ [?|[_ ?]]]]; [done..|]. right. right. by left.
  - right. intros Item HItem.
    change (Items Hr) with [ExampleItem 1 0 2 10; ExampleItem 2 0 2 20;
                            ExampleItem 3 0 3 30] in HItem.
    rewrite !elem_of_cons, elem_of_nil in HItem.
    destruct HItem as [->|[->|[->|[]]]]; by vm_compute.
  - exists Hs', W, Hr'. split; [exact Hsend|]. split; [exact HW|].
    split; [exact Hrecv|]. exact Hids.
Defined.
